(** * myglyfada-backend: the request handlers over the relational store

    A shallow embedding of the Express controllers of the municipal
    issue tracker (issue, excel, photo, category, auth and user
    controllers) together with the part of the Prisma client they call.

    - The relational store is a record of tables, each a list of rows in
      insertion order.  A Prisma call that rejects its arguments or breaks
      a constraint throws; it is an [exn] here and the handlers' [catch]
      turns it into a 500 reply.
    - A JSON request body is a JavaScript object: a finite map from keys
      to JavaScript values.  A Prisma [where] argument is a JavaScript
      object as well, so assigning a key twice overwrites it.
    - The upload directory is a finite set of paths.
    - What a handler cannot compute from its arguments (the clock,
      generated identifiers, reference numbers) is passed to it.
    - The routes put [validate(schema)] before the handlers that read a
      body.  The handlers are modelled on any body: a value of the wrong
      type reaches Prisma, which throws. *)

From Stdlib Require Import ZArith String Ascii List Bool Lia DecimalString.
From Stdlib Require Import Floats.PrimFloat.
From stdpp Require Import base option list sorting gmap strings.

Open Scope string_scope.

(** ** Enumerations of the schema *)

Inductive UserRole := ADMIN | SUPERVISOR | USER | OFFICE.
Inductive IssueStatus := PENDING | IN_PROGRESS | COMPLETED | REJECTED | CANCELLED.
Inductive IssuePriority := LOW | MEDIUM | HIGH | EMERGENCY.

Global Instance UserRole_eq_dec : EqDecision UserRole.
Proof. solve_decision. Defined.
Global Instance IssueStatus_eq_dec : EqDecision IssueStatus.
Proof. solve_decision. Defined.
Global Instance IssuePriority_eq_dec : EqDecision IssuePriority.
Proof. solve_decision. Defined.

Definition status_name (s : IssueStatus) : string :=
  match s with
  | PENDING => "PENDING" | IN_PROGRESS => "IN_PROGRESS" | COMPLETED => "COMPLETED"
  | REJECTED => "REJECTED" | CANCELLED => "CANCELLED"
  end.

Definition priority_name (p : IssuePriority) : string :=
  match p with
  | LOW => "LOW" | MEDIUM => "MEDIUM" | HIGH => "HIGH" | EMERGENCY => "EMERGENCY"
  end.

Definition role_name (r : UserRole) : string :=
  match r with
  | ADMIN => "ADMIN" | SUPERVISOR => "SUPERVISOR" | USER => "USER" | OFFICE => "OFFICE"
  end.

Definition parse_enum {A} (name : A -> string) (all : list A) (s : string) : option A :=
  find (fun a => String.eqb (name a) s) all.

Definition parse_status : string -> option IssueStatus :=
  parse_enum status_name [PENDING; IN_PROGRESS; COMPLETED; REJECTED; CANCELLED].
Definition parse_priority : string -> option IssuePriority :=
  parse_enum priority_name [LOW; MEDIUM; HIGH; EMERGENCY].
Definition parse_role : string -> option UserRole :=
  parse_enum role_name [ADMIN; SUPERVISOR; USER; OFFICE].

(** ** JavaScript values *)

(** A [Date] holds a time in milliseconds, or is an Invalid Date. *)
Definition JsDate := option Z.

Inductive JsVal :=
| JNull
| JBool (b : bool)
| JNum (x : float)
| JStr (s : string)
| JDate (d : JsDate)
| JOther.                       (* arrays and nested objects *)

(** [undefined] is the absence of a value. *)
Abbreviation JsObject := (gmap string JsVal).

(** ToBoolean. *)
Definition truthy (v : option JsVal) : bool :=
  match v with
  | None | Some JNull => false
  | Some (JBool b) => b
  | Some (JNum x) => negb (PrimFloat.is_zero x || PrimFloat.is_nan x)
  | Some (JStr s) => negb (String.eqb s "")
  | Some (JDate _) | Some JOther => true
  end.

Definition truthy_string (s : string) : bool := negb (String.eqb s "").

(** An object literal [{ k1: v1, ... }]; a property whose value is
    [undefined] is one Prisma ignores, so it is left out. *)
Definition object (props : list (string * option JsVal)) : JsObject :=
  foldr (fun kv o => match kv.2 with Some v => <[kv.1 := v]> o | None => o end) ∅ props.

(** ** Exceptions *)

Inductive exn (A : Type) :=
| Ok (a : A)
| Throw (message : string).
Arguments Ok {A} a.
Arguments Throw {A} message.

Global Instance exn_ret : MRet exn := fun _ a => Ok a.
Global Instance exn_bind : MBind exn := fun _ _ f m =>
  match m with Ok a => f a | Throw e => Throw e end.

(** ** Strings *)

Definition lower_ascii (c : ascii) : ascii :=
  let n := nat_of_ascii c in
  if (65 <=? n)%nat && (n <=? 90)%nat then ascii_of_nat (n + 32) else c.

Fixpoint toLowerCase (s : string) : string :=
  match s with
  | EmptyString => EmptyString
  | String c t => String (lower_ascii c) (toLowerCase t)
  end.

Fixpoint includes (needle hay : string) : bool :=
  String.prefix needle hay ||
  match hay with
  | EmptyString => false
  | String _ t => includes needle t
  end.

(** [{ contains: s, mode: 'insensitive' }]; letters outside ASCII are
    compared as they are. *)
Definition contains_insensitive (needle hay : string) : bool :=
  includes (toLowerCase needle) (toLowerCase hay).

(** Decimal rendering of a number in a template literal. *)
Definition show_nat (n : nat) : string := NilZero.string_of_uint (Nat.to_uint n).
Definition show_Z (z : Z) : string := NilZero.string_of_int (Z.to_int z).

(** [parseInt(s)] with no radix: leading white space is skipped, then an
    optional sign, then [0x] or [0X] selects radix 16 and anything else
    radix 10, then the longest run of digits of that radix is read; [None]
    is NaN (no digit).  Strings are sequences of UTF-8 bytes, so the white
    space of JavaScript outside ASCII is matched as its byte sequence. *)
Definition bytes (l : list nat) : string :=
  fold_right (fun n s => String (ascii_of_nat n) s) EmptyString l.

Definition white_space : list string :=
  map bytes
    [[9]; [10]; [11]; [12]; [13]; [32]; [194; 160]; [225; 154; 128];
     [226; 128; 128]; [226; 128; 129]; [226; 128; 130]; [226; 128; 131];
     [226; 128; 132]; [226; 128; 133]; [226; 128; 134]; [226; 128; 135];
     [226; 128; 136]; [226; 128; 137]; [226; 128; 138]; [226; 128; 168];
     [226; 128; 169]; [226; 128; 175]; [226; 129; 159]; [227; 128; 128];
     [239; 187; 191]]%nat.

Fixpoint drop_chars (n : nat) (s : string) : string :=
  match n, s with
  | S n', String _ t => drop_chars n' t
  | _, _ => s
  end.

Fixpoint skip_white_space (fuel : nat) (s : string) : string :=
  match fuel with
  | O => s
  | S fuel' =>
      match List.find (fun w => String.prefix w s) white_space with
      | Some w => skip_white_space fuel' (drop_chars (String.length w) s)
      | None => s
      end
  end.

(** Every white space takes a character at least, so the length of the
    string is fuel enough. *)
Definition skip_blanks (s : string) : string := skip_white_space (String.length s) s.

Definition digit_of (radix : Z) (c : ascii) : option Z :=
  let n := nat_of_ascii c in
  let value :=
    if (48 <=? n)%nat && (n <=? 57)%nat then Some (Z.of_nat (n - 48))
    else if (97 <=? n)%nat && (n <=? 122)%nat then Some (Z.of_nat (n - 87))
    else if (65 <=? n)%nat && (n <=? 90)%nat then Some (Z.of_nat (n - 55))
    else None in
  match value with
  | Some d => if (d <? radix)%Z then Some d else None
  | None => None
  end.

Fixpoint digits_value (radix acc : Z) (s : string) : Z :=
  match s with
  | String c t =>
      match digit_of radix c with
      | Some d => digits_value radix (radix * acc + d) t
      | None => acc
      end
  | EmptyString => acc
  end.

Definition parse_digits (radix : Z) (s : string) : option Z :=
  match s with
  | String c _ =>
      match digit_of radix c with
      | Some _ => Some (digits_value radix 0 s)
      | None => None
      end
  | EmptyString => None
  end.

Definition parse_unsigned (s : string) : option Z :=
  match s with
  | String "0" (String "x" t) | String "0" (String "X" t) => parse_digits 16 t
  | _ => parse_digits 10 s
  end.

Definition parseInt (s : string) : option Z :=
  match skip_blanks s with
  | String "-" t => Z.opp <$> parse_unsigned t
  | String "+" t => parse_unsigned t
  | t => parse_unsigned t
  end.

(** ** Tables

    Rows carry the columns the handlers read or write.  The
    ORM-maintained [updatedAt] stamp and the never-used
    [estimatedCompletionDate] are left out.  The coordinates of an issue
    are the [DOUBLE PRECISION NOT NULL] columns of the migration: a row
    always has them. *)

Record User := mkUser {
  u_id : string;
  u_email : string;
  u_username : string;
  u_password : string;
  u_firstName : string;
  u_lastName : string;
  u_phone : option string;
  u_role : UserRole;
  u_isActive : bool;
  u_createdAt : Z }.

Record Category := mkCategory {
  c_id : string;
  c_name : string;
  c_nameEn : option string;
  c_color : string;
  c_isActive : bool }.

Record Subcategory := mkSubcategory {
  s_id : string;
  s_name : string;
  s_estimatedDays : option Z;
  s_isActive : bool;
  s_categoryId : string }.

Record Issue := mkIssue {
  i_id : string;
  i_title : string;
  i_description : string;
  i_address : string;
  i_latitude : float;
  i_longitude : float;
  i_status : IssueStatus;
  i_priority : IssuePriority;
  i_isEmergency : bool;
  i_referenceNumber : string;
  i_completedAt : option Z;
  i_createdAt : Z;
  i_categoryId : string;
  i_subcategoryId : option string;
  i_createdById : string;
  i_assignedToId : option string }.

Record Photo := mkPhoto {
  p_id : string;
  p_filename : string;
  p_originalName : string;
  p_mimeType : string;
  p_size : Z;
  p_path : string;
  p_description : option string;
  p_createdAt : Z;
  p_issueId : string;
  p_uploadedById : string }.

Record Comment := mkComment {
  cm_id : string;
  cm_isInternal : bool;
  cm_issueId : string;
  cm_userId : string }.

Record Db := mkDb {
  users : list User;
  categories : list Category;
  subcategories : list Subcategory;
  issues : list Issue;
  photos : list Photo;
  comments : list Comment }.

Definition set_users (l : list User) (db : Db) : Db :=
  mkDb l (categories db) (subcategories db) (issues db) (photos db) (comments db).
Definition set_categories (l : list Category) (db : Db) : Db :=
  mkDb (users db) l (subcategories db) (issues db) (photos db) (comments db).
Definition set_subcategories (l : list Subcategory) (db : Db) : Db :=
  mkDb (users db) (categories db) l (issues db) (photos db) (comments db).
Definition set_issues (l : list Issue) (db : Db) : Db :=
  mkDb (users db) (categories db) (subcategories db) l (photos db) (comments db).
Definition set_photos (l : list Photo) (db : Db) : Db :=
  mkDb (users db) (categories db) (subcategories db) (issues db) l (comments db).

(** ** Prisma [where] arguments on issues *)

Inductive FieldCond :=
| FEq (s : string)                       (* column: s *)
| FNull                                  (* column: null *)
| FBool (b : bool)                       (* column: b *)
| FIn (l : list string)                  (* column: { in: l } *)
| FRange (gte lte : option JsDate)       (* column: { gte, lte } *)
| FContains (s : string).                (* column: { contains: s, mode: 'insensitive' } *)

Inductive WhereVal :=
| WField (c : FieldCond)
| WOR (alternatives : list (string * FieldCond)).   (* OR: [ { k: c }, ... ] *)

Abbreviation IssueWhere := (gmap string WhereVal).

Definition date_ok (d : option JsDate) : bool :=
  match d with Some None => false | _ => true end.

(** Whether Prisma accepts the condition [c] on column [k] of an issue. *)
Definition field_valid (k : string) (c : FieldCond) : bool :=
  match c with
  | FEq _ =>
      bool_decide (k ∈ ["id"; "title"; "description"; "address"; "referenceNumber";
                        "categoryId"; "subcategoryId"; "createdById"; "assignedToId"])
  | FNull => bool_decide (k ∈ ["subcategoryId"; "assignedToId"; "completedAt"])
  | FBool _ => bool_decide (k = "isEmergency")
  | FIn l =>
      if decide (k = "status") then forallb (fun s => bool_decide (is_Some (parse_status s))) l
      else if decide (k = "priority") then forallb (fun s => bool_decide (is_Some (parse_priority s))) l
      else false
  | FRange gte lte => bool_decide (k = "createdAt") && date_ok gte && date_ok lte
  | FContains _ => bool_decide (k ∈ ["title"; "description"; "address"; "referenceNumber"])
  end.

Definition text_column (k : string) (i : Issue) : option string :=
  if decide (k = "id") then Some (i_id i)
  else if decide (k = "title") then Some (i_title i)
  else if decide (k = "description") then Some (i_description i)
  else if decide (k = "address") then Some (i_address i)
  else if decide (k = "referenceNumber") then Some (i_referenceNumber i)
  else if decide (k = "categoryId") then Some (i_categoryId i)
  else if decide (k = "subcategoryId") then i_subcategoryId i
  else if decide (k = "createdById") then Some (i_createdById i)
  else if decide (k = "assignedToId") then i_assignedToId i
  else None.

(** Whether issue [i] satisfies the (accepted) condition [c] on column [k]. *)
Definition field_holds (k : string) (c : FieldCond) (i : Issue) : bool :=
  match c with
  | FEq s => bool_decide (text_column k i = Some s)
  | FNull =>
      if decide (k = "completedAt") then bool_decide (i_completedAt i = None)
      else bool_decide (text_column k i = None)
  | FBool b => bool_decide (i_isEmergency i = b)
  | FIn l =>
      if decide (k = "status") then bool_decide (status_name (i_status i) ∈ l)
      else bool_decide (priority_name (i_priority i) ∈ l)
  | FRange gte lte =>
      match gte with Some (Some t) => (t <=? i_createdAt i)%Z | _ => true end &&
      match lte with Some (Some t) => (i_createdAt i <=? t)%Z | _ => true end
  | FContains s =>
      match text_column k i with
      | Some v => contains_insensitive s v
      | None => false
      end
  end.

Definition entry_valid (k : string) (v : WhereVal) : bool :=
  match v with
  | WField c => negb (bool_decide (k = "OR")) && field_valid k c
  | WOR alts => bool_decide (k = "OR") && forallb (fun kc => field_valid kc.1 kc.2) alts
  end.

Definition entry_holds (k : string) (v : WhereVal) (i : Issue) : bool :=
  match v with
  | WField c => field_holds k c i
  | WOR alts => existsb (fun kc => field_holds kc.1 kc.2 i) alts
  end.

(** The keys of a [where] object are combined with AND. *)
Definition where_valid (w : IssueWhere) : bool :=
  bool_decide (map_Forall (fun k v => entry_valid k v = true) w).

Definition where_holds (w : IssueWhere) (i : Issue) : bool :=
  bool_decide (map_Forall (fun k v => entry_holds k v i = true) w).

(** ** The Prisma client

    Each operation reads the store and, when it writes, returns the new
    one.  Argument validation and constraint violations throw. *)

Module prisma.

Definition validation {A} : exn A := Throw "PrismaClientValidationError".
Definition unique_violation {A} : exn A := Throw "P2002: Unique constraint failed".
Definition foreign_key_violation {A} : exn A := Throw "P2003: Foreign key constraint failed".
Definition not_found {A} : exn A := Throw "P2025: Record not found".

(** A required [String] argument. *)
Definition arg_string (v : option JsVal) : exn string :=
  match v with Some (JStr s) => Ok s | _ => validation end.

(** Decoders of one property of a [data] argument.  [dflt] is what the
    column holds when the property is absent: the schema default on
    create ([None] when the column has none), the stored value on update. *)
Definition col_string (dflt : option string) (v : option JsVal) : exn string :=
  match v, dflt with
  | Some (JStr s), _ => Ok s
  | None, Some d => Ok d
  | _, _ => validation
  end.

Definition col_nullable_string (dflt : option string) (v : option JsVal) : exn (option string) :=
  match v with
  | Some (JStr s) => Ok (Some s)
  | Some JNull => Ok None
  | None => Ok dflt
  | _ => validation
  end.

Definition col_float (dflt : option float) (v : option JsVal) : exn float :=
  match v, dflt with
  | Some (JNum x), _ => Ok x
  | None, Some d => Ok d
  | _, _ => validation
  end.

Definition col_nullable_date (dflt : option Z) (v : option JsVal) : exn (option Z) :=
  match v with
  | Some (JDate (Some t)) => Ok (Some t)
  | Some JNull => Ok None
  | None => Ok dflt
  | _ => validation
  end.

Definition col_bool (dflt : bool) (v : option JsVal) : exn bool :=
  match v with
  | Some (JBool b) => Ok b
  | None => Ok dflt
  | _ => validation
  end.

Definition col_enum {A} (parse : string -> option A) (dflt : A) (v : option JsVal) : exn A :=
  match v with
  | Some (JStr s) => match parse s with Some a => Ok a | None => validation end
  | None => Ok dflt
  | _ => validation
  end.

Definition check (b : bool) (e : exn unit) : exn unit := if b then Ok tt else e.

(** An [orderBy] argument as the relation the result is sorted by. *)
Definition ordered {A} (le : A -> A -> bool) : relation A := fun a b => le a b = true.

Global Instance ordered_dec {A} (le : A -> A -> bool) (a b : A) : Decision (ordered le a b).
Proof. unfold ordered. apply _. Defined.
Global Typeclasses Opaque ordered.

Module category.

Definition exists_id (db : Db) (id : string) : bool :=
  existsb (fun c => bool_decide (c_id c = id)) (categories db).

(** [findUnique({ where: { id, isActive } })] *)
Definition findUnique (db : Db) (id : string) (isActive : bool) : option Category :=
  List.find (fun c => bool_decide (c_id c = id) && bool_decide (c_isActive c = isActive))
            (categories db).

(** [findFirst({ where: { name, isActive } })] *)
Definition findFirst (db : Db) (name : string) (isActive : bool) : option Category :=
  List.find (fun c => bool_decide (c_name c = name) && bool_decide (c_isActive c = isActive))
            (categories db).

(** [update({ where: { id }, data })]; [data] is the change it makes to the row. *)
Definition update (db : Db) (id : string) (data : Category -> Category) : exn Db :=
  if exists_id db id
  then Ok (set_categories
             (map (fun c => if decide (c_id c = id) then data c else c) (categories db)) db)
  else not_found.

End category.

Module subcategory.

Definition exists_id (db : Db) (id : string) : bool :=
  existsb (fun s => bool_decide (s_id s = id)) (subcategories db).

(** [findFirst({ where: { id, categoryId, isActive } })] *)
Definition findFirst (db : Db) (id categoryId : string) (isActive : bool) : option Subcategory :=
  List.find (fun s => bool_decide (s_id s = id) && bool_decide (s_categoryId s = categoryId)
                      && bool_decide (s_isActive s = isActive))
            (subcategories db).

(** [updateMany({ where: { categoryId }, data })] *)
Definition updateMany (db : Db) (categoryId : string) (data : Subcategory -> Subcategory) : Db :=
  set_subcategories
    (map (fun s => if decide (s_categoryId s = categoryId) then data s else s)
         (subcategories db)) db.

End subcategory.

Module user.

Definition exists_id (db : Db) (id : string) : bool :=
  existsb (fun u => bool_decide (u_id u = id)) (users db).

(** [findUnique({ where: { id } })] *)
Definition findUnique (db : Db) (id : string) : option User :=
  List.find (fun u => bool_decide (u_id u = id)) (users db).

(** [findFirst({ where: { OR: [ { email }, { username } ] } })] *)
Definition findFirst (db : Db) (email username : string) : option User :=
  List.find (fun u => bool_decide (u_email u = email) || bool_decide (u_username u = username))
            (users db).

Definition columns : list string :=
  ["email"; "username"; "password"; "firstName"; "lastName"; "phone"; "role"; "isActive"].

(** [create({ data })]: [role] defaults to USER and [isActive] to true;
    [email] and [username] are unique. *)
Definition create (db : Db) (id : string) (now : Z) (data : JsObject) : exn (User * Db) :=
  _ ← check (bool_decide (dom data ⊆ list_to_set columns)) validation;
  email ← col_string None (data !! "email");
  username ← col_string None (data !! "username");
  password ← col_string None (data !! "password");
  firstName ← col_string None (data !! "firstName");
  lastName ← col_string None (data !! "lastName");
  phone ← col_nullable_string None (data !! "phone");
  role ← col_enum parse_role USER (data !! "role");
  isActive ← col_bool true (data !! "isActive");
  _ ← check (negb (existsb (fun u => bool_decide (u_email u = email)
                                     || bool_decide (u_username u = username)
                                     || bool_decide (u_id u = id)) (users db)))
            unique_violation;
  let u := mkUser id email username password firstName lastName phone role isActive now in
  Ok (u, set_users (users db ++ [u]) db).

(** [update({ where: { id }, data })] *)
Definition update (db : Db) (id : string) (data : User -> User) : exn Db :=
  if exists_id db id
  then Ok (set_users (map (fun u => if decide (u_id u = id) then data u else u) (users db)) db)
  else not_found.

(** [delete({ where: { id } })]: rows that must keep their user restrict
    the deletion; an assignment to the user is set to null. *)
Definition delete (db : Db) (id : string) : exn Db :=
  _ ← check (exists_id db id) not_found;
  _ ← check (negb (existsb (fun i => bool_decide (i_createdById i = id)) (issues db)
                   || existsb (fun p => bool_decide (p_uploadedById p = id)) (photos db)
                   || existsb (fun c => bool_decide (cm_userId c = id)) (comments db)))
            foreign_key_violation;
  Ok (set_users (List.filter (fun u => negb (bool_decide (u_id u = id))) (users db))
        (set_issues
           (map (fun i => if decide (i_assignedToId i = Some id)
                          then mkIssue (i_id i) (i_title i) (i_description i) (i_address i)
                                 (i_latitude i) (i_longitude i) (i_status i) (i_priority i)
                                 (i_isEmergency i) (i_referenceNumber i) (i_completedAt i)
                                 (i_createdAt i) (i_categoryId i) (i_subcategoryId i)
                                 (i_createdById i) None
                          else i) (issues db)) db)).

End user.

Module issue.

Definition columns : list string :=
  ["title"; "description"; "address"; "latitude"; "longitude"; "status"; "priority";
   "isEmergency"; "referenceNumber"; "completedAt"; "categoryId"; "subcategoryId";
   "createdById"; "assignedToId"].

Definition present (data : JsObject) (k : string) : bool :=
  bool_decide (is_Some (data !! k)).

(** [findUnique({ where: { id } })] *)
Definition findUnique (db : Db) (id : string) : option Issue :=
  List.find (fun i => bool_decide (i_id i = id)) (issues db).

(** The row that [data] describes: on create ([old = None]) over the
    schema defaults, on update over the stored row. *)
Definition row (id : string) (createdAt : Z) (old : option Issue) (data : JsObject)
  : exn Issue :=
  title ← col_string (i_title <$> old) (data !! "title");
  description ← col_string (i_description <$> old) (data !! "description");
  address ← col_string (i_address <$> old) (data !! "address");
  latitude ← col_float (i_latitude <$> old) (data !! "latitude");
  longitude ← col_float (i_longitude <$> old) (data !! "longitude");
  status ← col_enum parse_status (default PENDING (i_status <$> old)) (data !! "status");
  priority ← col_enum parse_priority (default MEDIUM (i_priority <$> old)) (data !! "priority");
  isEmergency ← col_bool (default false (i_isEmergency <$> old)) (data !! "isEmergency");
  referenceNumber ← col_string (i_referenceNumber <$> old) (data !! "referenceNumber");
  completedAt ← col_nullable_date (old ≫= i_completedAt) (data !! "completedAt");
  categoryId ← col_string (i_categoryId <$> old) (data !! "categoryId");
  subcategoryId ← col_nullable_string (old ≫= i_subcategoryId) (data !! "subcategoryId");
  createdById ← col_string (i_createdById <$> old) (data !! "createdById");
  assignedToId ← col_nullable_string (old ≫= i_assignedToId) (data !! "assignedToId");
  Ok (mkIssue id title description address latitude longitude status priority isEmergency
        referenceNumber completedAt createdAt categoryId subcategoryId createdById
        assignedToId).

(** The foreign keys of the columns that are written ([written k]). *)
Definition references_ok (db : Db) (written : string -> bool) (i : Issue) : bool :=
  (negb (written "categoryId") || category.exists_id db (i_categoryId i))
  && (negb (written "subcategoryId")
      || match i_subcategoryId i with Some s => subcategory.exists_id db s | None => true end)
  && (negb (written "createdById") || user.exists_id db (i_createdById i))
  && (negb (written "assignedToId")
      || match i_assignedToId i with Some u => user.exists_id db u | None => true end).

(** [create({ data })] *)
Definition create (db : Db) (id : string) (now : Z) (data : JsObject) : exn (Issue * Db) :=
  _ ← check (bool_decide (dom data ⊆ list_to_set columns)) validation;
  i ← row id now None data;
  _ ← check (references_ok db (fun _ => true) i) foreign_key_violation;
  _ ← check (negb (existsb (fun j => bool_decide (i_referenceNumber j = i_referenceNumber i)
                                     || bool_decide (i_id j = id)) (issues db)))
            unique_violation;
  Ok (i, set_issues (issues db ++ [i]) db).

(** [update({ where: { id }, data })] *)
Definition update (db : Db) (id : string) (data : JsObject) : exn (Issue * Db) :=
  _ ← check (bool_decide (dom data ⊆ list_to_set columns)) validation;
  old ← match findUnique db id with Some i => Ok i | None => not_found end;
  i ← row id (i_createdAt old) (Some old) data;
  _ ← check (references_ok db (present data) i) foreign_key_violation;
  _ ← check (negb (present data "referenceNumber"
                   && existsb (fun j => negb (bool_decide (i_id j = id))
                                        && bool_decide (i_referenceNumber j = i_referenceNumber i))
                              (issues db)))
            unique_violation;
  Ok (i, set_issues (map (fun j => if decide (i_id j = id) then i else j) (issues db)) db).

Definition sort_by (le : Issue -> Issue -> bool) (l : list Issue) : list Issue :=
  merge_sort (ordered le) l.

(** [skip] rows are passed over, then [take] rows are returned: from the
    front, or from the back when [take] is negative. *)
Definition window (skip : Z) (take : option Z) (l : list Issue) : list Issue :=
  match take with
  | None => drop (Z.to_nat skip) l
  | Some n =>
      if (0 <=? n)%Z then firstn (Z.to_nat n) (drop (Z.to_nat skip) l)
      else rev (firstn (Z.to_nat (- n)) (drop (Z.to_nat skip) (rev l)))
  end.

(** [findMany({ where, orderBy, skip, take })] *)
Definition findMany (db : Db) (w : IssueWhere) (orderBy : Issue -> Issue -> bool)
                    (skip : Z) (take : option Z) : exn (list Issue) :=
  _ ← check (where_valid w) validation;
  _ ← check (0 <=? skip)%Z validation;
  Ok (window skip take (sort_by orderBy (List.filter (where_holds w) (issues db)))).

(** [count({ where })] *)
Definition count (db : Db) (w : IssueWhere) : exn Z :=
  _ ← check (where_valid w) validation;
  Ok (Z.of_nat (length (List.filter (where_holds w) (issues db)))).

End issue.

Module photo.

(** [count({ where: { issueId } })] *)
Definition count (db : Db) (issueId : string) : Z :=
  Z.of_nat (length (List.filter (fun p => bool_decide (p_issueId p = issueId)) (photos db))).

Record CreateInput := mkCreateInput {
  filename : string;
  originalName : string;
  mimeType : string;
  size : Z;
  path : string;
  description : JsVal;
  issueId : string;
  uploadedById : string }.

Definition row (db : Db) (id : string) (now : Z) (d : CreateInput) : exn Photo :=
  descr ← col_nullable_string None (Some (description d));
  _ ← check (existsb (fun i => bool_decide (i_id i = issueId d)) (issues db)
             && user.exists_id db (uploadedById d)) foreign_key_violation;
  Ok (mkPhoto id (filename d) (originalName d) (mimeType d) (size d) (path d) descr now
        (issueId d) (uploadedById d)).

Fixpoint rows (db : Db) (newId : nat -> string) (now : Z) (k : nat) (data : list CreateInput)
  : exn (list Photo) :=
  match data with
  | [] => Ok []
  | d :: data' =>
      p ← row db (newId k) now d;
      ps ← rows db newId now (S k) data';
      Ok (p :: ps)
  end.

(** [createMany({ data })]: one statement, all rows or none. *)
Definition createMany (db : Db) (newId : nat -> string) (now : Z) (data : list CreateInput)
  : exn (Z * Db) :=
  ps ← rows db newId now 0 data;
  _ ← check (bool_decide (NoDup (map p_id (photos db ++ ps)))) unique_violation;
  Ok (Z.of_nat (length ps), set_photos (photos db ++ ps) db).

(** [findMany({ where: { issueId, uploadedById }, orderBy: { createdAt: 'desc' }, take })] *)
Definition findMany (db : Db) (issueId uploadedById : string) (take : nat) : list Photo :=
  firstn take
    (merge_sort (ordered (fun a b => (p_createdAt b <=? p_createdAt a)%Z))
       (List.filter (fun p => bool_decide (p_issueId p = issueId)
                              && bool_decide (p_uploadedById p = uploadedById))
          (photos db))).

End photo.

End prisma.

(** ** Requests and replies *)

(** [req.user], as the [authenticate] middleware sets it. *)
Record AuthUser := mkAuthUser {
  au_id : string;
  au_email : string;
  au_role : UserRole }.

Record Pagination := mkPagination {
  pg_page : Z;
  pg_limit : Z;
  pg_total : Z;
  pg_pages : option Z }.            (* [None]: not a finite number *)

Record ImportResults := mkImportResults {
  successful : Z;
  failed : Z;
  errors : list string }.

(** A user as a reply shows it: without the password. *)
Record UserView := mkUserView {
  v_id : string;
  v_email : string;
  v_username : string;
  v_firstName : string;
  v_lastName : string;
  v_phone : option string;
  v_role : UserRole;
  v_isActive : bool;
  v_createdAt : Z }.

(** A data row of the exported worksheet, column by column. *)
Record ExportRow := mkExportRow {
  r_referenceNumber : string;
  r_title : string;
  r_description : string;
  r_address : string;
  r_category : string;
  r_subcategory : string;
  r_status : string;
  r_priority : string;
  r_isEmergency : string;
  r_createdBy : string;
  r_createdByEmail : string;
  r_createdByPhone : string;
  r_assignedTo : string;
  r_createdAt : string;
  r_completedAt : string;
  r_photoCount : Z;
  r_commentCount : Z;
  r_latitude : option float;        (* [None]: the empty cell *)
  r_longitude : option float }.

(** The worksheet: its data rows, then the summary block. *)
Record Workbook := mkWorkbook {
  wb_rows : list ExportRow;
  wb_total : Z;
  wb_statusCounts : list (string * Z);
  wb_emergencyCount : Z }.

Inductive Payload :=
| NoData
| DataIssue (issue : Issue)
| DataIssues (issues : list Issue) (pagination : Pagination)
| DataUser (user : UserView) (token : string)
| DataImport (importResults : ImportResults)
| DataPhotos (photos : list Photo)
| DataXlsx (workbook : Workbook).

Record Response := mkResponse {
  status : Z;
  success : bool;
  message : string;
  data : Payload }.

(** [res.status(code).json({ success: false, message })] *)
Definition failure (code : Z) (msg : string) : Response := mkResponse code false msg NoData.

(** [res.status(code).json({ success: true, message, data })] *)
Definition reply (code : Z) (msg : string) (d : Payload) : Response := mkResponse code true msg d.

Definition internal_error : Response := failure 500 "Internal server error".

(** [try { ... } catch (error) { res.status(500)... }]: the reply is the
    500 one and the state is the one before the handler ran, no handler
    having written to it before a call that can throw. *)
Definition catch {S} (s : S) (body : exn (Response * S)) : Response * S :=
  match body with
  | Ok r => r
  | Throw _ => (internal_error, s)
  end.

(** [req.user?.id] and [req.user?.role], when both are truthy. *)
Definition credentials (user : option AuthUser) : option (string * UserRole) :=
  match user with
  | Some u => if truthy_string (au_id u) then Some (au_id u, au_role u) else None
  | None => None
  end.

(** A destructuring default [x = d]: it applies to [undefined] only. *)
Definition default_param (d : JsVal) (v : option JsVal) : option JsVal :=
  match v with None => Some d | _ => v end.

(** [v === s] for a string literal [s]. *)
Definition strict_eq_string (v : option JsVal) (s : string) : bool :=
  match v with Some (JStr x) => String.eqb x s | _ => false end.

(** [Math.ceil(a / b)] on integers. *)
Definition ceil_div (a b : Z) : option Z :=
  if (b =? 0)%Z then None else Some (- ((- a) / b))%Z.

(** ** issue.controller.ts *)

(** [createIssue] (issue.controller.ts, lines 6-120).  [newId] is the identifier
    the store generates and [referenceNumber] what [generateReferenceNumber()]
    returns. *)
Definition createIssue (newId referenceNumber : string) (now : Z)
    (user : option AuthUser) (body : JsObject) (db : Db) : Response * Db :=
  match user with
  | Some u =>
    let userId := au_id u in
    if truthy_string userId then
      catch db (
        let title := body !! "title" in
        let description := body !! "description" in
        let address := body !! "address" in
        let latitude := body !! "latitude" in
        let longitude := body !! "longitude" in
        let categoryId := body !! "categoryId" in
        let subcategoryId := body !! "subcategoryId" in
        let priority := default_param (JStr "MEDIUM") (body !! "priority") in
        let isEmergency := default_param (JBool false) (body !! "isEmergency") in
        cid ← prisma.arg_string categoryId;
        match prisma.category.findUnique db cid true with
        | None => Ok (failure 400 "Invalid category", db)
        | Some category =>
          subcategoryFound ←
            (if truthy subcategoryId
             then sid ← prisma.arg_string subcategoryId;
                  Ok (bool_decide (is_Some (prisma.subcategory.findFirst db sid cid true)))
             else Ok true);
          if negb subcategoryFound then Ok (failure 400 "Invalid subcategory", db)
          else
            '(issue, db') ← prisma.issue.create db newId now
              (object [("title", title);
                       ("description", description);
                       ("address", address);
                       ("latitude", latitude);
                       ("longitude", longitude);
                       ("categoryId", categoryId);
                       ("subcategoryId", subcategoryId);
                       ("priority", if truthy isEmergency then Some (JStr "EMERGENCY") else priority);
                       ("isEmergency", isEmergency);
                       ("referenceNumber", Some (JStr referenceNumber));
                       ("createdById", Some (JStr userId))]);
            Ok (reply 201 "Issue created successfully" (DataIssue issue), db')
        end)
    else (failure 401 "Authentication required", db)
  | None => (failure 401 "Authentication required", db)
  end.

Definition userFields : list string :=
  ["title"; "description"; "address"; "latitude"; "longitude"].

Definition staffFields : list string :=
  ["title"; "description"; "address"; "latitude"; "longitude"; "status"; "priority";
   "assignedToId"; "categoryId"; "subcategoryId"; "isEmergency"].

(** [canUpdate] and [allowedFields] of [updateIssue]. *)
Definition updatePermission (userRole : UserRole) (userId : string) (currentIssue : Issue)
  : bool * list string :=
  if bool_decide (userRole = USER) && bool_decide (i_createdById currentIssue = userId)
  then (true, userFields)
  else if bool_decide (userRole = SUPERVISOR) || bool_decide (userRole = OFFICE)
          || bool_decide (userRole = ADMIN)
  then (true, staffFields)
  else (false, []).

(** The copy of [updateData] restricted to [allowedFields]. *)
Definition filterFields (allowedFields : list string) (updateData : JsObject) : JsObject :=
  filter (fun kv => kv.1 ∈ allowedFields) updateData.

(** The stamp of [completedAt] on a change of status to COMPLETED. *)
Definition stampCompleted (now : Z) (currentIssue : Issue) (filteredUpdateData : JsObject)
  : JsObject :=
  if strict_eq_string (filteredUpdateData !! "status") "COMPLETED"
     && negb (bool_decide (i_status currentIssue = COMPLETED))
  then <["completedAt" := JDate (Some now)]> filteredUpdateData
  else filteredUpdateData.

(** [updateIssue] (issue.controller.ts, lines 423-540); [id] is [req.params.id]. *)
Definition updateIssue (now : Z) (user : option AuthUser) (id : string) (body : JsObject)
    (db : Db) : Response * Db :=
  match credentials user with
  | None => (failure 401 "Authentication required", db)
  | Some (userId, userRole) =>
    catch db (
      let updateData := body in
      match prisma.issue.findUnique db id with
      | None => Ok (failure 404 "Issue not found", db)
      | Some currentIssue =>
        let '(canUpdate, allowedFields) := updatePermission userRole userId currentIssue in
        if negb canUpdate then Ok (failure 403 "Access denied", db)
        else
          let filteredUpdateData := filterFields allowedFields updateData in
          let filteredUpdateData := stampCompleted now currentIssue filteredUpdateData in
          '(updatedIssue, db') ← prisma.issue.update db id filteredUpdateData;
          Ok (reply 200 "Issue updated successfully" (DataIssue updatedIssue), db')
      end)
  end.

(** [req.query] of [getIssues], at the types [FilterOptions] declares. *)
Record FilterOptions := mkFilterOptions {
  f_status : option (list string);
  f_priority : option (list string);
  f_categoryId : option string;
  f_subcategoryId : option string;
  f_assignedToId : option string;
  f_createdById : option string;
  f_dateFrom : option string;
  f_dateTo : option string;
  f_isEmergency : option string;
  f_search : option string;
  f_page : option Z;
  f_limit : option Z }.

(** A query parameter that may be repeated: one string or an array. *)
Inductive QVal :=
| QStr (s : string)
| QArr (l : list string).

(** [req.query] of [exportIssues]. *)
Record ExportQuery := mkExportQuery {
  e_status : option QVal;
  e_priority : option QVal;
  e_categoryId : option string;
  e_subcategoryId : option string;
  e_dateFrom : option string;
  e_dateTo : option string;
  e_isEmergency : option string }.

Definition truthy_opt (s : option string) : bool :=
  match s with Some x => truthy_string x | None => false end.

Definition truthy_qval (v : option QVal) : bool :=
  match v with
  | Some (QStr s) => truthy_string s
  | Some (QArr _) => true
  | None => false
  end.

(** [Array.isArray(v) ? v : [v]] *)
Definition as_array (v : QVal) : list string :=
  match v with QStr s => [s] | QArr l => l end.

Definition is_staff (userRole : UserRole) : bool :=
  bool_decide (userRole = ADMIN) || bool_decide (userRole = SUPERVISOR)
  || bool_decide (userRole = OFFICE).

(** [orderBy: [{ isEmergency: 'desc' }, { createdAt: 'desc' }]] *)
Definition emergencyFirst (a b : Issue) : bool :=
  if Bool.eqb (i_isEmergency a) (i_isEmergency b)
  then (i_createdAt b <=? i_createdAt a)%Z
  else i_isEmergency a.

(** [orderBy: { createdAt: 'desc' }] *)
Definition newestFirst (a b : Issue) : bool := (i_createdAt b <=? i_createdAt a)%Z.

(** The upload directory: the paths that exist. *)
Abbreviation Disk := (gset string).

Section Handlers.

(** [new Date(s)] *)
Variable Date_parse : string -> JsDate.
(** [date.toLocaleDateString('el-GR')] *)
Variable toLocaleDateString : Z -> string.
(** [hashPassword] and [generateToken] of utils/auth, which is not part of
    the sources at hand. *)
Variable hashPassword : string -> string.
Variable generateToken : string -> string -> UserRole -> string.

(** [where.createdAt = {}] with [gte] and [lte] set from the truthy bounds. *)
Definition dateRange (dateFrom dateTo : option string) : WhereVal :=
  WField (FRange (if truthy_opt dateFrom then Date_parse <$> dateFrom else None)
                 (if truthy_opt dateTo then Date_parse <$> dateTo else None)).

(** The role-based part of the [where] clause of [getIssues]. *)
Definition roleFilter (userRole : UserRole) (userId : string) (where_ : IssueWhere)
  : IssueWhere :=
  match userRole with
  | USER => <["createdById" := WField (FEq userId)]> where_
  | SUPERVISOR =>
      <["OR" := WOR [("assignedToId", FEq userId);
                     ("assignedToId", FNull);
                     ("createdById", FEq userId)]]> where_
  | OFFICE => where_
  | ADMIN => where_
  end.

(** The [where] clause [getIssues] builds, assignment by assignment. *)
Definition getIssuesWhere (userRole : UserRole) (userId : string) (q : FilterOptions)
  : IssueWhere :=
  let where_ : IssueWhere := ∅ in
  let where_ := roleFilter userRole userId where_ in
  let where_ :=
    match f_status q with
    | Some status =>
        if (0 <? length status)%nat then <["status" := WField (FIn status)]> where_ else where_
    | None => where_
    end in
  let where_ :=
    match f_priority q with
    | Some priority =>
        if (0 <? length priority)%nat then <["priority" := WField (FIn priority)]> where_
        else where_
    | None => where_
    end in
  let where_ :=
    match f_categoryId q with
    | Some categoryId =>
        if truthy_string categoryId then <["categoryId" := WField (FEq categoryId)]> where_
        else where_
    | None => where_
    end in
  let where_ :=
    match f_subcategoryId q with
    | Some subcategoryId =>
        if truthy_string subcategoryId
        then <["subcategoryId" := WField (FEq subcategoryId)]> where_
        else where_
    | None => where_
    end in
  let where_ :=
    match f_assignedToId q with
    | Some assignedToId =>
        if truthy_string assignedToId && is_staff userRole
        then <["assignedToId" := WField (FEq assignedToId)]> where_
        else where_
    | None => where_
    end in
  let where_ :=
    match f_createdById q with
    | Some createdById =>
        if truthy_string createdById && is_staff userRole
        then <["createdById" := WField (FEq createdById)]> where_
        else where_
    | None => where_
    end in
  let where_ :=
    if truthy_opt (f_dateFrom q) || truthy_opt (f_dateTo q)
    then <["createdAt" := dateRange (f_dateFrom q) (f_dateTo q)]> where_
    else where_ in
  let where_ :=
    match f_isEmergency q with
    | Some isEmergency =>
        <["isEmergency" := WField (FBool (String.eqb isEmergency "true"))]> where_
    | None => where_
    end in
  let where_ :=
    match f_search q with
    | Some search =>
        if truthy_string search
        then <["OR" := WOR [("title", FContains search);
                            ("description", FContains search);
                            ("address", FContains search);
                            ("referenceNumber", FContains search)]]> where_
        else where_
    | None => where_
    end in
  where_.

(** [getIssues] (issue.controller.ts, lines 122-306). *)
Definition getIssues (user : option AuthUser) (q : FilterOptions) (db : Db) : Response * Db :=
  match credentials user with
  | None => (failure 401 "Authentication required", db)
  | Some (userId, userRole) =>
    catch db (
      let page := default 1%Z (f_page q) in
      let limit := default 20%Z (f_limit q) in
      let skip := ((page - 1) * limit)%Z in
      let where_ := getIssuesWhere userRole userId q in
      total ← prisma.issue.count db where_;
      issues ← prisma.issue.findMany db where_ emergencyFirst skip (Some limit);
      let pagination := mkPagination page limit total (ceil_div total limit) in
      Ok (reply 200 "Issues retrieved successfully" (DataIssues issues pagination), db))
  end.

(** ** excel.controller.ts *)

Definition lookup_table (table : list (string * string)) (k : string) : option string :=
  snd <$> List.find (fun kv => String.eqb kv.1 k) table.

(** [translations[status] || status] *)
Definition translateStatus (status : string) : string :=
  default status
    (lookup_table [("PENDING", "Εκκρεμή");
                   ("IN_PROGRESS", "Σε εξέλιξη");
                   ("COMPLETED", "Ολοκληρωμένα");
                   ("REJECTED", "Απορριφθέντα");
                   ("CANCELLED", "Ακυρωμένα")] status).

Definition translatePriority (priority : string) : string :=
  default priority
    (lookup_table [("LOW", "Χαμηλή");
                   ("MEDIUM", "Μεσαία");
                   ("HIGH", "Υψηλή");
                   ("EMERGENCY", "Επείγον")] priority).

(** Reading a property of a relation that is missing throws a TypeError. *)
Definition required {A} (o : option A) : exn A :=
  match o with Some a => Ok a | None => Throw "TypeError: Cannot read properties of null" end.

Fixpoint traverse {A B} (f : A -> exn B) (l : list A) : exn (list B) :=
  match l with
  | [] => Ok []
  | a :: l' => b ← f a; bs ← traverse f l'; Ok (b :: bs)
  end.

(** [x || ''] on a coordinate. *)
Definition or_blank (x : float) : option float :=
  if truthy (Some (JNum x)) then Some x else None.

(** The worksheet row of an issue, relations included. *)
Definition exportRow (db : Db) (issue : Issue) : exn ExportRow :=
  category ← required (List.find (fun c => bool_decide (c_id c = i_categoryId issue))
                                 (categories db));
  createdBy ← required (prisma.user.findUnique db (i_createdById issue));
  let subcategory :=
    i_subcategoryId issue ≫= fun sid =>
      List.find (fun s => bool_decide (s_id s = sid)) (subcategories db) in
  let assignedTo := i_assignedToId issue ≫= prisma.user.findUnique db in
  Ok (mkExportRow
        (i_referenceNumber issue)
        (i_title issue)
        (i_description issue)
        (i_address issue)
        (c_name category)
        (default "" (s_name <$> subcategory))
        (translateStatus (status_name (i_status issue)))
        (translatePriority (priority_name (i_priority issue)))
        (if i_isEmergency issue then "Ναι" else "Όχι")
        (u_firstName createdBy ++ " " ++ u_lastName createdBy)
        (u_email createdBy)
        (match u_phone createdBy with
         | Some p => if truthy_string p then p else ""
         | None => ""
         end)
        (match assignedTo with
         | Some a => u_firstName a ++ " " ++ u_lastName a
         | None => ""
         end)
        (toLocaleDateString (i_createdAt issue))
        (match i_completedAt issue with
         | Some t => toLocaleDateString t
         | None => ""
         end)
        (prisma.photo.count db (i_id issue))
        (Z.of_nat (length (List.filter (fun c => bool_decide (cm_issueId c = i_id issue))
                                       (comments db))))
        (or_blank (i_latitude issue))
        (or_blank (i_longitude issue))).

(** [acc[status] = (acc[status] || 0) + 1], keys in order of first use. *)
Fixpoint bump (k : string) (acc : list (string * Z)) : list (string * Z) :=
  match acc with
  | [] => [(k, 1%Z)]
  | (k', n) :: acc' =>
      if String.eqb k k' then (k', (n + 1)%Z) :: acc' else (k', n) :: bump k acc'
  end.

Definition statusCounts (issues : list Issue) : list (string * Z) :=
  fold_left (fun acc issue => bump (status_name (i_status issue)) acc) issues [].

(** The [where] clause [exportIssues] builds. *)
Definition exportWhere (q : ExportQuery) : IssueWhere :=
  let where_ : IssueWhere := ∅ in
  let where_ :=
    match e_status q with
    | Some status =>
        if truthy_qval (Some status)
        then <["status" := WField (FIn (as_array status))]> where_ else where_
    | None => where_
    end in
  let where_ :=
    match e_priority q with
    | Some priority =>
        if truthy_qval (Some priority)
        then <["priority" := WField (FIn (as_array priority))]> where_ else where_
    | None => where_
    end in
  let where_ :=
    match e_categoryId q with
    | Some categoryId =>
        if truthy_string categoryId then <["categoryId" := WField (FEq categoryId)]> where_
        else where_
    | None => where_
    end in
  let where_ :=
    match e_subcategoryId q with
    | Some subcategoryId =>
        if truthy_string subcategoryId
        then <["subcategoryId" := WField (FEq subcategoryId)]> where_
        else where_
    | None => where_
    end in
  let where_ :=
    if truthy_opt (e_dateFrom q) || truthy_opt (e_dateTo q)
    then <["createdAt" := dateRange (e_dateFrom q) (e_dateTo q)]> where_
    else where_ in
  let where_ :=
    match e_isEmergency q with
    | Some isEmergency =>
        <["isEmergency" := WField (FBool (String.eqb isEmergency "true"))]> where_
    | None => where_
    end in
  where_.

(** The reply that streams the workbook; it has no JSON envelope, hence
    no message. *)
Definition attachment (wb : Workbook) : Response := mkResponse 200 true "" (DataXlsx wb).

(** [exportIssues] (excel.controller.ts, lines 6-250).  Cell styles and the
    headers of the reply are left out. *)
Definition exportIssues (user : option AuthUser) (q : ExportQuery) (db : Db) : Response * Db :=
  match credentials user with
  | None => (failure 401 "Authentication required", db)
  | Some (userId, userRole) =>
    if bool_decide (userRole = USER)
    then (failure 403 "Access denied. Staff only feature.", db)
    else
      catch db (
        let where_ := exportWhere q in
        issues ← prisma.issue.findMany db where_ newestFirst 0 None;
        rows ← traverse (exportRow db) issues;
        let emergencyCount := Z.of_nat (length (List.filter i_isEmergency issues)) in
        Ok (attachment
              (mkWorkbook rows
                 (Z.of_nat (length issues))
                 (map (fun sc => (translateStatus sc.1 ++ ":", sc.2)) (statusCounts issues))
                 emergencyCount),
            db))
  end.

(** A worksheet as the import reads it: the text of each cell, row by
    row, the header being row 1. *)
Definition Worksheet := list (list string).

Definition rowCount (worksheet : Worksheet) : nat := length worksheet.

(** [worksheet.getRow(rowNumber).getCell(col).text] *)
Definition cellText (worksheet : Worksheet) (rowNumber col : nat) : string :=
  nth (col - 1) (nth (rowNumber - 1) worksheet []) "".

Definition pushError (importResults : ImportResults) (msg : string) : ImportResults :=
  mkImportResults (successful importResults) (failed importResults + 1)%Z
    (errors importResults ++ [msg]).

(** [`GLY-IMP-${Date.now()}-${rowNumber}`] *)
Definition importReference (now : Z) (rowNumber : nat) : string :=
  "GLY-IMP-" ++ show_Z now ++ "-" ++ show_nat rowNumber.

(** One turn of the loop of [importIssues]. [now rowNumber] is the clock
    and [newId rowNumber] the identifier generated while the row is handled. *)
Definition importRow (userId : string) (newId : nat -> string) (now : nat -> Z)
    (worksheet : Worksheet) (st : ImportResults * Db) (rowNumber : nat)
  : ImportResults * Db :=
  let '(importResults, db) := st in
  let title := cellText worksheet rowNumber 1 in
  let description := cellText worksheet rowNumber 2 in
  let address := cellText worksheet rowNumber 3 in
  let categoryName := cellText worksheet rowNumber 4 in
  if negb (truthy_string title) || negb (truthy_string description)
     || negb (truthy_string address) || negb (truthy_string categoryName)
  then (pushError importResults
          ("Row " ++ show_nat rowNumber ++ ": Missing required fields"), db)
  else
    match prisma.category.findFirst db categoryName true with
    | None =>
        (pushError importResults
           ("Row " ++ show_nat rowNumber ++ ": Category '" ++ categoryName ++ "' not found"), db)
    | Some category =>
        match prisma.issue.create db (newId rowNumber) (now rowNumber)
                (object [("title", Some (JStr title));
                         ("description", Some (JStr description));
                         ("address", Some (JStr address));
                         ("categoryId", Some (JStr (c_id category)));
                         ("createdById", Some (JStr userId));
                         ("referenceNumber",
                          Some (JStr (importReference (now rowNumber) rowNumber)))]) with
        | Ok (_, db') =>
            (mkImportResults (successful importResults + 1)%Z (failed importResults)
               (errors importResults), db')
        | Throw msg =>
            (pushError importResults ("Row " ++ show_nat rowNumber ++ ": " ++ msg), db)
        end
    end.

(** [importIssues] (excel.controller.ts, lines 252-359).  [file] is
    [req.file] as the upload middleware left it: absent, or what reading it
    as a workbook gives (a throw, no first worksheet, or the first
    worksheet). *)
Definition importIssues (newId : nat -> string) (now : nat -> Z)
    (user : option AuthUser) (file : option (exn (option Worksheet))) (db : Db)
  : Response * Db :=
  match credentials user with
  | None => (failure 401 "Authentication required", db)
  | Some (userId, userRole) =>
    if negb (bool_decide (userRole = ADMIN))
    then (failure 403 "Access denied. Admin only feature.", db)
    else
      match file with
      | None => (failure 400 "No Excel file uploaded", db)
      | Some (Throw _) => (internal_error, db)
      | Some (Ok None) => (failure 400 "Invalid Excel file format", db)
      | Some (Ok (Some worksheet)) =>
          let '(importResults, db') :=
            fold_left (importRow userId newId now worksheet)
                      (seq 2 (rowCount worksheet - 1))
                      (mkImportResults 0 0 [], db) in
          (reply 200 "Import completed" (DataImport importResults), db')
      end
  end.

(** ** photo.controller.ts *)

(** A file as the upload middleware stored it. *)
Record MulterFile := mkMulterFile {
  mf_filename : string;
  mf_originalname : string;
  mf_mimetype : string;
  mf_size : Z;
  mf_path : string }.

(** [fs.unlinkSync(path)]: throws when there is no such file. *)
Definition unlinkSync (path : string) (disk : Disk) : exn Disk :=
  if bool_decide (path ∈ disk) then Ok (disk ∖ {[ path ]})
  else Throw "ENOENT: no such file or directory".

(** [files.forEach(file => { try { fs.unlinkSync(file.path) } catch (err) { ... } })] *)
Definition unlinkAll (files : list MulterFile) (disk : Disk) : Disk :=
  fold_left (fun disk file =>
               match unlinkSync (mf_path file) disk with
               | Ok disk' => disk'
               | Throw _ => disk
               end) files disk.

(** [parseInt(process.env.MAX_PHOTOS_PER_ISSUE || '5')]; [None] is NaN. *)
Definition maxPhotosPerIssue (env : gmap string string) : option Z :=
  parseInt (match env !! "MAX_PHOTOS_PER_ISSUE" with
            | Some v => if truthy_string v then v else "5"
            | None => "5"
            end).

(** [a > b], false when [b] is NaN. *)
Definition gt_number (a : Z) (b : option Z) : bool :=
  match b with Some m => (m <? a)%Z | None => false end.

(** [uploadPhotos] (photo.controller.ts, lines 7-130).  [files] is [req.files],
    already written to the upload directory; [env] is [process.env]. *)
Definition uploadPhotos (env : gmap string string) (newId : nat -> string) (now : Z)
    (user : option AuthUser) (issueId : string) (files : option (list MulterFile))
    (body : JsObject) (st : Db * Disk) : Response * (Db * Disk) :=
  let '(db, disk) := st in
  match credentials user with
  | None => (failure 401 "Authentication required", st)
  | Some (userId, userRole) =>
    match prisma.issue.findUnique db issueId with
    | None => (failure 404 "Issue not found", st)
    | Some issue =>
      if bool_decide (userRole = USER) && negb (bool_decide (i_createdById issue = userId))
      then (failure 403 "Access denied", st)
      else
        match files with
        | None => (failure 400 "No files uploaded", st)
        | Some [] => (failure 400 "No files uploaded", st)
        | Some files =>
          let currentPhotoCount := prisma.photo.count db issueId in
          let maxPhotos := maxPhotosPerIssue env in
          if gt_number (currentPhotoCount + Z.of_nat (length files)) maxPhotos
          then
            (failure 400
               ("Maximum " ++ from_option show_Z "NaN" maxPhotos
                ++ " photos allowed per issue. Current: " ++ show_Z currentPhotoCount),
             (db, unlinkAll files disk))
          else
            let photoData :=
              map (fun file =>
                     prisma.photo.mkCreateInput
                       (mf_filename file) (mf_originalname file) (mf_mimetype file)
                       (mf_size file) (mf_path file)
                       (if truthy (body !! "description")
                        then default JNull (body !! "description") else JNull)
                       issueId userId) files in
            match prisma.photo.createMany db newId now photoData with
            | Ok (_, db') =>
                let createdPhotos := prisma.photo.findMany db' issueId userId (length files) in
                (reply 201 (show_nat (length files) ++ " photo(s) uploaded successfully")
                   (DataPhotos createdPhotos),
                 (db', disk))
            | Throw _ => (internal_error, (db, unlinkAll files disk))
            end
        end
    end
  end.

(** ** category.controller.ts *)

Definition deactivate_category (c : Category) : Category :=
  mkCategory (c_id c) (c_name c) (c_nameEn c) (c_color c) false.

Definition deactivate_subcategory (s : Subcategory) : Subcategory :=
  mkSubcategory (s_id s) (s_name s) (s_estimatedDays s) false (s_categoryId s).

(** [deleteCategory] (category.controller.ts, lines 171-223). *)
Definition deleteCategory (id : string) (db : Db) : Response * Db :=
  catch db (
    match prisma.category.findUnique db id true with
    | None => Ok (failure 404 "Category not found", db)
    | Some existingCategory =>
      issuesCount ← prisma.issue.count db {[ "categoryId" := WField (FEq id) ]};
      if (0 <? issuesCount)%Z
      then Ok (failure 400 "Cannot delete category with existing issues", db)
      else
        db ← prisma.category.update db id deactivate_category;
        let db := prisma.subcategory.updateMany db id deactivate_subcategory in
        Ok (reply 200 "Category deleted successfully" NoData, db)
    end).

(** ** auth.controller.ts *)

Definition withoutPassword (u : User) : UserView :=
  mkUserView (u_id u) (u_email u) (u_username u) (u_firstName u) (u_lastName u)
    (u_phone u) (u_role u) (u_isActive u) (u_createdAt u).

(** [register] (auth.controller.ts, lines 79-155). *)
Definition register (newId : string) (now : Z) (body : JsObject) (db : Db) : Response * Db :=
  catch db (
    let email := body !! "email" in
    let username := body !! "username" in
    let password := body !! "password" in
    let firstName := body !! "firstName" in
    let lastName := body !! "lastName" in
    let phone := body !! "phone" in
    email' ← prisma.arg_string email;
    username' ← prisma.arg_string username;
    match prisma.user.findFirst db email' username' with
    | Some existingUser =>
        Ok (failure 400 (if bool_decide (u_email existingUser = email')
                         then "Email already registered" else "Username already taken"), db)
    | None =>
        password' ← prisma.arg_string password;
        let hashedPassword := hashPassword password' in
        '(user, db') ← prisma.user.create db newId now
          (object [("email", email);
                   ("username", username);
                   ("password", Some (JStr hashedPassword));
                   ("firstName", firstName);
                   ("lastName", lastName);
                   ("phone", phone);
                   ("role", Some (JStr "USER"))]);
        let token := generateToken (u_id user) (u_email user) (u_role user) in
        Ok (reply 201 "Registration successful" (DataUser (withoutPassword user) token), db')
    end).

(** ** user.controller.ts *)

Definition deactivate_user (u : User) : User :=
  mkUser (u_id u) (u_email u) (u_username u) (u_password u) (u_firstName u) (u_lastName u)
    (u_phone u) (u_role u) false (u_createdAt u).

(** [deleteUser] (user.controller.ts, lines 259-328). *)
Definition deleteUser (user : option AuthUser) (id : string) (db : Db) : Response * Db :=
  let currentUserRole := au_role <$> user in
  let currentUserId := au_id <$> user in
  if negb (bool_decide (currentUserRole = Some ADMIN))
  then (failure 403 "Access denied. Admin only feature.", db)
  else if bool_decide (Some id = currentUserId)
  then (failure 400 "Cannot delete your own account", db)
  else
    catch db (
      match prisma.user.findUnique db id with
      | None => Ok (failure 404 "User not found", db)
      | Some existingUser =>
        issuesCount ← prisma.issue.count db {[ "createdById" := WField (FEq id) ]};
        if (0 <? issuesCount)%Z
        then
          db ← prisma.user.update db id deactivate_user;
          Ok (reply 200 "User account deactivated successfully (user has created issues)"
                NoData, db)
        else
          db ← prisma.user.delete db id;
          Ok (reply 200 "User deleted successfully" NoData, db)
      end).

End Handlers.

(** * The other handlers of the controllers, and the middleware *)

(** A reply whose [data], when there is one, is of type [A]. *)
Record Reply (A : Type) := mkReply {
  rp_status : Z;
  rp_success : bool;
  rp_message : string;
  rp_data : option A }.
Arguments mkReply {A} _ _ _ _.
Arguments rp_status {A} _.
Arguments rp_success {A} _.
Arguments rp_message {A} _.
Arguments rp_data {A} _.

Definition refuse {A} (code : Z) (msg : string) : Reply A := mkReply code false msg None.
Definition answer {A} (code : Z) (msg : string) (a : A) : Reply A :=
  mkReply code true msg (Some a).

(** [try { ... } catch] of a handler that replies with a [Reply]. *)
Definition rescue {A S} (s : S) (body : exn (Reply A * S)) : Reply A * S :=
  match body with
  | Ok r => r
  | Throw _ => (refuse 500 "Internal server error", s)
  end.

(** [s.replace(pattern, replacement)] for a string pattern: the first
    occurrence is replaced. *)
Fixpoint replace_first (pattern replacement s : string) : string :=
  if String.prefix pattern s
  then replacement
       ++ String.substring (String.length pattern)
            (String.length s - String.length pattern) s
  else match s with
       | EmptyString => EmptyString
       | String c t => String c (replace_first pattern replacement t)
       end.

(** [...(v && { k: v })]: the property is written when [v] is truthy. *)
Definition when_truthy (v : option JsVal) : option JsVal := if truthy v then v else None.

(** ** The rest of the Prisma client *)

Module client.

Module issue.

(** [delete({ where: { id } })]: the photos and the comments of the issue
    are deleted with it (ON DELETE CASCADE). *)
Definition delete (db : Db) (id : string) : exn Db :=
  if bool_decide (is_Some (prisma.issue.findUnique db id))
  then Ok (mkDb (users db) (categories db) (subcategories db)
             (List.filter (fun i => negb (bool_decide (i_id i = id))) (issues db))
             (List.filter (fun p => negb (bool_decide (p_issueId p = id))) (photos db))
             (List.filter (fun c => negb (bool_decide (cm_issueId c = id))) (comments db)))
  else prisma.not_found.

End issue.

Module photo.

(** [findUnique({ where: { id } })] *)
Definition findUnique (db : Db) (id : string) : option Photo :=
  List.find (fun p => bool_decide (p_id p = id)) (photos db).

(** [delete({ where: { id } })] *)
Definition delete (db : Db) (id : string) : exn Db :=
  if bool_decide (is_Some (findUnique db id))
  then Ok (set_photos (List.filter (fun p => negb (bool_decide (p_id p = id))) (photos db)) db)
  else prisma.not_found.

End photo.

Module subcategory.

(** [findUnique({ where: { id, isActive } })] *)
Definition findUnique (db : Db) (id : string) (isActive : bool) : option Subcategory :=
  List.find (fun s => bool_decide (s_id s = id) && bool_decide (s_isActive s = isActive))
            (subcategories db).

(** [update({ where: { id }, data })] *)
Definition update (db : Db) (id : string) (data : Subcategory -> Subcategory) : exn Db :=
  if prisma.subcategory.exists_id db id
  then Ok (set_subcategories
             (map (fun s => if decide (s_id s = id) then data s else s) (subcategories db)) db)
  else prisma.not_found.

End subcategory.

Module user.

(** [findUnique({ where: { email } })] *)
Definition findUnique (db : Db) (email : string) : option User :=
  List.find (fun u => bool_decide (u_email u = email)) (users db).

(** [update({ where: { id }, data })] with [data] an object: the columns it
    names are written, [email] and [username] staying unique. *)
Definition update (db : Db) (id : string) (data : JsObject) : exn (User * Db) :=
  _ ← prisma.check (bool_decide (dom data ⊆ list_to_set prisma.user.columns))
        prisma.validation;
  old ← match prisma.user.findUnique db id with
        | Some u => Ok u
        | None => prisma.not_found
        end;
  email ← prisma.col_string (Some (u_email old)) (data !! "email");
  username ← prisma.col_string (Some (u_username old)) (data !! "username");
  password ← prisma.col_string (Some (u_password old)) (data !! "password");
  firstName ← prisma.col_string (Some (u_firstName old)) (data !! "firstName");
  lastName ← prisma.col_string (Some (u_lastName old)) (data !! "lastName");
  phone ← prisma.col_nullable_string (u_phone old) (data !! "phone");
  role ← prisma.col_enum parse_role (u_role old) (data !! "role");
  isActive ← prisma.col_bool (u_isActive old) (data !! "isActive");
  _ ← prisma.check
        (negb (existsb (fun u => negb (bool_decide (u_id u = id))
                                 && (bool_decide (u_email u = email)
                                     || bool_decide (u_username u = username)))
                       (users db)))
        prisma.unique_violation;
  let u := mkUser id email username password firstName lastName phone role isActive
             (u_createdAt old) in
  Ok (u, set_users (map (fun v => if decide (u_id v = id) then u else v) (users db)) db).

End user.

End client.

(** ** middleware/auth.ts *)

(** [authorize(allowedRoles)]: [None] is [next()]. *)
Definition authorize (allowedRoles : list UserRole) (user : option AuthUser)
  : option Response :=
  match user with
  | None => Some (failure 401 "Authentication required.")
  | Some u =>
      if bool_decide (au_role u ∈ allowedRoles) then None
      else Some (failure 403 "Access denied. Insufficient privileges.")
  end.

Definition adminOnly : option AuthUser -> option Response := authorize [ADMIN].
Definition staffOnly : option AuthUser -> option Response :=
  authorize [ADMIN; SUPERVISOR; OFFICE].

(** ** issue.controller.ts: deleteIssue (lines 542-594) *)

Definition deleteIssue (user : option AuthUser) (id : string) (db : Db) : Response * Db :=
  match credentials user with
  | None => (failure 401 "Authentication required", db)
  | Some (userId, userRole) =>
    catch db (
      match prisma.issue.findUnique db id with
      | None => Ok (failure 404 "Issue not found", db)
      | Some issue =>
        let canDelete :=
          bool_decide (userRole = ADMIN)
          || (bool_decide (userRole = USER) && bool_decide (i_createdById issue = userId)) in
        if negb canDelete then Ok (failure 403 "Access denied", db)
        else
          db ← client.issue.delete db id;
          Ok (reply 200 "Issue deleted successfully" NoData, db)
      end)
  end.

(** ** category.controller.ts: deleteSubcategory (lines 367-413) *)

Definition deleteSubcategory (id : string) (db : Db) : Response * Db :=
  catch db (
    match client.subcategory.findUnique db id true with
    | None => Ok (failure 404 "Subcategory not found", db)
    | Some existingSubcategory =>
      issuesCount ← prisma.issue.count db {[ "subcategoryId" := WField (FEq id) ]};
      if (0 <? issuesCount)%Z
      then Ok (failure 400 "Cannot delete subcategory with existing issues", db)
      else
        db ← client.subcategory.update db id deactivate_subcategory;
        Ok (reply 200 "Subcategory deleted successfully" NoData, db)
    end).

(** ** photo.controller.ts: deletePhoto (lines 198-271) *)

(** [if (fs.existsSync(path)) fs.unlinkSync(path)] inside its [try]. *)
Definition removeFile (path : string) (disk : Disk) : Disk :=
  if bool_decide (path ∈ disk)
  then match unlinkSync path disk with Ok disk' => disk' | Throw _ => disk end
  else disk.

Definition deletePhoto (user : option AuthUser) (id : string) (st : Db * Disk)
  : Response * (Db * Disk) :=
  let '(db, disk) := st in
  match credentials user with
  | None => (failure 401 "Authentication required", st)
  | Some (userId, userRole) =>
    catch st (
      match client.photo.findUnique db id with
      | None => Ok (failure 404 "Photo not found", st)
      | Some photo =>
        canDelete ←
          (if bool_decide (userRole = ADMIN) || bool_decide (p_uploadedById photo = userId)
           then Ok true
           else if bool_decide (userRole = USER)
           then issue ← required (prisma.issue.findUnique db (p_issueId photo));
                Ok (bool_decide (i_createdById issue = userId))
           else Ok false);
        if negb canDelete then Ok (failure 403 "Access denied", st)
        else
          db ← client.photo.delete db id;
          Ok (reply 200 "Photo deleted successfully" NoData,
              (db, removeFile (p_path photo) disk))
      end)
  end.

Section Accounts.

(** [comparePassword], [hashPassword], [generateToken] and [verifyToken] of
    utils/auth, which is not part of the sources at hand.  [verifyToken]
    gives the [userId] of the decoded token, or nothing when it throws or
    the token carries none. *)
Variable comparePassword : string -> string -> bool.
Variable hashPassword : string -> string.
Variable generateToken : string -> string -> UserRole -> string.
Variable verifyToken : string -> option string.

(** [authenticate] (middleware/auth.ts): the reply that ends the request,
    or [req.user].  [authorization] is the Authorization header. *)
Definition authenticate (authorization : option string) (db : Db) : Response + AuthUser :=
  match replace_first "Bearer " "" <$> authorization with
  | None => inl (failure 401 "Access denied. No token provided.")
  | Some token =>
    if negb (truthy_string token)
    then inl (failure 401 "Access denied. No token provided.")
    else
      match verifyToken token with
      | None => inl (failure 401 "Invalid token.")
      | Some userId =>
        match prisma.user.findUnique db userId with
        | Some user =>
            if u_isActive user
            then inr (mkAuthUser (u_id user) (u_email user) (u_role user))
            else inl (failure 401 "Invalid token or user deactivated.")
        | None => inl (failure 401 "Invalid token or user deactivated.")
        end
      end
  end.

(** [login] (auth.controller.ts, lines 6-77); it does not write. *)
Definition login (body : JsObject) (db : Db) : Response :=
  (catch tt (
     email ← prisma.arg_string (body !! "email");
     match client.user.findUnique db email with
     | None => Ok (failure 401 "Invalid email or password", tt)
     | Some user =>
       if negb (u_isActive user) then Ok (failure 401 "Account is deactivated", tt)
       else
         password ← prisma.arg_string (body !! "password");
         if negb (comparePassword password (u_password user))
         then Ok (failure 401 "Invalid email or password", tt)
         else
           let token := generateToken (u_id user) (u_email user) (u_role user) in
           Ok (reply 200 "Login successful" (DataUser (withoutPassword user) token), tt)
     end)).1.

(** [updateProfile] (auth.controller.ts, lines 206-252) *)
Definition updateProfile (user : option AuthUser) (body : JsObject) (db : Db)
  : Reply UserView * Db :=
  let firstName := body !! "firstName" in
  let lastName := body !! "lastName" in
  let phone := body !! "phone" in
  match user with
  | Some u =>
    let userId := au_id u in
    if truthy_string userId then
      rescue db (
        '(updatedUser, db') ← client.user.update db userId
          (object [("firstName", when_truthy firstName);
                   ("lastName", when_truthy lastName);
                   ("phone", when_truthy phone)]);
        Ok (answer 200 "Profile updated successfully" (withoutPassword updatedUser), db'))
    else (refuse 401 "Authentication required", db)
  | None => (refuse 401 "Authentication required", db)
  end.

Definition set_password (password : string) (u : User) : User :=
  mkUser (u_id u) (u_email u) (u_username u) password (u_firstName u) (u_lastName u)
    (u_phone u) (u_role u) (u_isActive u) (u_createdAt u).

(** [changePassword] (auth.controller.ts, lines 254-314) *)
Definition changePassword (user : option AuthUser) (body : JsObject) (db : Db)
  : Response * Db :=
  let currentPassword := body !! "currentPassword" in
  let newPassword := body !! "newPassword" in
  match user with
  | Some u =>
    let userId := au_id u in
    if truthy_string userId then
      catch db (
        match prisma.user.findUnique db userId with
        | None => Ok (failure 404 "User not found", db)
        | Some user =>
          current ← prisma.arg_string currentPassword;
          if negb (comparePassword current (u_password user))
          then Ok (failure 400 "Current password is incorrect", db)
          else
            new ← prisma.arg_string newPassword;
            let hashedNewPassword := hashPassword new in
            db ← prisma.user.update db userId (set_password hashedNewPassword);
            Ok (reply 200 "Password changed successfully" NoData, db)
        end)
    else (failure 401 "Authentication required", db)
  | None => (failure 401 "Authentication required", db)
  end.

(** [createUser] (user.controller.ts, lines 131-193) *)
Definition createUser (newId : string) (now : Z) (body : JsObject) (db : Db)
  : Reply UserView * Db :=
  rescue db (
    let email := body !! "email" in
    let username := body !! "username" in
    let password := body !! "password" in
    let firstName := body !! "firstName" in
    let lastName := body !! "lastName" in
    let phone := body !! "phone" in
    let role := body !! "role" in
    email' ← prisma.arg_string email;
    username' ← prisma.arg_string username;
    match prisma.user.findFirst db email' username' with
    | Some existingUser =>
        Ok (refuse 400 (if bool_decide (u_email existingUser = email')
                        then "Email already registered" else "Username already taken"), db)
    | None =>
        password' ← prisma.arg_string password;
        let hashedPassword := hashPassword password' in
        '(user, db') ← prisma.user.create db newId now
          (object [("email", email);
                   ("username", username);
                   ("password", Some (JStr hashedPassword));
                   ("firstName", firstName);
                   ("lastName", lastName);
                   ("phone", phone);
                   ("role", if truthy role then role else Some (JStr "USER"))]);
        Ok (answer 201 "User created successfully" (withoutPassword user), db')
    end).

(** [updateUser] (user.controller.ts, lines 195-257) *)
Definition updateUser (user : option AuthUser) (id : string) (body : JsObject) (db : Db)
  : Reply UserView * Db :=
  let firstName := body !! "firstName" in
  let lastName := body !! "lastName" in
  let phone := body !! "phone" in
  let role := body !! "role" in
  let isActive := body !! "isActive" in
  let currentUserRole := au_role <$> user in
  if negb (bool_decide (currentUserRole = Some ADMIN))
  then (refuse 403 "Access denied. Admin only feature.", db)
  else
    rescue db (
      match prisma.user.findUnique db id with
      | None => Ok (refuse 404 "User not found", db)
      | Some existingUser =>
        '(updatedUser, db') ← client.user.update db id
          (object [("firstName", when_truthy firstName);
                   ("lastName", when_truthy lastName);
                   ("phone", phone);
                   ("role", when_truthy role);
                   ("isActive", isActive)]);
        Ok (answer 200 "User updated successfully" (withoutPassword updatedUser), db')
      end).

(** [router.delete('/:id', adminOnly, deleteUser)] behind
    [router.use(authenticate)] (user routes). *)
Definition route_deleteUser (authorization : option string) (id : string) (db : Db)
  : Response * Db :=
  match authenticate authorization db with
  | inl r => (r, db)
  | inr u =>
    match adminOnly (Some u) with
    | Some r => (r, db)
    | None => deleteUser (Some u) id db
    end
  end.

End Accounts.

(** ** Reading a property of an object literal *)

Fixpoint property (k : string) (props : list (string * option JsVal)) : option JsVal :=
  match props with
  | [] => None
  | (k', v) :: props' => if decide (k = k') then v else property k props'
  end.

(** ** A sample municipality

    A citizen, two supervisors and an administrator; two active
    categories, the second without issues; three issues, the first
    assigned to the second supervisor. *)

Definition citizen : User :=
  mkUser "u1" "maria@example.com" "maria" "$hash1" "Maria" "Pappa" None USER true 0.
Definition supervisorA : User :=
  mkUser "s1" "sup.a@glyfada.gr" "supa" "$hash2" "Nikos" "Alexiou" None SUPERVISOR true 0.
Definition supervisorB : User :=
  mkUser "s2" "sup.b@glyfada.gr" "supb" "$hash3" "Eleni" "Vasiliou" None SUPERVISOR true 0.
Definition administrator : User :=
  mkUser "a1" "admin@glyfada.gr" "admin" "$hash4" "Admin" "User" (Some "+30210000000") ADMIN
    true 0.

Definition roads : Category := mkCategory "c1" "Roads" (Some "Roads") "#FF6B35" true.
Definition lighting : Category := mkCategory "c2" "Lighting" (Some "Lighting") "#F7931E" true.
Definition potholes : Subcategory := mkSubcategory "sc1" "Potholes" (Some 7%Z) true "c1".
Definition lampOut : Subcategory := mkSubcategory "sc2" "Lamp out" (Some 3%Z) true "c2".

Definition pothole : Issue :=
  mkIssue "i1" "Pothole" "A large pothole on the avenue" "Vouliagmenis 125"
    37.75%float 23.75%float
    PENDING MEDIUM false "GLY-2024-001" None 10 "c1" (Some "sc1") "u1" (Some "s2").
Definition lamp : Issue :=
  mkIssue "i2" "Street lamp" "The lamp at the corner is out" "Poseidonos 45"
    37.5%float 23.5%float
    IN_PROGRESS MEDIUM false "GLY-2024-002" None 20 "c1" None "u1" (Some "s1").
Definition bench : Issue :=
  mkIssue "i3" "Bench" "Broken bench in the park" "Metaxa 3"
    37.25%float 23.625%float
    COMPLETED LOW false "GLY-2024-003" (Some 35%Z) 30 "c1" None "u1" None.

Definition town : Db :=
  mkDb [citizen; supervisorA; supervisorB; administrator] [roads; lighting]
       [potholes; lampOut] [pothole; lamp; bench] [] [].

Definition asCitizen : option AuthUser := Some (mkAuthUser "u1" "maria@example.com" USER).
Definition asSupervisorA : option AuthUser := Some (mkAuthUser "s1" "sup.a@glyfada.gr" SUPERVISOR).
Definition asAdministrator : option AuthUser := Some (mkAuthUser "a1" "admin@glyfada.gr" ADMIN).

(** Stand-ins for the runtime where a check needs to run a handler. *)
Definition noDate (s : string) : JsDate := None.
Definition plainDate (t : Z) : string := show_Z t.
Definition saltedHash (password : string) : string := "$2a$" ++ password.
Definition plainToken (id email : string) (role : UserRole) : string :=
  id ++ ":" ++ role_name role.

Definition noFilter : FilterOptions :=
  mkFilterOptions None None None None None None None None None None None None.
Definition searchPothole : FilterOptions :=
  mkFilterOptions None None None None None None None None None (Some "pothole") None None.
Definition noExportFilter : ExportQuery := mkExportQuery None None None None None None None.

(** The rule of the listing for a supervisor: assigned to the requester,
    unassigned, or created by the requester. *)
Definition supervisorVisible (userId : string) (i : Issue) : Prop :=
  i_assignedToId i = Some userId \/ i_assignedToId i = None \/ i_createdById i = userId.


(** A worksheet of three data rows, the second without an address. *)
Definition threeRows : Worksheet :=
  [["Title"; "Description"; "Address"; "Category"];
   ["Pothole"; "A large pothole on the avenue"; "Vouliagmenis 125"; "Roads"];
   ["Street lamp"; "The lamp at the corner is out"; ""; "Roads"];
   ["Bench"; "Broken bench in the park"; "Metaxa 3"; "Roads"]].

Definition importId (rowNumber : nat) : string := "imp" ++ show_nat rowNumber.
Definition importClock (rowNumber : nat) : Z := 1700000000000 + Z.of_nat rowNumber.

Definition photoA : MulterFile :=
  mkMulterFile "photos-1.jpg" "front.jpg" "image/jpeg" 2048 "uploads/photos-1.jpg".
Definition photoB : MulterFile :=
  mkMulterFile "photos-2.jpg" "side.jpg" "image/jpeg" 4096 "uploads/photos-2.jpg".
Definition uploads : Disk := {[ "uploads/photos-1.jpg"; "uploads/photos-2.jpg"; "uploads/old.jpg" ]}.
Definition photoId (k : nat) : string := "ph" ++ show_nat k.

(** A registration whose body asks for the administrator role. *)
Definition registration : JsObject :=
  object [("email", Some (JStr "kostas@example.com"));
          ("username", Some (JStr "kostas"));
          ("password", Some (JStr "secret1"));
          ("firstName", Some (JStr "Kostas"));
          ("lastName", Some (JStr "Dimou"));
          ("role", Some (JStr "ADMIN"));
          ("isActive", Some (JBool false))].

(** Updates of the status alone. *)
Definition completeIt : JsObject := object [("status", Some (JStr "COMPLETED"))].
Definition reopenIt : JsObject := object [("status", Some (JStr "IN_PROGRESS"))].

(** A citizen's update that also names fields outside their set. *)
Definition retitle : JsObject :=
  object [("title", Some (JStr "Deep pothole"));
          ("latitude", Some (JNum 37.875%float));
          ("status", Some (JStr "COMPLETED"));
          ("priority", Some (JStr "EMERGENCY"));
          ("assignedToId", Some (JStr "s1"));
          ("categoryId", Some (JStr "c2"));
          ("subcategoryId", Some (JStr "sc2"));
          ("isEmergency", Some (JBool true))].

(** A staff update that raises the emergency flag and names a priority. *)
Definition flagEmergency : JsObject :=
  object [("isEmergency", Some (JBool true)); ("priority", Some (JStr "LOW"))].

(** The types the validation of the route leaves in the five fields a
    citizen may write, each of which may be absent. *)
Definition string_or_absent (v : option JsVal) : bool :=
  match v with None | Some (JStr _) => true | _ => false end.

Definition number_or_absent (v : option JsVal) : bool :=
  match v with None | Some (JNum _) => true | _ => false end.

Definition citizenFieldsTyped (body : JsObject) : bool :=
  string_or_absent (body !! "title") && string_or_absent (body !! "description")
  && string_or_absent (body !! "address") && number_or_absent (body !! "latitude")
  && number_or_absent (body !! "longitude").

(** The value of a column after an accepted write of [v] over [d]. *)
Definition string_or (d : string) (v : option JsVal) : string :=
  match v with Some (JStr s) => s | _ => d end.

Definition number_or (d : float) (v : option JsVal) : float :=
  match v with Some (JNum x) => x | _ => d end.

(** What a soft delete of category [id] leaves of a category row and of a
    subcategory row: the row stays, and only [isActive] may change. *)
Definition category_kept (id : string) (c c' : Category) : Prop :=
  c_id c' = c_id c /\ c_name c' = c_name c /\ c_nameEn c' = c_nameEn c
  /\ c_color c' = c_color c
  /\ c_isActive c' = (if decide (c_id c = id) then false else c_isActive c).

Definition subcategory_kept (id : string) (s s' : Subcategory) : Prop :=
  s_id s' = s_id s /\ s_name s' = s_name s /\ s_estimatedDays s' = s_estimatedDays s
  /\ s_categoryId s' = s_categoryId s
  /\ s_isActive s' = (if decide (s_categoryId s = id) then false else s_isActive s).

(** A data row of an import with its four required cells filled in. *)
Definition rowComplete (row : list string) : bool :=
  truthy_string (nth 0 row "") && truthy_string (nth 1 row "")
  && truthy_string (nth 2 row "") && truthy_string (nth 3 row "").




(** Stand-ins for the password check and the token check. *)
Definition passwordMatches (password hash : string) : bool :=
  String.eqb hash (saltedHash password).
Definition tokenOwner (token : string) : option string := Some token.

(** A listing query that names another creator and a search text. *)
Definition othersPotholes : FilterOptions :=
  mkFilterOptions None None None None None (Some "s1") None None None (Some "lamp") None None.

(** A new issue whose body also names a status, an assignee and a creator. *)
Definition report : JsObject :=
  object [("title", Some (JStr "Fallen tree"));
          ("description", Some (JStr "A tree fell across the road"));
          ("address", Some (JStr "Kyprou 12"));
          ("latitude", Some (JNum 37.9375%float));
          ("longitude", Some (JNum 23.625%float));
          ("categoryId", Some (JStr "c1"));
          ("subcategoryId", Some (JStr "sc1"));
          ("isEmergency", Some (JBool true));
          ("status", Some (JStr "COMPLETED"));
          ("assignedToId", Some (JStr "s1"));
          ("createdById", Some (JStr "s2"));
          ("referenceNumber", Some (JStr "GLY-2024-001"))].

(** A photo of the first issue, uploaded by the first supervisor. *)
Definition snapshot : Photo :=
  mkPhoto "p1" "photos-0.jpg" "hole.jpg" "image/jpeg" 1024 "uploads/old.jpg" None 15 "i1" "s1".
Definition remark : Comment := mkComment "k1" true "i1" "s1".

Definition townWithPhoto : Db :=
  mkDb (users town) (categories town) (subcategories town) (issues town) [snapshot] [remark].

(** What identifies an account and lets its owner in: the id, the email,
    the username, the password hash and the creation time. *)
Definition accountKept (old new : User) : Prop :=
  u_id new = u_id old /\ u_email new = u_email old /\ u_username new = u_username old
  /\ u_password new = u_password old /\ u_createdAt new = u_createdAt old.

(** A profile update that also names an email, a role and a password. *)
Definition promoteMe : JsObject :=
  object [("firstName", Some (JStr "Mary"));
          ("phone", Some (JStr "+306900000000"));
          ("email", Some (JStr "admin@glyfada.gr"));
          ("role", Some (JStr "ADMIN"));
          ("isActive", Some (JBool false));
          ("password", Some (JStr "x"))].

(** A town whose stored hashes are those of [saltedHash]. *)
Definition maria : User :=
  mkUser "u1" "maria@example.com" "maria" (saltedHash "sesame") "Maria" "Pappa" None USER
    true 0.
Definition hashedTown : Db :=
  mkDb [maria; supervisorA; supervisorB; administrator] (categories town)
       (subcategories town) (issues town) [] [].

Definition newPassword : JsObject :=
  object [("currentPassword", Some (JStr "sesame")); ("newPassword", Some (JStr "open"))].
Definition mariaLogin : JsObject :=
  object [("email", Some (JStr "maria@example.com")); ("password", Some (JStr "open"))].

(** A user to be created by an administrator, as a supervisor. *)
Definition newSupervisor : JsObject :=
  object [("email", Some (JStr "sup.c@glyfada.gr"));
          ("username", Some (JStr "supc"));
          ("password", Some (JStr "secret1"));
          ("firstName", Some (JStr "Giorgos"));
          ("lastName", Some (JStr "Lamprou"));
          ("role", Some (JStr "SUPERVISOR"))].

(** An administrative update that demotes and renames. *)
Definition demote : JsObject :=
  object [("lastName", Some (JStr "Alexiou-Pappa"));
          ("role", Some (JStr "USER"));
          ("email", Some (JStr "maria@example.com"));
          ("password", Some (JStr "x"))].

(** An issue with nobody assigned to it. *)
Definition unassign (i : Issue) : Issue :=
  mkIssue (i_id i) (i_title i) (i_description i) (i_address i) (i_latitude i) (i_longitude i)
    (i_status i) (i_priority i) (i_isEmergency i) (i_referenceNumber i) (i_completedAt i)
    (i_createdAt i) (i_categoryId i) (i_subcategoryId i) (i_createdById i) None.

(** A town where the second supervisor wrote a comment. *)
Definition townWithComment : Db :=
  mkDb (users town) (categories town) (subcategories town) (issues town) []
       [mkComment "k2" false "i1" "s2"].

(** What a soft delete of subcategory [id] leaves of a subcategory row. *)
Definition subcategory_retired (id : string) (s s' : Subcategory) : Prop :=
  s_id s' = s_id s /\ s_name s' = s_name s /\ s_estimatedDays s' = s_estimatedDays s
  /\ s_categoryId s' = s_categoryId s
  /\ s_isActive s' = (if decide (s_id s = id) then false else s_isActive s).

(** A new issue filed under the second category. *)
Definition darkStreet : JsObject :=
  object [("title", Some (JStr "Dark street"));
          ("description", Some (JStr "No lamp works on the street"));
          ("address", Some (JStr "Gounari 8"));
          ("categoryId", Some (JStr "c2"))].

(** An environment whose photo limit is not a number. *)
Definition limitInWords : gmap string string := {[ "MAX_PHOTOS_PER_ISSUE" := "five" ]}.
Definition limitTwo : gmap string string := {[ "MAX_PHOTOS_PER_ISSUE" := "2" ]}.

(** No issue of the store has more than [m] photos. *)
Definition photosWithin (m : Z) (db : Db) : Prop :=
  forall j, (prisma.photo.count db j <= m)%Z.

(** The report of the import of the three-row worksheet. *)
Definition importedReport : ImportResults :=
  match data (importIssues importId importClock asAdministrator
                (Some (Ok (Some threeRows))) town).1 with
  | DataImport report => report
  | _ => mkImportResults 0 0 []
  end.

(** The document of an export of the whole town by the first supervisor. *)
Definition exportedBook : Workbook :=
  match data (exportIssues noDate plainDate asSupervisorA noExportFilter town).1 with
  | DataXlsx wb => wb
  | _ => mkWorkbook [] 0 [] 0
  end.

(** * Properties *)

(** ** Objects *)

Lemma object_dom (props : list (string * option JsVal)) :
  dom (object props) ⊆ list_to_set (map fst props).
Proof.
  induction props as [|[k' [x|]] props IH]; simpl.
  - rewrite dom_empty. apply empty_subseteq.
  - rewrite dom_insert. apply union_mono; [reflexivity | exact IH].
  - etransitivity; [exact IH | apply union_subseteq_r].
Qed.

(** With no key written twice, a property reads as written. *)
Lemma object_lookup (k : string) (props : list (string * option JsVal)) :
  bool_decide (NoDup (map fst props)) = true ->
  object props !! k = property k props.
Proof.
  intros Hnd. apply bool_decide_eq_true in Hnd.
  induction props as [|[k' v] props IH]; simpl.
  - apply lookup_empty.
  - simpl in Hnd. apply NoDup_cons in Hnd as [Hk' Hnd].
    destruct (decide (k = k')) as [->|Hne].
    + destruct v as [x|].
      * apply lookup_insert_eq.
      * apply not_elem_of_dom. intros Hin. apply Hk'.
        apply object_dom in Hin. apply elem_of_list_to_set in Hin. exact Hin.
    + destruct v as [x|].
      * rewrite lookup_insert_ne by congruence. apply IH, Hnd.
      * apply IH, Hnd.
Qed.

Lemma object_columns (props : list (string * option JsVal)) (columns : list string) :
  forallb (fun k => bool_decide (k ∈ columns)) (map fst props) = true ->
  bool_decide (dom (object props) ⊆ (list_to_set columns : gset string)) = true.
Proof.
  intros H. apply bool_decide_eq_true. etransitivity; [apply object_dom|].
  intros k Hk. apply elem_of_list_to_set in Hk. apply elem_of_list_to_set.
  rewrite forallb_forall in H. apply list_elem_of_In in Hk.
  specialize (H k Hk). apply bool_decide_eq_true in H. exact H.
Qed.

Arguments object : simpl never.

(** ** user.controller.ts *)

(** C10: an administrator who names their own account in [deleteUser]
    gets the 400 reply and the store is left as it was: nobody is deleted
    or deactivated. *)
Theorem deleteUser_own_account (user : option AuthUser) (id : string) (db : Db) :
  au_role <$> user = Some ADMIN ->
  au_id <$> user = Some id ->
  deleteUser user id db = (failure 400 "Cannot delete your own account", db)
  /\ status (deleteUser user id db).1 = 400%Z
  /\ users (deleteUser user id db).2 = users db.
Proof.
  intros Hrole Hid.
  assert (H : deleteUser user id db = (failure 400 "Cannot delete your own account", db)).
  { unfold deleteUser. rewrite Hrole, Hid.
    rewrite bool_decide_eq_true_2 by reflexivity. simpl.
    rewrite bool_decide_eq_true_2 by reflexivity. reflexivity. }
  rewrite H. auto.
Qed.

Lemma deleteUser_own_account_witness :
  deleteUser asAdministrator "a1" town = (failure 400 "Cannot delete your own account", town)
  /\ status (deleteUser asAdministrator "a1" town).1 = 400%Z
  /\ users (deleteUser asAdministrator "a1" town).2 = users town.
Proof. apply (deleteUser_own_account asAdministrator "a1" town); reflexivity. Defined.

(** ** auth.controller.ts *)

(** Case analysis on the next call that may throw. *)
Ltac next_call H :=
  match type of H with
  | context [match ?e with Ok _ => _ | Throw _ => _ end] =>
      lazymatch e with
      | context [match _ with Ok _ => _ | Throw _ => _ end] => fail
      | _ => let E := fresh "E" in destruct e eqn:E; simpl in H
      end
  end.

Ltac reply_mismatch :=
  match goal with
  | H : (_, _) = (?r, _), S : status ?r = _ |- _ =>
      inversion H; subst; simpl in S; discriminate S
  end.

(** C9: a successful registration adds exactly one user, whose role is
    USER and who is active, whatever the body holds under [role]. *)
Theorem register_creates_plain_user
    (hashPassword : string -> string) (generateToken : string -> string -> UserRole -> string)
    (newId : string) (now : Z) (body : JsObject) (db : Db) (r : Response) (db' : Db) :
  register hashPassword generateToken newId now body db = (r, db') ->
  status r = 201%Z ->
  exists u : User,
    users db' = (users db ++ [u])%list
    /\ u_role u = USER
    /\ u_isActive u = true
    /\ data r = DataUser (withoutPassword u) (generateToken (u_id u) (u_email u) USER).
Proof.
  intros H S. unfold register, catch in H. simpl in H.
  destruct (prisma.arg_string (body !! "email")) as [email|] eqn:Eemail;
    simpl in H; [|reply_mismatch].
  destruct (prisma.arg_string (body !! "username")) as [username|] eqn:Eusername;
    simpl in H; [|reply_mismatch].
  destruct (prisma.user.findFirst db email username); [reply_mismatch|].
  destruct (prisma.arg_string (body !! "password")) as [password|] eqn:Epassword;
    simpl in H; [|reply_mismatch].
  unfold prisma.user.create in H.
  rewrite !object_lookup in H by reflexivity. simpl property in H.
  unfold mbind, exn_bind in H.
  repeat (next_call H; [|reply_mismatch]).
  injection H as <- <-. simpl.
  eexists. repeat split.
Qed.

Lemma register_creates_plain_user_witness :
  exists u : User,
    users (register saltedHash plainToken "u9" 50 registration town).2
      = (users town ++ [u])%list
    /\ u_role u = USER
    /\ u_isActive u = true
    /\ data (register saltedHash plainToken "u9" 50 registration town).1
       = DataUser (withoutPassword u) (plainToken (u_id u) (u_email u) USER).
Proof.
  apply (register_creates_plain_user saltedHash plainToken "u9" 50 registration town
           (register saltedHash plainToken "u9" 50 registration town).1
           (register saltedHash plainToken "u9" 50 registration town).2).
  - apply surjective_pairing.
  - vm_compute. reflexivity.
Defined.

(** ** Where clauses *)

Lemma where_valid_singleton (k : string) (v : WhereVal) :
  where_valid {[ k := v ]} = entry_valid k v.
Proof.
  unfold where_valid. destruct (entry_valid k v) eqn:E.
  - apply bool_decide_eq_true. apply map_Forall_singleton. exact E.
  - apply bool_decide_eq_false. intros H. apply map_Forall_singleton in H. congruence.
Qed.

Lemma where_holds_singleton (k : string) (v : WhereVal) (i : Issue) :
  where_holds {[ k := v ]} i = entry_holds k v i.
Proof.
  unfold where_holds. destruct (entry_holds k v i) eqn:E.
  - apply bool_decide_eq_true. apply map_Forall_singleton. exact E.
  - apply bool_decide_eq_false. intros H. apply map_Forall_singleton in H. congruence.
Qed.

Lemma filter_nil_iff {A} (f : A -> bool) (l : list A) :
  List.filter f l = [] <-> forall x, In x l -> f x = false.
Proof.
  induction l as [|a l IH]; simpl.
  - split; [intros _ x [] | reflexivity].
  - destruct (f a) eqn:E.
    + split; [discriminate|]. intros H. specialize (H a (or_introl eq_refl)). congruence.
    + rewrite IH. split.
      * intros H x [<-|Hx]; [exact E | apply H, Hx].
      * intros H x Hx. apply H. right. exact Hx.
Qed.

(** The number of issues that refer to category [id]. *)
Lemma count_categoryId (db : Db) (id : string) :
  prisma.issue.count db {[ "categoryId" := WField (FEq id) ]}
  = Ok (Z.of_nat (length (List.filter (fun i => bool_decide (i_categoryId i = id)) (issues db)))).
Proof.
  unfold prisma.issue.count. rewrite where_valid_singleton. simpl.
  do 3 f_equal. apply filter_ext. intros i. rewrite where_holds_singleton. simpl.
  apply bool_decide_ext. change (text_column "categoryId" i) with (Some (i_categoryId i)). split; congruence.
Qed.

(** ** category.controller.ts *)

Lemma Forall2_map_same {A} (R : A -> A -> Prop) (f : A -> A) (l : list A) :
  (forall a, R a (f a)) -> Forall2 R l (map f l).
Proof. intros H. induction l; simpl; constructor; auto. Qed.

(** C8: deleting an active category that an issue refers to is refused
    with the 400 reply and changes nothing; with no such issue the rows
    stay and the category and all its subcategories become inactive. *)
Theorem deleteCategory_conflict_or_soft_delete (id : string) (db : Db) (c : Category) :
  prisma.category.findUnique db id true = Some c ->
  ((exists i, In i (issues db) /\ i_categoryId i = id) ->
     deleteCategory id db
     = (failure 400 "Cannot delete category with existing issues", db))
  /\ ((forall i, In i (issues db) -> i_categoryId i <> id) ->
      exists db',
        deleteCategory id db = (reply 200 "Category deleted successfully" NoData, db')
        /\ Forall2 (category_kept id) (categories db) (categories db')
        /\ Forall2 (subcategory_kept id) (subcategories db) (subcategories db')
        /\ issues db' = issues db /\ users db' = users db /\ photos db' = photos db).
Proof.
  intros Hfind. unfold deleteCategory. rewrite Hfind, count_categoryId. simpl.
  split.
  - intros (i & Hin & Hcat).
    destruct (List.filter _ (issues db)) as [|j l] eqn:Ef.
    + exfalso. pose proof (proj1 (filter_nil_iff _ _) Ef i Hin) as Hi.
      apply bool_decide_eq_false in Hi. contradiction.
    + reflexivity.
  - intros Hnone.
    assert (Ef : List.filter (fun i => bool_decide (i_categoryId i = id)) (issues db) = []).
    { apply filter_nil_iff. intros i Hi. apply bool_decide_eq_false. auto. }
    rewrite Ef. simpl.
    assert (Hex : prisma.category.exists_id db id = true).
    { unfold prisma.category.findUnique in Hfind. apply find_some in Hfind as [Hin Hc].
      apply andb_true_iff in Hc as [Hc _].
      unfold prisma.category.exists_id. apply existsb_exists. eauto. }
    unfold prisma.category.update. rewrite Hex. simpl.
    eexists. split; [reflexivity|]. simpl. repeat split.
    + apply Forall2_map_same. intros a. unfold category_kept.
      destruct (decide (c_id a = id)); simpl; auto.
    + apply Forall2_map_same. intros a. unfold subcategory_kept.
      destruct (decide (s_categoryId a = id)); simpl; auto.
Qed.

Lemma deleteCategory_conflict_or_soft_delete_witness :
  deleteCategory "c1" town
  = (failure 400 "Cannot delete category with existing issues", town)
  /\ exists db',
       deleteCategory "c2" town = (reply 200 "Category deleted successfully" NoData, db')
       /\ Forall2 (category_kept "c2") (categories town) (categories db')
       /\ Forall2 (subcategory_kept "c2") (subcategories town) (subcategories db')
       /\ issues db' = issues town /\ users db' = users town /\ photos db' = photos town.
Proof.
  split.
  - apply (deleteCategory_conflict_or_soft_delete "c1" town roads); [reflexivity|].
    exists pothole. split; [left; reflexivity | reflexivity].
  - apply (deleteCategory_conflict_or_soft_delete "c2" town lighting); [reflexivity|].
    intros i [<-|[<-|[<-|[]]]]; discriminate.
Defined.

(** ** photo.controller.ts *)





(** ** issue.controller.ts: updates *)

Lemma filterFields_lookup (allowedFields : list string) (updateData : JsObject) (k : string) :
  filterFields allowedFields updateData !! k
  = if bool_decide (k ∈ allowedFields) then updateData !! k else None.
Proof.
  unfold filterFields. case_bool_decide as Hk.
  - destruct (updateData !! k) as [v|] eqn:E.
    + apply map_lookup_filter_Some. split; [exact E | exact Hk].
    + apply map_lookup_filter_None. left. exact E.
  - apply map_lookup_filter_None. right. intros v _ Hin. apply Hk, Hin.
Qed.

Lemma filterFields_dom (allowedFields : list string) (updateData : JsObject) :
  dom (filterFields allowedFields updateData) ⊆ list_to_set allowedFields.
Proof.
  intros k Hk. apply elem_of_dom in Hk as [v Hv].
  rewrite filterFields_lookup in Hv. case_bool_decide as Hin; [|discriminate].
  apply elem_of_list_to_set, Hin.
Qed.

(** What the update of a row holds, column by column. *)
Lemma row_update_inv (id : string) (createdAt : Z) (old : Issue) (data : JsObject) (i : Issue) :
  prisma.issue.row id createdAt (Some old) data = Ok i ->
  i_id i = id /\ i_createdAt i = createdAt
  /\ prisma.col_string (Some (i_title old)) (data !! "title") = Ok (i_title i)
  /\ prisma.col_string (Some (i_description old)) (data !! "description") = Ok (i_description i)
  /\ prisma.col_string (Some (i_address old)) (data !! "address") = Ok (i_address i)
  /\ prisma.col_float (Some (i_latitude old)) (data !! "latitude") = Ok (i_latitude i)
  /\ prisma.col_float (Some (i_longitude old)) (data !! "longitude") = Ok (i_longitude i)
  /\ prisma.col_enum parse_status (i_status old) (data !! "status") = Ok (i_status i)
  /\ prisma.col_enum parse_priority (i_priority old) (data !! "priority") = Ok (i_priority i)
  /\ prisma.col_bool (i_isEmergency old) (data !! "isEmergency") = Ok (i_isEmergency i)
  /\ prisma.col_string (Some (i_referenceNumber old)) (data !! "referenceNumber")
     = Ok (i_referenceNumber i)
  /\ prisma.col_nullable_date (i_completedAt old) (data !! "completedAt") = Ok (i_completedAt i)
  /\ prisma.col_string (Some (i_categoryId old)) (data !! "categoryId") = Ok (i_categoryId i)
  /\ prisma.col_nullable_string (i_subcategoryId old) (data !! "subcategoryId")
     = Ok (i_subcategoryId i)
  /\ prisma.col_string (Some (i_createdById old)) (data !! "createdById") = Ok (i_createdById i)
  /\ prisma.col_nullable_string (i_assignedToId old) (data !! "assignedToId")
     = Ok (i_assignedToId i).
Proof.
  unfold prisma.issue.row. simpl. unfold mbind, exn_bind. intros H.
  repeat (next_call H; [|discriminate H]).
  injection H as <-. simpl. repeat split; assumption.
Qed.

Lemma update_inv (db : Db) (id : string) (data : JsObject) (i : Issue) (db' : Db) :
  prisma.issue.update db id data = Ok (i, db') ->
  exists old,
    prisma.issue.findUnique db id = Some old
    /\ prisma.issue.row id (i_createdAt old) (Some old) data = Ok i
    /\ db' = set_issues (map (fun j => if decide (i_id j = id) then i else j) (issues db)) db.
Proof.
  unfold prisma.issue.update, mbind, exn_bind. intros H.
  next_call H; [|discriminate H].
  destruct (prisma.issue.findUnique db id) as [old|]; [|discriminate H].
  next_call H; [|discriminate H].
  repeat (next_call H; [|discriminate H]).
  injection H as <- <-. exists old. auto.
Qed.

(** The updated row is the one [id] names afterwards. *)
Lemma findUnique_updated (db : Db) (id : string) (old i : Issue) :
  prisma.issue.findUnique db id = Some old ->
  i_id i = id ->
  prisma.issue.findUnique
    (set_issues (map (fun j => if decide (i_id j = id) then i else j) (issues db)) db) id
  = Some i.
Proof.
  unfold prisma.issue.findUnique. simpl. intros Hfind Hid.
  induction (issues db) as [|j l IH]; simpl in *; [discriminate|].
  destruct (decide (i_id j = id)) as [Hj|Hj].
  - rewrite bool_decide_eq_true_2 by exact Hid. reflexivity.
  - rewrite bool_decide_eq_false_2 in Hfind |- * by exact Hj. apply IH, Hfind.
Qed.

Lemma completedAt_not_allowed (userRole : UserRole) (userId : string) (currentIssue : Issue)
    (body : JsObject) :
  filterFields (updatePermission userRole userId currentIssue).2 body !! "completedAt" = None.
Proof.
  assert (Hu : bool_decide ("completedAt" ∈ userFields) = false) by reflexivity.
  assert (Hs : bool_decide ("completedAt" ∈ staffFields) = false) by reflexivity.
  rewrite filterFields_lookup. unfold updatePermission.
  destruct (_ && _); cbn [snd]; [rewrite Hu; reflexivity|].
  destruct (_ || _); cbn [snd]; [rewrite Hs|]; reflexivity.
Qed.

(** What a successful [updateIssue] did. *)
Lemma updateIssue_ok_inv (now : Z) (user : option AuthUser) (id : string) (body : JsObject)
    (db : Db) (r : Response) (db' : Db) (userId : string) (userRole : UserRole)
    (currentIssue : Issue) :
  credentials user = Some (userId, userRole) ->
  prisma.issue.findUnique db id = Some currentIssue ->
  updateIssue now user id body db = (r, db') ->
  status r = 200%Z ->
  exists updatedIssue,
    r = reply 200 "Issue updated successfully" (DataIssue updatedIssue)
    /\ prisma.issue.update db id
         (stampCompleted now currentIssue
            (filterFields (updatePermission userRole userId currentIssue).2 body))
       = Ok (updatedIssue, db').
Proof.
  intros Hcred Hfind H S. unfold updateIssue, catch in H. rewrite Hcred, Hfind in H.
  destruct (updatePermission userRole userId currentIssue) as [canUpdate allowedFields].
  destruct canUpdate; simpl in H; [|reply_mismatch].
  unfold mbind, exn_bind in H.
  destruct (prisma.issue.update db id _) as [[updatedIssue db1]|] eqn:E; [|reply_mismatch].
  injection H as <- <-. exists updatedIssue. split; reflexivity.
Qed.

(** C4: an update that sets the status to COMPLETED on an issue that was
    not completed stamps [completedAt] with the current time; an update of
    an issue that was completed leaves [completedAt] as it was, whatever
    status it moves to. *)
Theorem updateIssue_completedAt (now : Z) (user : option AuthUser) (id : string)
    (body : JsObject) (db : Db) (r : Response) (db' : Db) (userId : string)
    (userRole : UserRole) (currentIssue : Issue) :
  credentials user = Some (userId, userRole) ->
  prisma.issue.findUnique db id = Some currentIssue ->
  updateIssue now user id body db = (r, db') ->
  status r = 200%Z ->
  exists updatedIssue,
    data r = DataIssue updatedIssue
    /\ prisma.issue.findUnique db' id = Some updatedIssue
    /\ (filterFields (updatePermission userRole userId currentIssue).2 body !! "status"
          = Some (JStr "COMPLETED") ->
        i_status currentIssue <> COMPLETED ->
        i_completedAt updatedIssue = Some now)
    /\ (i_status currentIssue = COMPLETED ->
        i_completedAt updatedIssue = i_completedAt currentIssue).
Proof.
  intros Hcred Hfind H S.
  destruct (updateIssue_ok_inv _ _ _ _ _ _ _ _ _ _ Hcred Hfind H S) as (upd & -> & Hupd).
  apply update_inv in Hupd as (old & Hold & Hrow & ->).
  rewrite Hfind in Hold. injection Hold as <-.
  apply row_update_inv in Hrow as (Hid & _ & _ & _ & _ & _ & _ & _ & _ & _ & _ & Hdate & _).
  exists upd. split; [reflexivity|]. split; [apply (findUnique_updated _ _ currentIssue); auto|].
  unfold stampCompleted in Hdate. split.
  - intros Hstatus Hprev. rewrite Hstatus in Hdate. simpl in Hdate.
    rewrite bool_decide_eq_false_2 in Hdate by exact Hprev. simpl in Hdate.
    rewrite lookup_insert_eq in Hdate. simpl in Hdate. congruence.
  - intros Hprev. rewrite (bool_decide_eq_true_2 _ Hprev), andb_false_r in Hdate.
    rewrite completedAt_not_allowed in Hdate. simpl in Hdate. congruence.
Qed.

Lemma updateIssue_completedAt_witness :
  (exists updatedIssue,
     data (updateIssue 99 asSupervisorA "i2" completeIt town).1 = DataIssue updatedIssue
     /\ prisma.issue.findUnique (updateIssue 99 asSupervisorA "i2" completeIt town).2 "i2"
        = Some updatedIssue
     /\ (filterFields (updatePermission SUPERVISOR "s1" lamp).2 completeIt !! "status"
           = Some (JStr "COMPLETED") ->
         i_status lamp <> COMPLETED ->
         i_completedAt updatedIssue = Some 99%Z)
     /\ (i_status lamp = COMPLETED -> i_completedAt updatedIssue = i_completedAt lamp))
  /\ (exists updatedIssue,
        data (updateIssue 99 asSupervisorA "i3" reopenIt town).1 = DataIssue updatedIssue
        /\ prisma.issue.findUnique (updateIssue 99 asSupervisorA "i3" reopenIt town).2 "i3"
           = Some updatedIssue
        /\ (filterFields (updatePermission SUPERVISOR "s1" bench).2 reopenIt !! "status"
              = Some (JStr "COMPLETED") ->
            i_status bench <> COMPLETED ->
            i_completedAt updatedIssue = Some 99%Z)
        /\ (i_status bench = COMPLETED -> i_completedAt updatedIssue = i_completedAt bench)).
Proof.
  split.
  - apply (updateIssue_completedAt 99 asSupervisorA "i2" completeIt town
             (updateIssue 99 asSupervisorA "i2" completeIt town).1
             (updateIssue 99 asSupervisorA "i2" completeIt town).2 "s1" SUPERVISOR lamp).
    + reflexivity.
    + reflexivity.
    + apply surjective_pairing.
    + vm_compute. reflexivity.
  - apply (updateIssue_completedAt 99 asSupervisorA "i3" reopenIt town
             (updateIssue 99 asSupervisorA "i3" reopenIt town).1
             (updateIssue 99 asSupervisorA "i3" reopenIt town).2 "s1" SUPERVISOR bench).
    + reflexivity.
    + reflexivity.
    + apply surjective_pairing.
    + vm_compute. reflexivity.
Defined.

Lemma filterFields_kept (allowedFields : list string) (updateData : JsObject) (k : string) :
  bool_decide (k ∈ allowedFields) = true ->
  filterFields allowedFields updateData !! k = updateData !! k.
Proof. intros H. rewrite filterFields_lookup, H. reflexivity. Qed.

Lemma filterFields_dropped (allowedFields : list string) (updateData : JsObject) (k : string) :
  bool_decide (k ∈ allowedFields) = false ->
  filterFields allowedFields updateData !! k = None.
Proof. intros H. rewrite filterFields_lookup, H. reflexivity. Qed.

Lemma col_string_typed (d : string) (v : option JsVal) :
  string_or_absent v = true -> prisma.col_string (Some d) v = Ok (string_or d v).
Proof. destruct v as [[]|]; simpl; intros H; try discriminate H; reflexivity. Qed.

Lemma col_float_typed (d : float) (v : option JsVal) :
  number_or_absent v = true -> prisma.col_float (Some d) v = Ok (number_or d v).
Proof. destruct v as [[]|]; simpl; intros H; try discriminate H; reflexivity. Qed.

(** C5: an update by the citizen who created the issue succeeds, writes
    at most title, description, address, latitude and longitude, and
    leaves every other column of the issue as it was, whatever else the
    body names. *)
Theorem updateIssue_citizen_fields (now : Z) (user : option AuthUser) (id : string)
    (body : JsObject) (db : Db) (userId : string) (currentIssue : Issue) :
  credentials user = Some (userId, USER) ->
  prisma.issue.findUnique db id = Some currentIssue ->
  i_createdById currentIssue = userId ->
  citizenFieldsTyped body = true ->
  exists updatedIssue,
    updateIssue now user id body db
    = (reply 200 "Issue updated successfully" (DataIssue updatedIssue),
       set_issues (map (fun j => if decide (i_id j = id) then updatedIssue else j) (issues db))
         db)
    /\ updatedIssue
       = mkIssue id
           (string_or (i_title currentIssue) (body !! "title"))
           (string_or (i_description currentIssue) (body !! "description"))
           (string_or (i_address currentIssue) (body !! "address"))
           (number_or (i_latitude currentIssue) (body !! "latitude"))
           (number_or (i_longitude currentIssue) (body !! "longitude"))
           (i_status currentIssue) (i_priority currentIssue) (i_isEmergency currentIssue)
           (i_referenceNumber currentIssue) (i_completedAt currentIssue)
           (i_createdAt currentIssue) (i_categoryId currentIssue)
           (i_subcategoryId currentIssue) (i_createdById currentIssue)
           (i_assignedToId currentIssue).
Proof.
  intros Hcred Hfind Hown Htyped.
  unfold citizenFieldsTyped in Htyped.
  repeat (apply andb_true_iff in Htyped as [Htyped ?]).
  eexists. split; [|reflexivity].
  unfold updateIssue, catch. rewrite Hcred, Hfind.
  unfold updatePermission.
  rewrite (bool_decide_eq_true_2 (USER = USER)) by reflexivity.
  rewrite (bool_decide_eq_true_2 _ Hown). cbn [andb negb].
  unfold stampCompleted.
  rewrite (filterFields_dropped userFields body "status") by reflexivity.
  cbn [strict_eq_string andb].
  unfold prisma.issue.update.
  rewrite (bool_decide_eq_true_2 (dom (filterFields userFields body) ⊆ _)).
  2:{ etransitivity; [apply filterFields_dom|].
      intros k Hk. apply elem_of_list_to_set in Hk. apply elem_of_list_to_set.
      unfold userFields in Hk. unfold prisma.issue.columns.
      repeat (apply elem_of_cons in Hk as [->|Hk]; [set_solver|]).
      apply elem_of_nil in Hk. contradiction. }
  cbn [prisma.check mbind exn_bind]. rewrite Hfind. cbn [mbind exn_bind].
  unfold prisma.issue.row, prisma.issue.references_ok, prisma.issue.present.
  rewrite !(filterFields_kept userFields body "title") by reflexivity.
  rewrite !(filterFields_kept userFields body "description") by reflexivity.
  rewrite !(filterFields_kept userFields body "address") by reflexivity.
  rewrite !(filterFields_kept userFields body "latitude") by reflexivity.
  rewrite !(filterFields_kept userFields body "longitude") by reflexivity.
  rewrite !(filterFields_dropped userFields body "status") by reflexivity.
  rewrite !(filterFields_dropped userFields body "priority") by reflexivity.
  rewrite !(filterFields_dropped userFields body "isEmergency") by reflexivity.
  rewrite !(filterFields_dropped userFields body "referenceNumber") by reflexivity.
  rewrite !(filterFields_dropped userFields body "completedAt") by reflexivity.
  rewrite !(filterFields_dropped userFields body "categoryId") by reflexivity.
  rewrite !(filterFields_dropped userFields body "subcategoryId") by reflexivity.
  rewrite !(filterFields_dropped userFields body "createdById") by reflexivity.
  rewrite !(filterFields_dropped userFields body "assignedToId") by reflexivity.
  cbn [fmap option_fmap option_map mbind option_bind default].
  repeat first
    [ rewrite col_string_typed by (assumption || reflexivity)
    | rewrite col_float_typed by (assumption || reflexivity)
    | progress cbn [mbind exn_bind prisma.col_enum prisma.col_bool prisma.col_nullable_date
                    prisma.col_nullable_string] ].
  rewrite !(bool_decide_eq_false_2 (is_Some (@None JsVal))) by apply is_Some_None.
  cbn [negb orb andb prisma.check mbind exn_bind]. reflexivity.
Qed.

Lemma updateIssue_citizen_fields_witness :
  exists updatedIssue,
    updateIssue 60 asCitizen "i1" retitle town
    = (reply 200 "Issue updated successfully" (DataIssue updatedIssue),
       set_issues
         (map (fun j => if decide (i_id j = "i1") then updatedIssue else j) (issues town))
         town)
    /\ updatedIssue
       = mkIssue "i1"
           (string_or (i_title pothole) (retitle !! "title"))
           (string_or (i_description pothole) (retitle !! "description"))
           (string_or (i_address pothole) (retitle !! "address"))
           (number_or (i_latitude pothole) (retitle !! "latitude"))
           (number_or (i_longitude pothole) (retitle !! "longitude"))
           (i_status pothole) (i_priority pothole) (i_isEmergency pothole)
           (i_referenceNumber pothole) (i_completedAt pothole)
           (i_createdAt pothole) (i_categoryId pothole)
           (i_subcategoryId pothole) (i_createdById pothole)
           (i_assignedToId pothole).
Proof.
  apply (updateIssue_citizen_fields 60 asCitizen "i1" retitle town "u1" pothole).
  - reflexivity.
  - reflexivity.
  - reflexivity.
  - vm_compute. reflexivity.
Defined.

(** ** issue.controller.ts: priority of an emergency *)

(** An issue created with [isEmergency: true] is stored with priority
    EMERGENCY, whatever priority the body names. *)
Lemma createIssue_emergency (newId referenceNumber : string) (now : Z)
    (user : option AuthUser) (body : JsObject) (db : Db) (r : Response) (db' : Db) :
  createIssue newId referenceNumber now user body db = (r, db') ->
  status r = 201%Z ->
  body !! "isEmergency" = Some (JBool true) ->
  exists issue,
    data r = DataIssue issue
    /\ issues db' = (issues db ++ [issue])%list
    /\ i_isEmergency issue = true
    /\ i_priority issue = EMERGENCY.
Proof.
  intros H S Hem. unfold createIssue, catch in H.
  destruct user as [u|]; [|reply_mismatch].
  destruct (truthy_string (au_id u)); [|reply_mismatch].
  rewrite Hem in H. cbn [default_param truthy] in H.
  unfold mbind, exn_bind in H.
  destruct (prisma.arg_string (body !! "categoryId")) as [cid|]; [|reply_mismatch].
  destruct (prisma.category.findUnique db cid true); [|reply_mismatch].
  match type of H with
  | context [if truthy ?v then ?a else ?b] => destruct (if truthy v then a else b) as [[]|]
  end; cbn [negb] in H; try reply_mismatch.
  unfold prisma.issue.create, prisma.issue.row in H.
  rewrite !object_lookup in H by reflexivity. simpl property in H.
  unfold mbind, exn_bind in H.
  repeat (next_call H; [|reply_mismatch]).
  injection H as <- <-. eexists. split; [reflexivity|]. split; [reflexivity|].
  simpl in *. split; congruence.
Qed.

(** C2, on the update path: a staff update that sets [isEmergency] to
    true and names priority LOW succeeds and stores priority LOW; the
    priority is not raised to EMERGENCY. *)
Theorem updateIssue_emergency_keeps_priority :
  exists updatedIssue db',
    updateIssue 70 asSupervisorA "i2" flagEmergency town
    = (reply 200 "Issue updated successfully" (DataIssue updatedIssue), db')
    /\ prisma.issue.findUnique db' "i2" = Some updatedIssue
    /\ filterFields staffFields flagEmergency !! "isEmergency" = Some (JBool true)
    /\ i_isEmergency updatedIssue = true
    /\ i_priority updatedIssue = LOW
    /\ i_priority updatedIssue <> EMERGENCY.
Proof.
  eexists _, _. split; [vm_compute; reflexivity|].
  repeat split; try (vm_compute; reflexivity). discriminate.
Qed.

(** ** issue.controller.ts: the listing *)

Lemma window_In (skip : Z) (take : option Z) (l : list Issue) (x : Issue) :
  In x (prisma.issue.window skip take l) -> In x l.
Proof.
  unfold prisma.issue.window. intros H. apply list_elem_of_In in H. apply list_elem_of_In.
  destruct take as [n|]; [destruct (0 <=? n)%Z|].
  - apply (subseteq_drop (Z.to_nat skip)), (subseteq_take (Z.to_nat n)), H.
  - apply list_elem_of_In, in_rev, list_elem_of_In in H. apply list_elem_of_In, in_rev,
      list_elem_of_In.
    apply (subseteq_drop (Z.to_nat skip)), (subseteq_take (Z.to_nat (- n))), H.
  - apply (subseteq_drop (Z.to_nat skip)), H.
Qed.

Lemma sort_by_In (le : Issue -> Issue -> bool) (l : list Issue) (x : Issue) :
  In x (prisma.issue.sort_by le l) <-> In x l.
Proof.
  unfold prisma.issue.sort_by. split; intros H.
  - exact (Permutation_in x (merge_sort_Permutation (prisma.ordered le) l) H).
  - exact (Permutation_in x (Permutation_sym (merge_sort_Permutation (prisma.ordered le) l)) H).
Qed.

(** Every row [findMany] returns is a row of the table on which the
    [where] clause holds. *)
Lemma findMany_In (db : Db) (w : IssueWhere) (orderBy : Issue -> Issue -> bool)
    (skip : Z) (take : option Z) (page : list Issue) (x : Issue) :
  prisma.issue.findMany db w orderBy skip take = Ok page ->
  In x page -> In x (issues db) /\ where_holds w x = true.
Proof.
  unfold prisma.issue.findMany, mbind, exn_bind. intros H Hx.
  repeat (next_call H; [|discriminate H]). injection H as <-.
  apply window_In, sort_by_In, filter_In in Hx. exact Hx.
Qed.

Lemma where_holds_entry (w : IssueWhere) (i : Issue) (k : string) (v : WhereVal) :
  where_holds w i = true -> w !! k = Some v -> entry_holds k v i = true.
Proof.
  unfold where_holds. intros H Hk. apply bool_decide_eq_true in H. exact (H k v Hk).
Qed.

(** One assignment to a key other than [k] does not change what is under [k]. *)
Ltac peel_assignment :=
  lazymatch goal with
  | |- (match ?x with Some _ => _ | None => ?w end) !! ?k = _ =>
      transitivity (w !! k);
      [ destruct x;
        [ repeat (match goal with |- (if ?b then _ else _) !! _ = _ => destruct b end);
          rewrite ?lookup_insert_ne by done; reflexivity
        | reflexivity ]
      | ]
  | |- (if ?b then _ else ?w) !! ?k = _ =>
      transitivity (w !! k); [destruct b; rewrite ?lookup_insert_ne by done; reflexivity|]
  end.

(** Without a search text the clause of a supervisor keeps the role's
    alternatives under [OR]. *)
Lemma getIssuesWhere_supervisor_OR (Date_parse : string -> JsDate) (userId : string)
    (q : FilterOptions) :
  truthy_opt (f_search q) = false ->
  getIssuesWhere Date_parse SUPERVISOR userId q !! "OR"
  = Some (WOR [("assignedToId", FEq userId); ("assignedToId", FNull);
               ("createdById", FEq userId)]).
Proof.
  intros Hsearch. unfold getIssuesWhere. cbv zeta.
  destruct (f_search q) as [search|]; simpl in Hsearch; [rewrite Hsearch|].
  all: repeat peel_assignment; apply lookup_insert_eq.
Qed.

Lemma supervisor_alternatives (userId : string) (i : Issue) :
  entry_holds "OR" (WOR [("assignedToId", FEq userId); ("assignedToId", FNull);
                         ("createdById", FEq userId)]) i = true ->
  supervisorVisible userId i.
Proof.
  unfold supervisorVisible. simpl. intros H.
  change (text_column "assignedToId" i) with (i_assignedToId i) in H.
  change (text_column "createdById" i) with (Some (i_createdById i)) in H.
  rewrite orb_false_r in H.
  apply orb_true_iff in H as [H|H]; [|apply orb_true_iff in H as [H|H]];
    apply bool_decide_eq_true in H; [left | right; left | right; right]; congruence.
Qed.

(** The listing of a supervisor who sends no search text shows only
    issues assigned to them, unassigned, or created by them. *)
Lemma getIssues_supervisor_without_search (Date_parse : string -> JsDate)
    (user : option AuthUser) (userId : string) (q : FilterOptions) (db : Db)
    (r : Response) (db' : Db) (page : list Issue) (pagination : Pagination) :
  credentials user = Some (userId, SUPERVISOR) ->
  truthy_opt (f_search q) = false ->
  getIssues Date_parse user q db = (r, db') ->
  data r = DataIssues page pagination ->
  forall i, In i page -> supervisorVisible userId i.
Proof.
  intros Hcred Hsearch H Hdata i Hi. unfold getIssues, catch in H. rewrite Hcred in H.
  unfold mbind, exn_bind in H.
  destruct (prisma.issue.count db _); [|injection H as <- <-; discriminate Hdata].
  destruct (prisma.issue.findMany db _ _ _ _) as [found|] eqn:Efind;
    [|injection H as <- <-; discriminate Hdata].
  injection H as <- <-. simpl in Hdata. injection Hdata as <- <-.
  apply (findMany_In _ _ _ _ _ _ i Efind) in Hi as [_ Hholds].
  apply supervisor_alternatives.
  apply (where_holds_entry _ _ _ _ Hholds), getIssuesWhere_supervisor_OR, Hsearch.
Qed.

(** With a search text the clause holds the four text alternatives under
    [OR], whatever the role put there. *)
Lemma getIssuesWhere_search_OR (Date_parse : string -> JsDate) (userRole : UserRole)
    (userId : string) (q : FilterOptions) (search : string) :
  f_search q = Some search ->
  truthy_string search = true ->
  getIssuesWhere Date_parse userRole userId q !! "OR"
  = Some (WOR [("title", FContains search); ("description", FContains search);
               ("address", FContains search); ("referenceNumber", FContains search)]).
Proof.
  intros Hq Hsearch. unfold getIssuesWhere. cbv zeta. rewrite Hq, Hsearch.
  apply lookup_insert_eq.
Qed.

(** The plain listing of supervisor s1 leaves out the issue assigned to s2. *)
Example getIssues_supervisor_plain :
  getIssues noDate asSupervisorA noFilter town
  = (reply 200 "Issues retrieved successfully"
       (DataIssues [bench; lamp] (mkPagination 1 20 2 (Some 1%Z))), town).
Proof. vm_compute. reflexivity. Qed.

(** C1, on the search path: supervisor s1 searches for the text pothole
    and the page returned holds an issue that is assigned to supervisor
    s2 and was created by a citizen. *)
Theorem getIssues_search_replaces_role_filter :
  exists page pagination,
    getIssues noDate asSupervisorA searchPothole town
    = (reply 200 "Issues retrieved successfully" (DataIssues page pagination), town)
    /\ In pothole page
    /\ ~ supervisorVisible "s1" pothole
    /\ getIssuesWhere noDate SUPERVISOR "s1" searchPothole !! "OR"
       = Some (WOR [("title", FContains "pothole"); ("description", FContains "pothole");
                    ("address", FContains "pothole");
                    ("referenceNumber", FContains "pothole")]).
Proof.
  eexists _, _. split; [vm_compute; reflexivity|].
  split; [left; reflexivity|]. split.
  - unfold supervisorVisible. simpl. intros [H|[H|H]]; discriminate H.
  - vm_compute. reflexivity.
Qed.

(** ** excel.controller.ts: the export *)







(** A staff export succeeds when Prisma accepts the filters and every
    issue has its category and its creator. *)
Lemma exportIssues_succeeds (Date_parse : string -> JsDate) (toLocaleDateString : Z -> string)
    (user : option AuthUser) (userId : string) (userRole : UserRole) (q : ExportQuery)
    (db : Db) :
  credentials user = Some (userId, userRole) ->
  userRole <> USER ->
  where_valid (exportWhere Date_parse q) = true ->
  (forall i, In i (issues db) ->
     prisma.category.exists_id db (i_categoryId i) = true
     /\ prisma.user.exists_id db (i_createdById i) = true) ->
  exists wb, exportIssues Date_parse toLocaleDateString user q db = (attachment wb, db).
Proof.
  intros Hcred Hstaff Hvalid Hrefs. unfold exportIssues, catch. rewrite Hcred.
  rewrite bool_decide_eq_false_2 by exact Hstaff.
  unfold prisma.issue.findMany. rewrite Hvalid.
  cbn [prisma.check mbind exn_bind Z.leb Z.compare].
  set (found := prisma.issue.window 0 None _).
  assert (Hfound : forall i, In i found -> In i (issues db)).
  { intros i Hi. apply window_In, sort_by_In, filter_In in Hi as [Hi _]. exact Hi. }
  clearbody found.
  assert (Hrows : exists rows, traverse (exportRow toLocaleDateString db) found = Ok rows).
  { induction found as [|i found IH]; [exists []; reflexivity|].
    destruct IH as [rows Hrows]; [intros j Hj; apply Hfound; right; exact Hj|].
    destruct (Hrefs i (Hfound i (or_introl eq_refl))) as [Hc Hu].
    apply existsb_exists in Hc as (c & Hc & Hcid).
    apply existsb_exists in Hu as (u & Hu & Huid).
    destruct (List.find (fun c => bool_decide (c_id c = i_categoryId i)) (categories db))
      as [c'|] eqn:Ec; [|rewrite (find_none _ _ Ec c Hc) in Hcid; discriminate Hcid].
    destruct (prisma.user.findUnique db (i_createdById i)) as [u'|] eqn:Eu;
      [|rewrite (find_none _ _ Eu u Hu) in Huid; discriminate Huid].
    assert (Hrow : exists row, exportRow toLocaleDateString db i = Ok row).
    { unfold exportRow. rewrite Ec, Eu. eexists. reflexivity. }
    destruct Hrow as [row Hrow]. exists (row :: rows). cbn [traverse].
    rewrite Hrow, Hrows. reflexivity. }
  destruct Hrows as [rows ->]. eexists. reflexivity.
Qed.

(** ** excel.controller.ts: the import *)

(** A row with a blank required cell is reported under its worksheet row
    number and nothing is stored. *)
Lemma importRow_missing (userId : string) (newId : nat -> string) (now : nat -> Z)
    (worksheet : Worksheet) (importResults : ImportResults) (db : Db) (rowNumber : nat) :
  rowComplete (nth (rowNumber - 1) worksheet []) = false ->
  importRow userId newId now worksheet (importResults, db) rowNumber
  = (pushError importResults ("Row " ++ show_nat rowNumber ++ ": Missing required fields"),
     db).
Proof.
  intros Hrow. unfold importRow, cellText. cbn [Nat.sub].
  unfold rowComplete in Hrow.
  destruct (truthy_string (nth 0 _ "")), (truthy_string (nth 1 _ "")),
    (truthy_string (nth 2 _ "")), (truthy_string (nth 3 _ "")); try discriminate Hrow;
    reflexivity.
Qed.

Lemma prefix_append (p s : string) : String.prefix p (p ++ s) = true.
Proof.
  induction p as [|c p IH].
  - destruct s; reflexivity.
  - change (String c p ++ s) with (String c (p ++ s)). cbn [String.prefix].
    destruct (Ascii.ascii_dec c c) as [_|Hc]; [exact IH | contradiction].
Qed.

(** One turn of the loop counts its row once: as successful, or as failed
    with one message, which starts with the worksheet row number. *)
Lemma importRow_outcome (userId : string) (newId : nat -> string) (now : nat -> Z)
    (worksheet : Worksheet) (importResults : ImportResults) (db : Db) (rowNumber : nat)
    (importResults' : ImportResults) (db' : Db) :
  importRow userId newId now worksheet (importResults, db) rowNumber = (importResults', db') ->
  (successful importResults' = (successful importResults + 1)%Z
   /\ failed importResults' = failed importResults
   /\ errors importResults' = errors importResults)
  \/ (successful importResults' = successful importResults
      /\ failed importResults' = (failed importResults + 1)%Z
      /\ exists msg,
           errors importResults'
           = (errors importResults
                ++ [("Row " ++ show_nat rowNumber ++ ": " ++ msg)%string])%list).
Proof.
  intros H. unfold importRow in H. cbv zeta in H.
  destruct (_ || _); [injection H as <- <-; right; simpl; eauto|].
  destruct (prisma.category.findFirst db _ true) as [category|];
    [|injection H as <- <-; right; simpl; eauto].
  destruct (prisma.issue.create db _ _ _) as [[i d]|];
    injection H as <- <-; [left | right]; simpl; eauto.
Qed.

(** The import passes neither [latitude] nor [longitude] to the create,
    and the issues table requires both (as [createIssue] and the seed,
    which pass them, show): the create of every complete row is refused
    and lands in the [catch] of its row.  No turn of the loop stores
    anything. *)
Lemma importRow_never_stores (userId : string) (newId : nat -> string) (now : nat -> Z)
    (worksheet : Worksheet) (importResults : ImportResults) (db : Db) (rowNumber : nat) :
  (importRow userId newId now worksheet (importResults, db) rowNumber).2 = db
  /\ successful (importRow userId newId now worksheet (importResults, db) rowNumber).1
     = successful importResults.
Proof.
  unfold importRow. cbv zeta.
  destruct (_ || _); [split; reflexivity|].
  destruct (prisma.category.findFirst db _ true) as [category|]; [|split; reflexivity].
  unfold prisma.issue.create, prisma.issue.row.
  rewrite !object_lookup by reflexivity. simpl property.
  destruct (prisma.check (bool_decide _) _); split; reflexivity.
Qed.

Example importIssues_three_rows_all_fail :
  (importIssues importId importClock asAdministrator (Some (Ok (Some threeRows))) town).2
  = town
  /\ exists report,
       data (importIssues importId importClock asAdministrator
               (Some (Ok (Some threeRows))) town).1 = DataImport report
       /\ successful report = 0%Z /\ failed report = 3%Z.
Proof. split; [reflexivity|]. eexists. split; [reflexivity|]. split; reflexivity. Qed.

(** C6, as the code has it by design: of three data rows of which the
    second lacks its address, that row is counted as failed and reported
    under its worksheet row number, 3 (the header is row 1 and the data
    rows are numbered from 2); any message before it is one for row 2 and
    any after it one for row 4; every row is counted once, and [errors]
    holds one message for each failed row. *)
Theorem importIssues_three_rows (newId : nat -> string) (now : nat -> Z)
    (user : option AuthUser) (userId : string) (db : Db) (header r1 r2 r3 : list string) :
  credentials user = Some (userId, ADMIN) ->
  nth 2 r2 "" = "" ->
  exists report db' before after,
    importIssues newId now user (Some (Ok (Some [header; r1; r2; r3]))) db
    = (reply 200 "Import completed" (DataImport report), db')
    /\ errors report = (before ++ "Row 3: Missing required fields" :: after)%list
    /\ Forall (fun msg => String.prefix "Row 2: " msg = true) before
    /\ Forall (fun msg => String.prefix "Row 4: " msg = true) after
    /\ (0 <= successful report)%Z
    /\ (successful report + failed report = 3)%Z
    /\ failed report = Z.of_nat (length (errors report)).
Proof.
  intros Hcred Hr2.
  unfold importIssues. rewrite Hcred.
  rewrite (bool_decide_eq_true_2 (ADMIN = ADMIN)) by reflexivity. cbn [negb].
  change (seq 2 (rowCount [header; r1; r2; r3] - 1)) with [2; 3; 4]%nat.
  cbn [fold_left].
  destruct (importRow userId newId now _ (mkImportResults 0 0 [], db) 2)
    as [results2 db2] eqn:H2.
  rewrite importRow_missing.
  2:{ cbn [Nat.sub nth]. unfold rowComplete. rewrite Hr2. cbn [truthy_string String.eqb negb].
      rewrite !andb_false_r. reflexivity. }
  destruct (importRow userId newId now _ (pushError results2 _, db2) 4)
    as [results4 db4] eqn:H4.
  apply importRow_outcome in H2. apply importRow_outcome in H4.
  cbn [successful failed errors pushError] in H2, H4.
  exists results4, db4.
  destruct H2 as [(S2 & F2 & E2)|(S2 & F2 & msg2 & E2)];
    destruct H4 as [(S4 & F4 & E4)|(S4 & F4 & msg4 & E4)];
    rewrite E2 in E4; cbn [app] in E4.
  all: [> exists [], []
        | exists [], [("Row " ++ show_nat 4 ++ ": " ++ msg4)%string]
        | exists [("Row " ++ show_nat 2 ++ ": " ++ msg2)%string], []
        | exists [("Row " ++ show_nat 2 ++ ": " ++ msg2)%string],
                 [("Row " ++ show_nat 4 ++ ": " ++ msg4)%string] ].
  all: rewrite E4, S4, F4, S2, F2; split; [reflexivity|].
  all: split; [vm_compute; reflexivity|].
  all: split; [repeat constructor; apply (prefix_append "Row 2: ")|].
  all: split; [repeat constructor; apply (prefix_append "Row 4: ")|].
  all: cbn [length app]; lia.
Qed.

Lemma importIssues_three_rows_witness :
  exists report db' before after,
    importIssues importId importClock asAdministrator (Some (Ok (Some threeRows))) town
    = (reply 200 "Import completed" (DataImport report), db')
    /\ errors report = (before ++ "Row 3: Missing required fields" :: after)%list
    /\ Forall (fun msg => String.prefix "Row 2: " msg = true) before
    /\ Forall (fun msg => String.prefix "Row 4: " msg = true) after
    /\ (0 <= successful report)%Z
    /\ (successful report + failed report = 3)%Z
    /\ failed report = Z.of_nat (length (errors report)).
Proof.
  apply (importIssues_three_rows importId importClock asAdministrator "a1" town
           ["Title"; "Description"; "Address"; "Category"]
           ["Pothole"; "A large pothole on the avenue"; "Vouliagmenis 125"; "Roads"]
           ["Street lamp"; "The lamp at the corner is out"; ""; "Roads"]
           ["Bench"; "Broken bench in the park"; "Metaxa 3"; "Roads"]).
  - reflexivity.
  - reflexivity.
Defined.

(** The report of the three-row import is not the one that numbers the
    data rows from 1. *)
Lemma importIssues_not_numbered_from_one :
  data (importIssues importId importClock asAdministrator (Some (Ok (Some threeRows))) town).1
  <> DataImport (mkImportResults 2 1 ["Row 2: Missing required fields"]).
Proof. vm_compute. discriminate. Qed.

(** * Further properties *)

(** ** issue.controller.ts: the listing, page by page *)

(** What a listing that succeeded ran. *)
Lemma getIssues_page_inv (Date_parse : string -> JsDate) (user : option AuthUser)
    (userId : string) (userRole : UserRole) (q : FilterOptions) (db : Db)
    (r : Response) (db' : Db) (page : list Issue) (pagination : Pagination) :
  credentials user = Some (userId, userRole) ->
  getIssues Date_parse user q db = (r, db') ->
  data r = DataIssues page pagination ->
  exists total,
    prisma.issue.count db (getIssuesWhere Date_parse userRole userId q) = Ok total
    /\ prisma.issue.findMany db (getIssuesWhere Date_parse userRole userId q) emergencyFirst
         ((default 1 (f_page q) - 1) * default 20 (f_limit q))%Z
         (Some (default 20%Z (f_limit q))) = Ok page
    /\ pagination = mkPagination (default 1%Z (f_page q)) (default 20%Z (f_limit q)) total
                      (ceil_div total (default 20%Z (f_limit q)))
    /\ db' = db.
Proof.
  intros Hcred H Hdata. unfold getIssues, catch in H. rewrite Hcred in H.
  unfold mbind, exn_bind in H.
  destruct (prisma.issue.count db _) as [total|];
    [|injection H as <- <-; discriminate Hdata].
  destruct (prisma.issue.findMany db _ _ _ _) as [found|];
    [|injection H as <- <-; discriminate Hdata].
  injection H as <- <-. simpl in Hdata. injection Hdata as <- <-.
  exists total. auto.
Qed.

(** One assignment that is guarded by a role test the requester fails, or
    that writes another key, does not change what is under [k]. *)
Ltac peel_citizen :=
  lazymatch goal with
  | |- (match ?x with Some _ => _ | None => ?w end) !! ?k = _ =>
      transitivity (w !! k);
      [ destruct x;
        [ rewrite ?andb_false_r; cbv iota;
          repeat (match goal with |- (if ?b then _ else _) !! _ = _ => destruct b end);
          rewrite ?lookup_insert_ne by done; reflexivity
        | reflexivity ]
      | ]
  | |- (if ?b then _ else ?w) !! ?k = _ =>
      transitivity (w !! k); [destruct b; rewrite ?lookup_insert_ne by done; reflexivity|]
  end.

Lemma getIssuesWhere_citizen_createdById (Date_parse : string -> JsDate) (userId : string)
    (q : FilterOptions) :
  getIssuesWhere Date_parse USER userId q !! "createdById" = Some (WField (FEq userId)).
Proof.
  unfold getIssuesWhere. cbv zeta. change (is_staff USER) with false.
  repeat peel_citizen. apply lookup_insert_eq.
Qed.

(** A citizen's listing shows only issues the citizen created, whatever
    filters the query names: the [createdById] parameter is not honoured
    for them and the search text leaves their scope in place. *)
Theorem getIssues_citizen_sees_own (Date_parse : string -> JsDate) (user : option AuthUser)
    (userId : string) (q : FilterOptions) (db : Db) (r : Response) (db' : Db)
    (page : list Issue) (pagination : Pagination) :
  credentials user = Some (userId, USER) ->
  getIssues Date_parse user q db = (r, db') ->
  data r = DataIssues page pagination ->
  forall i, In i page -> i_createdById i = userId.
Proof.
  intros Hcred H Hdata i Hi.
  destruct (getIssues_page_inv _ _ _ _ _ _ _ _ _ _ Hcred H Hdata) as (total & _ & Hfind & _).
  apply (findMany_In _ _ _ _ _ _ i Hfind) in Hi as [_ Hholds].
  pose proof (where_holds_entry _ _ _ _ Hholds
                (getIssuesWhere_citizen_createdById Date_parse userId q)) as Hc.
  simpl in Hc. change (text_column "createdById" i) with (Some (i_createdById i)) in Hc.
  apply bool_decide_eq_true in Hc. congruence.
Qed.

Lemma getIssues_citizen_sees_own_witness :
  List.Forall (fun i => i_createdById i = "u1") [lamp].
Proof.
  apply List.Forall_forall.
  apply (getIssues_citizen_sees_own noDate asCitizen "u1" othersPotholes town
           (getIssues noDate asCitizen othersPotholes town).1
           (getIssues noDate asCitizen othersPotholes town).2
           [lamp] (mkPagination 1 20 1 (Some 1%Z))).
  - reflexivity.
  - apply surjective_pairing.
  - vm_compute. reflexivity.
Defined.

Lemma getIssues_supervisor_without_search_witness :
  List.Forall (supervisorVisible "s1") [bench; lamp].
Proof.
  apply List.Forall_forall.
  apply (getIssues_supervisor_without_search noDate asSupervisorA "s1" noFilter town
           (getIssues noDate asSupervisorA noFilter town).1
           (getIssues noDate asSupervisorA noFilter town).2
           [bench; lamp] (mkPagination 1 20 2 (Some 1%Z))).
  - reflexivity.
  - reflexivity.
  - apply surjective_pairing.
  - vm_compute. reflexivity.
Defined.

Global Instance emergencyFirst_total : Total (prisma.ordered emergencyFirst).
Proof.
  intros a b. unfold prisma.ordered, emergencyFirst.
  destruct (i_isEmergency a), (i_isEmergency b); simpl; auto;
    rewrite !Z.leb_le; lia.
Qed.

Global Instance emergencyFirst_transitive : Transitive (prisma.ordered emergencyFirst).
Proof.
  intros a b c. unfold prisma.ordered, emergencyFirst.
  destruct (i_isEmergency a), (i_isEmergency b), (i_isEmergency c); simpl;
    rewrite ?Z.leb_le; try discriminate; auto; lia.
Qed.

Lemma findMany_ok_inv (db : Db) (w : IssueWhere) (orderBy : Issue -> Issue -> bool)
    (skip : Z) (take : option Z) (page : list Issue) :
  prisma.issue.findMany db w orderBy skip take = Ok page ->
  page = prisma.issue.window skip take
           (prisma.issue.sort_by orderBy (List.filter (where_holds w) (issues db))).
Proof.
  unfold prisma.issue.findMany, mbind, exn_bind.
  destruct (prisma.check (where_valid w) _); [|discriminate].
  destruct (prisma.check (0 <=? skip)%Z _); [|discriminate].
  intros [= <-]. reflexivity.
Qed.

Lemma count_ok_inv (db : Db) (w : IssueWhere) (total : Z) :
  prisma.issue.count db w = Ok total ->
  total = Z.of_nat (length (List.filter (where_holds w) (issues db))).
Proof.
  unfold prisma.issue.count, mbind, exn_bind.
  destruct (prisma.check (where_valid w) _); [|discriminate].
  intros [= <-]. reflexivity.
Qed.

(** A run of consecutive rows of a sorted list is sorted. *)
Lemma window_sorted (R : relation Issue) (skip : Z) (take : option Z) (l : list Issue) :
  StronglySorted R l -> StronglySorted R (prisma.issue.window skip take l).
Proof.
  intros Hl. unfold prisma.issue.window.
  assert (Hdrop : forall n (m : list Issue), StronglySorted R m -> StronglySorted R (drop n m)).
  { intros n m Hm. rewrite <- (take_drop n m) in Hm. exact (StronglySorted_app_1_r _ _ _ Hm). }
  assert (Htake : forall n (m : list Issue), StronglySorted R m -> StronglySorted R (firstn n m)).
  { intros n m Hm. rewrite <- (take_drop n m) in Hm. exact (StronglySorted_app_1_l _ _ _ Hm). }
  destruct take as [n|]; [destruct (0 <=? n)%Z|]; auto.
  set (k := Z.to_nat skip). set (j := Z.to_nat (- n)).
  assert (Hseg : l = ((rev (drop j (drop k (rev l))) ++ rev (firstn j (drop k (rev l))))
                      ++ rev (firstn k (rev l)))%list).
  { rewrite <- !rev_app_distr.
    change (firstn j (drop k (rev l))) with (take j (drop k (rev l))).
    change (firstn k (rev l)) with (take k (rev l)).
    rewrite !take_drop, rev_involutive. reflexivity. }
  rewrite Hseg in Hl.
  exact (StronglySorted_app_1_r _ _ _ (StronglySorted_app_1_l _ _ _ Hl)).
Qed.

(** Every page of the listing is in order: emergencies before the other
    issues and, within each group, the newer issue before the older one. *)
Theorem getIssues_page_ordered (Date_parse : string -> JsDate) (user : option AuthUser)
    (userId : string) (userRole : UserRole) (q : FilterOptions) (db : Db)
    (r : Response) (db' : Db) (page : list Issue) (pagination : Pagination) :
  credentials user = Some (userId, userRole) ->
  getIssues Date_parse user q db = (r, db') ->
  data r = DataIssues page pagination ->
  StronglySorted (fun a b => emergencyFirst a b = true) page.
Proof.
  intros Hcred H Hdata.
  destruct (getIssues_page_inv _ _ _ _ _ _ _ _ _ _ Hcred H Hdata) as (total & _ & Hfind & _).
  rewrite (findMany_ok_inv _ _ _ _ _ _ Hfind).
  apply (window_sorted (prisma.ordered emergencyFirst)).
  unfold prisma.issue.sort_by. apply StronglySorted_merge_sort; apply _.
Qed.

Lemma getIssues_page_ordered_witness :
  StronglySorted (fun a b => emergencyFirst a b = true) [bench; lamp].
Proof.
  apply (getIssues_page_ordered noDate asSupervisorA "s1" SUPERVISOR noFilter town
           (getIssues noDate asSupervisorA noFilter town).1
           (getIssues noDate asSupervisorA noFilter town).2
           [bench; lamp] (mkPagination 1 20 2 (Some 1%Z))).
  - reflexivity.
  - apply surjective_pairing.
  - vm_compute. reflexivity.
Defined.

Lemma window_length (skip : Z) (take : option Z) (l : list Issue) :
  (length (prisma.issue.window skip take l) <= length l)%nat
  /\ (forall n, take = Some n -> (0 <= n)%Z ->
      (Z.of_nat (length (prisma.issue.window skip take l)) <= n)%Z).
Proof.
  unfold prisma.issue.window. split.
  - destruct take as [n|]; [destruct (0 <=? n)%Z|];
      rewrite ?length_rev, ?length_firstn, ?length_drop, ?length_rev; lia.
  - intros n -> Hn. rewrite (proj2 (Z.leb_le 0 n) Hn).
    pose proof (firstn_le_length (Z.to_nat n) (drop (Z.to_nat skip) l)). lia.
Qed.

(** The pagination block of a listing: [total] counts every issue the
    filters keep, the page holds no more than [total] issues and, for a
    page size that is not negative, no more than the page size; for a
    positive page size [pages] is the least number of pages that hold
    [total] issues. *)
Theorem getIssues_pagination (Date_parse : string -> JsDate) (user : option AuthUser)
    (userId : string) (userRole : UserRole) (q : FilterOptions) (db : Db)
    (r : Response) (db' : Db) (page : list Issue) (pagination : Pagination) :
  credentials user = Some (userId, userRole) ->
  getIssues Date_parse user q db = (r, db') ->
  data r = DataIssues page pagination ->
  pg_total pagination
  = Z.of_nat (length (List.filter
                        (where_holds (getIssuesWhere Date_parse userRole userId q))
                        (issues db)))
  /\ (Z.of_nat (length page) <= pg_total pagination)%Z
  /\ ((0 <= pg_limit pagination)%Z -> (Z.of_nat (length page) <= pg_limit pagination)%Z)
  /\ ((0 < pg_limit pagination)%Z ->
      exists pages,
        pg_pages pagination = Some pages
        /\ ((pages - 1) * pg_limit pagination < pg_total pagination
            <= pages * pg_limit pagination)%Z).
Proof.
  intros Hcred H Hdata.
  destruct (getIssues_page_inv _ _ _ _ _ _ _ _ _ _ Hcred H Hdata)
    as (total & Hcount & Hfind & -> & _).
  rewrite (count_ok_inv _ _ _ Hcount), (findMany_ok_inv _ _ _ _ _ _ Hfind).
  cbn [pg_total pg_limit pg_pages].
  set (matching := List.filter _ (issues db)).
  set (limit := default 20%Z (f_limit q)).
  destruct (window_length ((default 1%Z (f_page q) - 1) * limit)%Z (Some limit)
              (prisma.issue.sort_by emergencyFirst matching)) as [Hlen Hlim].
  assert (Hsort : length (prisma.issue.sort_by emergencyFirst matching) = length matching).
  { unfold prisma.issue.sort_by. apply Permutation_length, merge_sort_Permutation. }
  rewrite Hsort in Hlen.
  split; [reflexivity|]. split; [lia|]. split; [intros Hn; apply (Hlim limit eq_refl Hn)|].
  intros Hpos. unfold ceil_div.
  destruct (limit =? 0)%Z eqn:E; [apply Z.eqb_eq in E; lia|].
  eexists. split; [reflexivity|].
  pose proof (Z.div_mod (- Z.of_nat (length matching)) limit ltac:(lia)) as Hdm.
  pose proof (Z.mod_pos_bound (- Z.of_nat (length matching)) limit Hpos) as Hb.
  nia.
Qed.

Lemma getIssues_pagination_witness :
  pg_total (mkPagination 1 20 2 (Some 1%Z))
  = Z.of_nat (length (List.filter
                        (where_holds (getIssuesWhere noDate SUPERVISOR "s1" noFilter))
                        (issues town)))
  /\ (Z.of_nat (length [bench; lamp]) <= pg_total (mkPagination 1 20 2 (Some 1%Z)))%Z
  /\ ((0 <= pg_limit (mkPagination 1 20 2 (Some 1%Z)))%Z ->
      (Z.of_nat (length [bench; lamp]) <= pg_limit (mkPagination 1 20 2 (Some 1%Z)))%Z)
  /\ ((0 < pg_limit (mkPagination 1 20 2 (Some 1%Z)))%Z ->
      exists pages,
        pg_pages (mkPagination 1 20 2 (Some 1%Z)) = Some pages
        /\ ((pages - 1) * pg_limit (mkPagination 1 20 2 (Some 1%Z))
            < pg_total (mkPagination 1 20 2 (Some 1%Z))
            <= pages * pg_limit (mkPagination 1 20 2 (Some 1%Z)))%Z).
Proof.
  apply (getIssues_pagination noDate asSupervisorA "s1" SUPERVISOR noFilter town
           (getIssues noDate asSupervisorA noFilter town).1
           (getIssues noDate asSupervisorA noFilter town).2
           [bench; lamp] (mkPagination 1 20 2 (Some 1%Z))).
  - reflexivity.
  - apply surjective_pairing.
  - vm_compute. reflexivity.
Defined.


(** ** issue.controller.ts: createIssue, updateIssue, deleteIssue *)

Lemma find_In {A} (f : A -> bool) (l : list A) (x : A) :
  List.find f l = Some x -> In x l /\ f x = true.
Proof. apply find_some. Qed.

(** What a creation that replied 201 ran. *)
Lemma createIssue_created_inv (newId referenceNumber : string) (now : Z)
    (user : option AuthUser) (body : JsObject) (db : Db) (r : Response) (db' : Db) :
  createIssue newId referenceNumber now user body db = (r, db') ->
  status r = 201%Z ->
  exists u cid category issue,
    user = Some u
    /\ prisma.arg_string (body !! "categoryId") = Ok cid
    /\ prisma.category.findUnique db cid true = Some category
    /\ (truthy (body !! "subcategoryId") = true ->
        exists sid, prisma.arg_string (body !! "subcategoryId") = Ok sid
                    /\ is_Some (prisma.subcategory.findFirst db sid cid true))
    /\ prisma.issue.create db newId now
         (object [("title", body !! "title");
                  ("description", body !! "description");
                  ("address", body !! "address");
                  ("latitude", body !! "latitude");
                  ("longitude", body !! "longitude");
                  ("categoryId", body !! "categoryId");
                  ("subcategoryId", body !! "subcategoryId");
                  ("priority", if truthy (default_param (JBool false) (body !! "isEmergency"))
                               then Some (JStr "EMERGENCY")
                               else default_param (JStr "MEDIUM") (body !! "priority"));
                  ("isEmergency", default_param (JBool false) (body !! "isEmergency"));
                  ("referenceNumber", Some (JStr referenceNumber));
                  ("createdById", Some (JStr (au_id u)))]) = Ok (issue, db')
    /\ r = reply 201 "Issue created successfully" (DataIssue issue).
Proof.
  intros H S. unfold createIssue, catch in H.
  destruct user as [u|]; [|reply_mismatch].
  destruct (truthy_string (au_id u)); [|reply_mismatch].
  cbv zeta in H. unfold mbind, exn_bind in H.
  destruct (prisma.arg_string (body !! "categoryId")) as [cid|]; [|reply_mismatch].
  destruct (prisma.category.findUnique db cid true) as [category|] eqn:Hcat; [|reply_mismatch].
  destruct (truthy (body !! "subcategoryId")) eqn:Hsub.
  - destruct (prisma.arg_string (body !! "subcategoryId")) as [sid|] eqn:Hsid;
      [|reply_mismatch].
    destruct (bool_decide (is_Some (prisma.subcategory.findFirst db sid cid true))) eqn:Hfound;
      cbn [negb] in H; [|reply_mismatch].
    destruct (prisma.issue.create db newId now _) as [[issue d]|] eqn:Hcreate;
      [|reply_mismatch].
    injection H as <- <-. exists u, cid, category, issue.
    repeat split; try reflexivity; try assumption.
    intros _. exists sid. split; [reflexivity|]. apply bool_decide_eq_true in Hfound. exact Hfound.
  - cbn [negb] in H.
    destruct (prisma.issue.create db newId now _) as [[issue d]|] eqn:Hcreate;
      [|reply_mismatch].
    injection H as <- <-. exists u, cid, category, issue.
    repeat split; try reflexivity; try assumption. discriminate.
Qed.

(** The row [create] stores when it succeeds. *)
Lemma create_inv (db : Db) (id : string) (now : Z) (data : JsObject) (i : Issue) (db' : Db) :
  prisma.issue.create db id now data = Ok (i, db') ->
  prisma.issue.row id now None data = Ok i
  /\ prisma.issue.references_ok db (fun _ => true) i = true
  /\ db' = set_issues (issues db ++ [i]) db.
Proof.
  unfold prisma.issue.create, mbind, exn_bind. intros H.
  destruct (prisma.check (bool_decide _) _); [|discriminate H].
  destruct (prisma.issue.row id now None data) as [j|]; [|discriminate H].
  destruct (prisma.issue.references_ok db _ j) eqn:Href; [|discriminate H].
  cbn [prisma.check] in H.
  destruct (prisma.check (negb _) _); [|discriminate H].
  injection H as <- <-. auto.
Qed.

Lemma row_inv (id : string) (createdAt : Z) (old : option Issue) (data : JsObject) (i : Issue) :
  prisma.issue.row id createdAt old data = Ok i ->
  i_id i = id /\ i_createdAt i = createdAt
  /\ prisma.col_enum parse_status (default PENDING (i_status <$> old)) (data !! "status")
     = Ok (i_status i)
  /\ prisma.col_string (i_referenceNumber <$> old) (data !! "referenceNumber")
     = Ok (i_referenceNumber i)
  /\ prisma.col_nullable_date (old ≫= i_completedAt) (data !! "completedAt")
     = Ok (i_completedAt i)
  /\ prisma.col_string (i_categoryId <$> old) (data !! "categoryId") = Ok (i_categoryId i)
  /\ prisma.col_nullable_string (old ≫= i_subcategoryId) (data !! "subcategoryId")
     = Ok (i_subcategoryId i)
  /\ prisma.col_string (i_createdById <$> old) (data !! "createdById") = Ok (i_createdById i)
  /\ prisma.col_nullable_string (old ≫= i_assignedToId) (data !! "assignedToId")
     = Ok (i_assignedToId i).
Proof.
  unfold prisma.issue.row. unfold mbind, exn_bind. intros H.
  repeat (next_call H; [|discriminate H]).
  injection H as <-. simpl. repeat split; assumption.
Qed.

(** The fields of a new issue that the handler decides: the creator is the
    requester, the reference number is the generated one, the status is
    PENDING and nobody is assigned, whatever the body says under
    [createdById], [referenceNumber], [status], [assignedToId] or
    [completedAt]; the issue is appended and no other table changes. *)
Theorem createIssue_server_fields (newId referenceNumber : string) (now : Z)
    (user : option AuthUser) (body : JsObject) (db : Db) (r : Response) (db' : Db) :
  createIssue newId referenceNumber now user body db = (r, db') ->
  status r = 201%Z ->
  exists u issue,
    user = Some u
    /\ data r = DataIssue issue
    /\ db' = set_issues (issues db ++ [issue]) db
    /\ i_id issue = newId
    /\ i_createdById issue = au_id u
    /\ i_referenceNumber issue = referenceNumber
    /\ i_status issue = PENDING
    /\ i_assignedToId issue = None
    /\ i_completedAt issue = None
    /\ i_createdAt issue = now.
Proof.
  intros H S.
  destruct (createIssue_created_inv _ _ _ _ _ _ _ _ H S)
    as (u & cid & category & issue & -> & _ & _ & _ & Hcreate & ->).
  apply create_inv in Hcreate as (Hrow & _ & ->).
  apply row_inv in Hrow as (Hid & Hat & Hst & Href & Hdone & _ & _ & Hby & Hto).
  rewrite !object_lookup in Hst, Href, Hdone, Hby, Hto by reflexivity.
  simpl property in Hst, Href, Hdone, Hby, Hto. simpl in Hst, Href, Hdone, Hby, Hto.
  exists u, issue. repeat split; congruence.
Qed.

Lemma createIssue_server_fields_witness :
  exists u issue,
    asCitizen = Some u
    /\ data (createIssue "i4" "GLY-2024-004" 40 asCitizen report town).1 = DataIssue issue
    /\ (createIssue "i4" "GLY-2024-004" 40 asCitizen report town).2
       = set_issues (issues town ++ [issue]) town
    /\ i_id issue = "i4"
    /\ i_createdById issue = au_id u
    /\ i_referenceNumber issue = "GLY-2024-004"
    /\ i_status issue = PENDING
    /\ i_assignedToId issue = None
    /\ i_completedAt issue = None
    /\ i_createdAt issue = 40%Z.
Proof.
  apply (createIssue_server_fields "i4" "GLY-2024-004" 40 asCitizen report town).
  - apply surjective_pairing.
  - vm_compute. reflexivity.
Defined.

(** A new issue is filed under an active category, and a subcategory
    named with it is an active subcategory of that category. *)
Theorem createIssue_under_active_category (newId referenceNumber : string) (now : Z)
    (user : option AuthUser) (body : JsObject) (db : Db) (r : Response) (db' : Db) :
  createIssue newId referenceNumber now user body db = (r, db') ->
  status r = 201%Z ->
  exists issue,
    data r = DataIssue issue
    /\ (exists c, In c (categories db) /\ c_id c = i_categoryId issue /\ c_isActive c = true)
    /\ (forall sid, i_subcategoryId issue = Some sid -> sid <> "" ->
        exists s, In s (subcategories db) /\ s_id s = sid
                  /\ s_categoryId s = i_categoryId issue /\ s_isActive s = true).
Proof.
  intros H S.
  destruct (createIssue_created_inv _ _ _ _ _ _ _ _ H S)
    as (u & cid & category & issue & -> & Hcid & Hcat & Hsub & Hcreate & ->).
  apply create_inv in Hcreate as (Hrow & _ & _).
  apply row_inv in Hrow as (_ & _ & _ & _ & _ & E9 & E10 & _ & _).
  rewrite !object_lookup in E9, E10 by reflexivity. simpl property in E9, E10.
  exists issue. split; [reflexivity|].
  assert (Hc : i_categoryId issue = cid).
  { destruct (body !! "categoryId") as [[]|]; simpl in Hcid, E9;
      try discriminate Hcid; congruence. }
  rewrite Hc. split.
  - apply find_In in Hcat as [Hin Hcat]. exists category. split; [exact Hin|].
    apply andb_true_iff in Hcat as [Hid Hact].
    apply bool_decide_eq_true in Hid. apply bool_decide_eq_true in Hact. auto.
  - intros sid Hsome Hne. rewrite Hsome in E10.
    assert (Ht : truthy (body !! "subcategoryId") = true).
    { destruct (body !! "subcategoryId") as [[]|]; simpl in E10 |- *; try discriminate.
      injection E10 as ->. unfold truthy_string. destruct sid; [contradiction|reflexivity]. }
    destruct (Hsub Ht) as (sid' & Hsid & [s Hs]).
    assert (sid' = sid).
    { destruct (body !! "subcategoryId") as [[]|]; simpl in Hsid, E10;
        try discriminate Hsid; congruence. }
    subst sid'. apply find_In in Hs as [Hin Hs]. exists s. split; [exact Hin|].
    apply andb_true_iff in Hs as [Hs Hact]. apply andb_true_iff in Hs as [Hid Hcat'].
    apply bool_decide_eq_true in Hid. apply bool_decide_eq_true in Hact.
    apply bool_decide_eq_true in Hcat'. auto.
Qed.

Lemma createIssue_under_active_category_witness :
  exists issue,
    data (createIssue "i4" "GLY-2024-004" 40 asCitizen report town).1 = DataIssue issue
    /\ (exists c, In c (categories town) /\ c_id c = i_categoryId issue /\ c_isActive c = true)
    /\ (forall sid, i_subcategoryId issue = Some sid -> sid <> "" ->
        exists s, In s (subcategories town) /\ s_id s = sid
                  /\ s_categoryId s = i_categoryId issue /\ s_isActive s = true).
Proof.
  apply (createIssue_under_active_category "i4" "GLY-2024-004" 40 asCitizen report town
           (createIssue "i4" "GLY-2024-004" 40 asCitizen report town).1
           (createIssue "i4" "GLY-2024-004" 40 asCitizen report town).2).
  - apply surjective_pairing.
  - vm_compute. reflexivity.
Defined.

Lemma createIssue_emergency_witness :
  exists issue,
    data (createIssue "i4" "GLY-2024-004" 40 asCitizen report town).1 = DataIssue issue
    /\ issues (createIssue "i4" "GLY-2024-004" 40 asCitizen report town).2
       = (issues town ++ [issue])%list
    /\ i_isEmergency issue = true
    /\ i_priority issue = EMERGENCY.
Proof.
  apply (createIssue_emergency "i4" "GLY-2024-004" 40 asCitizen report town).
  - apply surjective_pairing.
  - vm_compute. reflexivity.
  - vm_compute. reflexivity.
Defined.

Lemma find_id_unique (l : list Issue) (id : string) (old j : Issue) :
  NoDup (map i_id l) ->
  List.find (fun i => bool_decide (i_id i = id)) l = Some old ->
  In j l -> i_id j = id -> j = old.
Proof.
  induction l as [|a l IH]; simpl; intros Hnd Hfind Hin Hid; [contradiction|].
  apply NoDup_cons in Hnd as [Hnotin Hnd].
  destruct (decide (i_id a = id)) as [Ha|Ha].
  - rewrite bool_decide_eq_true_2 in Hfind by exact Ha. injection Hfind as <-.
    destruct Hin as [->|Hin]; [reflexivity|].
    exfalso. apply Hnotin. rewrite Ha, <- Hid. apply list_elem_of_In, in_map, Hin.
  - rewrite bool_decide_eq_false_2 in Hfind by exact Ha.
    destruct Hin as [->|Hin]; [contradiction|]. apply IH; assumption.
Qed.

Lemma stampCompleted_lookup_ne (now : Z) (currentIssue : Issue) (data : JsObject) (k : string) :
  k <> "completedAt" -> stampCompleted now currentIssue data !! k = data !! k.
Proof.
  intros Hk. unfold stampCompleted.
  destruct (_ && _); [rewrite lookup_insert_ne by congruence|]; reflexivity.
Qed.

Lemma not_staff_field_dropped (userRole : UserRole) (userId : string) (currentIssue : Issue)
    (body : JsObject) (k : string) :
  bool_decide (k ∈ staffFields) = false ->
  filterFields (updatePermission userRole userId currentIssue).2 body !! k = None.
Proof.
  intros Hs.
  assert (Hu : bool_decide (k ∈ userFields) = false).
  { apply bool_decide_eq_false. apply bool_decide_eq_false in Hs. intros Hin. apply Hs.
    apply list_elem_of_In in Hin. apply list_elem_of_In. simpl in Hin |- *. tauto. }
  rewrite filterFields_lookup. unfold updatePermission.
  destruct (_ && _); cbn [snd]; [rewrite Hu; reflexivity|].
  destruct (_ || _); cbn [snd]; [rewrite Hs|]; reflexivity.
Qed.

(** A citizen's update of an issue somebody else created is refused. *)
Lemma updateIssue_foreign_refused (now : Z) (user : option AuthUser)
    (userId id : string) (body : JsObject) (db : Db) (issue : Issue) :
  credentials user = Some (userId, USER) ->
  prisma.issue.findUnique db id = Some issue ->
  i_createdById issue <> userId ->
  updateIssue now user id body db = (failure 403 "Access denied", db).
Proof.
  intros Hcred Hfind Hother. unfold updateIssue. rewrite Hcred, Hfind.
  unfold updatePermission.
  rewrite (bool_decide_eq_false_2 (i_createdById issue = userId)) by exact Hother.
  reflexivity.
Qed.

(** What an update cannot do.  In a store whose issue ids are distinct,
    whatever the body holds and whoever asks: a citizen's update of an
    issue somebody else created changes nothing; the five other tables are
    left alone, every issue other than [id] is left alone, and the issue
    [id] keeps its id, its reference number, its creator and its creation
    time. *)
Theorem updateIssue_frame (now : Z) (user : option AuthUser) (id : string) (body : JsObject)
    (db : Db) (r : Response) (db' : Db) :
  NoDup (map i_id (issues db)) ->
  updateIssue now user id body db = (r, db') ->
  (forall userId issue,
      credentials user = Some (userId, USER) ->
      prisma.issue.findUnique db id = Some issue ->
      i_createdById issue <> userId -> db' = db)
  /\ users db' = users db /\ categories db' = categories db
  /\ subcategories db' = subcategories db
  /\ photos db' = photos db /\ comments db' = comments db
  /\ Forall2 (fun old new =>
                i_id new = i_id old
                /\ i_referenceNumber new = i_referenceNumber old
                /\ i_createdById new = i_createdById old
                /\ i_createdAt new = i_createdAt old
                /\ (i_id old <> id -> new = old))
             (issues db) (issues db').
Proof.
  intros Hnd H. split.
  { intros userId issue Hcred Hfind Hother.
    rewrite (updateIssue_foreign_refused now user userId id body db issue Hcred Hfind Hother)
      in H.
    injection H as _ <-. reflexivity. }
  assert (Hsame : Forall2 (fun old new =>
                             i_id new = i_id old
                             /\ i_referenceNumber new = i_referenceNumber old
                             /\ i_createdById new = i_createdById old
                             /\ i_createdAt new = i_createdAt old
                             /\ (i_id old <> id -> new = old))
                          (issues db) (issues db)).
  { clear. induction (issues db); constructor; try assumption. repeat split; reflexivity. }
  unfold updateIssue, catch in H.
  destruct (credentials user) as [[userId userRole]|];
    [|injection H as <- <-; repeat split; auto].
  destruct (prisma.issue.findUnique db id) as [currentIssue|] eqn:Hfind;
    [|injection H as <- <-; repeat split; auto].
  destruct (updatePermission userRole userId currentIssue) as [canUpdate allowedFields] eqn:Hp.
  destruct canUpdate; cbn [negb] in H; [|injection H as <- <-; repeat split; auto].
  unfold mbind, exn_bind in H.
  destruct (prisma.issue.update db id _) as [[updatedIssue d]|] eqn:Hupd;
    [|injection H as <- <-; repeat split; auto].
  injection H as <- <-.
  apply update_inv in Hupd as (old & Hold & Hrow & ->).
  assert (old = currentIssue) by congruence. subst old.
  apply row_inv in Hrow as (Hid & Hat & _ & Href & _ & _ & _ & Hby & _).
  assert (Hallowed : allowedFields = (updatePermission userRole userId currentIssue).2)
    by (rewrite Hp; reflexivity).
  rewrite stampCompleted_lookup_ne, Hallowed, not_staff_field_dropped in Href, Hby
    by (reflexivity || discriminate).
  simpl in Href, Hby. injection Href as Href. injection Hby as Hby.
  repeat split; try reflexivity.
  simpl. clear Hsame. unfold prisma.issue.findUnique in Hfind.
  assert (Hall : forall j, In j (issues db) -> i_id j = id -> j = currentIssue).
  { intros j Hin Hj. exact (find_id_unique _ _ _ _ Hnd Hfind Hin Hj). }
  clear Hnd Hfind. induction (issues db) as [|j l IH]; simpl; constructor.
  - destruct (decide (i_id j = id)) as [Hj|Hj].
    + pose proof (Hall j (or_introl eq_refl) Hj) as Heq. subst j.
      repeat split; congruence.
    + repeat split; reflexivity.
  - apply IH. intros j' Hin. apply Hall. right. exact Hin.
Qed.

Lemma updateIssue_frame_witness :
  (forall userId issue,
      credentials asSupervisorA = Some (userId, USER) ->
      prisma.issue.findUnique town "i2" = Some issue ->
      i_createdById issue <> userId ->
      (updateIssue 70 asSupervisorA "i2" flagEmergency town).2 = town)
  /\ users (updateIssue 70 asSupervisorA "i2" flagEmergency town).2 = users town
  /\ categories (updateIssue 70 asSupervisorA "i2" flagEmergency town).2 = categories town
  /\ subcategories (updateIssue 70 asSupervisorA "i2" flagEmergency town).2
     = subcategories town
  /\ photos (updateIssue 70 asSupervisorA "i2" flagEmergency town).2 = photos town
  /\ comments (updateIssue 70 asSupervisorA "i2" flagEmergency town).2 = comments town
  /\ Forall2 (fun old new =>
                i_id new = i_id old
                /\ i_referenceNumber new = i_referenceNumber old
                /\ i_createdById new = i_createdById old
                /\ i_createdAt new = i_createdAt old
                /\ (i_id old <> "i2" -> new = old))
             (issues town) (issues (updateIssue 70 asSupervisorA "i2" flagEmergency town).2).
Proof.
  apply (updateIssue_frame 70 asSupervisorA "i2" flagEmergency town
           (updateIssue 70 asSupervisorA "i2" flagEmergency town).1).
  - apply (bool_decide_unpack (NoDup (map i_id (issues town)))). vm_compute. exact I.
  - apply surjective_pairing.
Defined.

Lemma removed_In {A} (key : A -> string) (id : string) (l : list A) (x : A) :
  In x (List.filter (fun a => negb (bool_decide (key a = id))) l) <-> In x l /\ key x <> id.
Proof.
  rewrite filter_In, negb_true_iff, bool_decide_eq_false. reflexivity.
Qed.

(** A deletion that replied 200 was asked by an administrator or by the
    citizen who created the issue; it removes the issue together with its
    photos and its comments, and nothing else: the other issues, photos
    and comments stay, and users and categories are left alone. *)
Theorem deleteIssue_cascade (user : option AuthUser) (id : string) (db : Db)
    (r : Response) (db' : Db) :
  deleteIssue user id db = (r, db') ->
  status r = 200%Z ->
  (exists userId userRole issue,
      credentials user = Some (userId, userRole)
      /\ prisma.issue.findUnique db id = Some issue
      /\ (userRole = ADMIN \/ (userRole = USER /\ i_createdById issue = userId)))
  /\ prisma.issue.findUnique db' id = None
  /\ (forall i, In i (issues db') <-> In i (issues db) /\ i_id i <> id)
  /\ (forall p, In p (photos db') <-> In p (photos db) /\ p_issueId p <> id)
  /\ (forall c, In c (comments db') <-> In c (comments db) /\ cm_issueId c <> id)
  /\ users db' = users db /\ categories db' = categories db
  /\ subcategories db' = subcategories db.
Proof.
  intros H S. unfold deleteIssue, catch in H.
  destruct (credentials user) as [[userId userRole]|]; [|reply_mismatch].
  destruct (prisma.issue.findUnique db id) as [issue|] eqn:Hfind; [|reply_mismatch].
  destruct (bool_decide (userRole = ADMIN)
            || bool_decide (userRole = USER) && bool_decide (i_createdById issue = userId))
    eqn:Hcan; cbn [negb] in H; [|reply_mismatch].
  unfold mbind, exn_bind, client.issue.delete in H. rewrite Hfind in H.
  rewrite bool_decide_eq_true_2 in H by (eexists; reflexivity).
  injection H as <- <-. cbn [issues photos comments users categories subcategories].
  split.
  { exists userId, userRole, issue. split; [reflexivity|]. split; [reflexivity|].
    apply orb_true_iff in Hcan as [Ha|Hu].
    - left. apply bool_decide_eq_true in Ha. exact Ha.
    - right. apply andb_true_iff in Hu as [Hu Hc].
      apply bool_decide_eq_true in Hu. apply bool_decide_eq_true in Hc. auto. }
  split.
  { unfold prisma.issue.findUnique. cbn [issues].
    destruct (List.find _ (List.filter _ (issues db))) as [j|] eqn:Hj; [|reflexivity].
    apply find_some in Hj as [Hin Hid]. apply filter_In in Hin as [_ Hne].
    rewrite Hid in Hne. discriminate Hne. }
  split; [intros i; apply (removed_In i_id)|].
  split; [intros p; apply (removed_In p_issueId)|].
  split; [intros c; apply (removed_In cm_issueId)|].
  auto.
Qed.

Lemma deleteIssue_cascade_witness :
  (exists userId userRole issue,
      credentials asAdministrator = Some (userId, userRole)
      /\ prisma.issue.findUnique townWithPhoto "i1" = Some issue
      /\ (userRole = ADMIN \/ (userRole = USER /\ i_createdById issue = userId)))
  /\ prisma.issue.findUnique (deleteIssue asAdministrator "i1" townWithPhoto).2 "i1" = None
  /\ (forall i, In i (issues (deleteIssue asAdministrator "i1" townWithPhoto).2)
                <-> In i (issues townWithPhoto) /\ i_id i <> "i1")
  /\ (forall p, In p (photos (deleteIssue asAdministrator "i1" townWithPhoto).2)
                <-> In p (photos townWithPhoto) /\ p_issueId p <> "i1")
  /\ (forall c, In c (comments (deleteIssue asAdministrator "i1" townWithPhoto).2)
                <-> In c (comments townWithPhoto) /\ cm_issueId c <> "i1")
  /\ users (deleteIssue asAdministrator "i1" townWithPhoto).2 = users townWithPhoto
  /\ categories (deleteIssue asAdministrator "i1" townWithPhoto).2 = categories townWithPhoto
  /\ subcategories (deleteIssue asAdministrator "i1" townWithPhoto).2
     = subcategories townWithPhoto.
Proof.
  apply (deleteIssue_cascade asAdministrator "i1" townWithPhoto
           (deleteIssue asAdministrator "i1" townWithPhoto).1).
  - apply surjective_pairing.
  - vm_compute. reflexivity.
Defined.


(** ** auth.controller.ts and middleware/auth.ts *)

Lemma arg_string_inv (v : option JsVal) (s : string) :
  prisma.arg_string v = Ok s -> v = Some (JStr s).
Proof.
  destruct v as [[]|]; simpl; intros H; try discriminate H. injection H as ->. reflexivity.
Qed.

Lemma login_accepts (comparePassword : string -> string -> bool)
    (generateToken : string -> string -> UserRole -> string) (body : JsObject) (db : Db)
    (email password : string) (user : User) :
  body !! "email" = Some (JStr email) ->
  body !! "password" = Some (JStr password) ->
  client.user.findUnique db email = Some user ->
  u_isActive user = true ->
  comparePassword password (u_password user) = true ->
  login comparePassword generateToken body db
  = reply 200 "Login successful"
      (DataUser (withoutPassword user) (generateToken (u_id user) (u_email user) (u_role user))).
Proof.
  intros Hemail Hpassword Hfind Hactive Hcompare.
  unfold login, catch, mbind, exn_bind. rewrite Hemail. cbn [prisma.arg_string].
  rewrite Hfind, Hactive, Hpassword. cbn [negb prisma.arg_string].
  rewrite Hcompare. reflexivity.
Qed.

(** Who can log in.  The reply is the 200 one exactly when the body names
    the email of a stored account that is active together with a password
    that [comparePassword] accepts against the stored hash; the reply then
    carries that account without its password and a token for its id,
    email and role. *)
Theorem login_succeeds_iff (comparePassword : string -> string -> bool)
    (generateToken : string -> string -> UserRole -> string) (body : JsObject) (db : Db) :
  (status (login comparePassword generateToken body db) = 200%Z ->
   exists email password user,
     body !! "email" = Some (JStr email)
     /\ body !! "password" = Some (JStr password)
     /\ client.user.findUnique db email = Some user
     /\ u_isActive user = true
     /\ comparePassword password (u_password user) = true)
  /\ (forall email password user,
        body !! "email" = Some (JStr email) ->
        body !! "password" = Some (JStr password) ->
        client.user.findUnique db email = Some user ->
        u_isActive user = true ->
        comparePassword password (u_password user) = true ->
        login comparePassword generateToken body db
        = reply 200 "Login successful"
            (DataUser (withoutPassword user)
               (generateToken (u_id user) (u_email user) (u_role user)))).
Proof.
  split.
  - unfold login, catch, mbind, exn_bind.
    destruct (prisma.arg_string (body !! "email")) as [email|] eqn:Hemail;
      [|discriminate].
    destruct (client.user.findUnique db email) as [user|] eqn:Hfind; [|discriminate].
    destruct (u_isActive user) eqn:Hactive; cbn [negb]; [|discriminate].
    destruct (prisma.arg_string (body !! "password")) as [password|] eqn:Hpassword;
      [|discriminate].
    destruct (comparePassword password (u_password user)) eqn:Hcompare; cbn [negb];
      [|discriminate].
    intros _. exists email, password, user.
    apply arg_string_inv in Hemail. apply arg_string_inv in Hpassword. auto.
  - intros email password user. apply login_accepts.
Qed.

(** What a registration that replied 201 ran. *)
Lemma register_created_inv (hashPassword : string -> string)
    (generateToken : string -> string -> UserRole -> string)
    (newId : string) (now : Z) (body : JsObject) (db : Db) (r : Response) (db' : Db) :
  register hashPassword generateToken newId now body db = (r, db') ->
  status r = 201%Z ->
  exists email username password firstName lastName phone,
    body !! "email" = Some (JStr email)
    /\ body !! "username" = Some (JStr username)
    /\ body !! "password" = Some (JStr password)
    /\ prisma.user.findFirst db email username = None
    /\ db' = set_users (users db ++ [mkUser newId email username (hashPassword password)
                                      firstName lastName phone USER true now]) db
    /\ r = reply 201 "Registration successful"
             (DataUser (withoutPassword (mkUser newId email username (hashPassword password)
                                           firstName lastName phone USER true now))
                (generateToken newId email USER)).
Proof.
  intros H S. unfold register, catch in H. cbv zeta in H. unfold mbind, exn_bind in H.
  destruct (prisma.arg_string (body !! "email")) as [email|] eqn:Eemail; [|reply_mismatch].
  destruct (prisma.arg_string (body !! "username")) as [username|] eqn:Eusername;
    [|reply_mismatch].
  destruct (prisma.user.findFirst db email username) eqn:Hfirst; [reply_mismatch|].
  destruct (prisma.arg_string (body !! "password")) as [password|] eqn:Epassword;
    [|reply_mismatch].
  apply arg_string_inv in Eemail. apply arg_string_inv in Eusername.
  apply arg_string_inv in Epassword.
  unfold prisma.user.create in H.
  rewrite !object_lookup in H by reflexivity. simpl property in H.
  rewrite Eemail, Eusername in H. unfold mbind, exn_bind in H. simpl in H.
  repeat (next_call H; [|reply_mismatch]).
  injection H as <- <-. do 6 eexists. repeat split; try eassumption; reflexivity.
Qed.




Lemma register_failed_unchanged (hashPassword : string -> string)
    (generateToken : string -> string -> UserRole -> string)
    (newId : string) (now : Z) (body : JsObject) (db : Db) (r : Response) (db' : Db) :
  register hashPassword generateToken newId now body db = (r, db') ->
  status r <> 201%Z -> db' = db.
Proof.
  intros H S. unfold register, catch in H. cbv zeta in H. unfold mbind, exn_bind in H.
  destruct (prisma.arg_string (body !! "email")) as [email|];
    [|injection H as <- <-; reflexivity].
  destruct (prisma.arg_string (body !! "username")) as [username|];
    [|injection H as <- <-; reflexivity].
  destruct (prisma.user.findFirst db email username); [injection H as <- <-; reflexivity|].
  destruct (prisma.arg_string (body !! "password")) as [password|];
    [|injection H as <- <-; reflexivity].
  destruct (prisma.user.create db newId now _) as [[u d]|];
    [|injection H as <- <-; reflexivity].
  injection H as <- <-. simpl in S. contradiction.
Qed.

Lemma findFirst_none (db : Db) (email username : string) (v : User) :
  prisma.user.findFirst db email username = None ->
  In v (users db) -> u_email v <> email /\ u_username v <> username.
Proof.
  intros Hnone Hin. apply (find_none _ _ Hnone) in Hin.
  apply orb_false_iff in Hin as [He Hu].
  apply bool_decide_eq_false in He. apply bool_decide_eq_false in Hu. auto.
Qed.

Lemma NoDup_snoc_key {A} (key : A -> string) (l : list A) (x : A) :
  NoDup (map key l) -> (forall v, In v l -> key v <> key x) -> NoDup (map key (l ++ [x])).
Proof.
  intros Hnd Hnew. rewrite map_app. apply NoDup_app. split; [exact Hnd|]. split.
  - intros k Hk Hx. simpl in Hx. apply list_elem_of_In in Hk, Hx.
    destruct Hx as [<-|[]]. apply in_map_iff in Hk as (v & Hv & Hin).
    exact (Hnew v Hin Hv).
  - simpl. apply NoDup_singleton.
Qed.

(** Registration keeps accounts apart: in a store where no two accounts
    share an email or a username, that is still so after any registration,
    accepted or not. *)
Theorem register_keeps_accounts_distinct (hashPassword : string -> string)
    (generateToken : string -> string -> UserRole -> string)
    (newId : string) (now : Z) (body : JsObject) (db : Db) (r : Response) (db' : Db) :
  NoDup (map u_email (users db)) ->
  NoDup (map u_username (users db)) ->
  register hashPassword generateToken newId now body db = (r, db') ->
  NoDup (map u_email (users db')) /\ NoDup (map u_username (users db')).
Proof.
  intros Hemails Husernames H.
  destruct (decide (status r = 201%Z)) as [S|S].
  - destruct (register_created_inv _ _ _ _ _ _ _ _ H S)
      as (email & username & password & firstName & lastName & phone
          & _ & _ & _ & Hfirst & -> & _).
    cbn [users set_users]. split.
    + apply NoDup_snoc_key; [exact Hemails|]. intros v Hin.
      exact (proj1 (findFirst_none _ _ _ _ Hfirst Hin)).
    + apply NoDup_snoc_key; [exact Husernames|]. intros v Hin.
      exact (proj2 (findFirst_none _ _ _ _ Hfirst Hin)).
  - rewrite (register_failed_unchanged _ _ _ _ _ _ _ _ H S). auto.
Qed.

Lemma register_keeps_accounts_distinct_witness :
  NoDup (map u_email (users (register saltedHash plainToken "u9" 50 registration town).2))
  /\ NoDup (map u_username
              (users (register saltedHash plainToken "u9" 50 registration town).2)).
Proof.
  apply (register_keeps_accounts_distinct saltedHash plainToken "u9" 50 registration town
           (register saltedHash plainToken "u9" 50 registration town).1).
  - apply (bool_decide_unpack (NoDup (map u_email (users town)))). vm_compute. exact I.
  - apply (bool_decide_unpack (NoDup (map u_username (users town)))). vm_compute. exact I.
  - apply surjective_pairing.
Defined.

Lemma find_key_unique {A} (key : A -> string) (l : list A) (id : string) (old a : A) :
  NoDup (map key l) ->
  List.find (fun x => bool_decide (key x = id)) l = Some old ->
  In a l -> key a = id -> a = old.
Proof.
  induction l as [|b l IH]; simpl; intros Hnd Hfind Hin Hid; [contradiction|].
  apply NoDup_cons in Hnd as [Hnotin Hnd].
  destruct (decide (key b = id)) as [Hb|Hb].
  - rewrite bool_decide_eq_true_2 in Hfind by exact Hb. injection Hfind as <-.
    destruct Hin as [->|Hin]; [reflexivity|].
    exfalso. apply Hnotin. rewrite Hb, <- Hid. apply list_elem_of_In, in_map, Hin.
  - rewrite bool_decide_eq_false_2 in Hfind by exact Hb.
    destruct Hin as [->|Hin]; [contradiction|]. apply IH; assumption.
Qed.

(** Writing one row by its key, rows having distinct keys: a relation that
    holds between the old and the new row, and between a row and itself,
    holds row by row. *)
Lemma replaced_Forall2 {A} (key : A -> string) (R : A -> A -> Prop) (id : string)
    (old new : A) (l : list A) :
  NoDup (map key l) ->
  List.find (fun x => bool_decide (key x = id)) l = Some old ->
  (forall a, key a <> id -> R a a) -> R old new ->
  Forall2 R l (map (fun a => if decide (key a = id) then new else a) l).
Proof.
  intros Hnd Hfind Hrefl Hnew.
  assert (Hall : forall a, In a l -> key a = id -> a = old).
  { intros a. apply find_key_unique; assumption. }
  clear Hnd Hfind. induction l as [|a l IH]; simpl; constructor.
  - destruct (decide (key a = id)) as [Ha|Ha].
    + rewrite (Hall a (or_introl eq_refl) Ha). exact Hnew.
    + apply Hrefl, Ha.
  - apply IH. intros b Hin. apply Hall. right. exact Hin.
Qed.

Lemma client_user_update_inv (db : Db) (id : string) (data : JsObject) (u : User) (db' : Db) :
  client.user.update db id data = Ok (u, db') ->
  exists old,
    prisma.user.findUnique db id = Some old
    /\ u_id u = id /\ u_createdAt u = u_createdAt old
    /\ prisma.col_string (Some (u_email old)) (data !! "email") = Ok (u_email u)
    /\ prisma.col_string (Some (u_username old)) (data !! "username") = Ok (u_username u)
    /\ prisma.col_string (Some (u_password old)) (data !! "password") = Ok (u_password u)
    /\ prisma.col_string (Some (u_firstName old)) (data !! "firstName") = Ok (u_firstName u)
    /\ prisma.col_string (Some (u_lastName old)) (data !! "lastName") = Ok (u_lastName u)
    /\ prisma.col_nullable_string (u_phone old) (data !! "phone") = Ok (u_phone u)
    /\ prisma.col_enum parse_role (u_role old) (data !! "role") = Ok (u_role u)
    /\ prisma.col_bool (u_isActive old) (data !! "isActive") = Ok (u_isActive u)
    /\ db' = set_users (map (fun v => if decide (u_id v = id) then u else v) (users db)) db.
Proof.
  unfold client.user.update, mbind, exn_bind. intros H.
  destruct (prisma.check (bool_decide _) _); [|discriminate H].
  destruct (prisma.user.findUnique db id) as [old|]; [|discriminate H].
  repeat (next_call H; [|discriminate H]).
  injection H as <- <-. exists old. simpl. repeat split; assumption.
Qed.

(** A profile update touches the requester's names and phone, nothing
    else.  In a store whose user ids are distinct, whatever the body
    holds: no account changes its id, email, username, password hash, role
    or active flag, every account but the requester's is left as it was,
    and so are the other tables. *)
Theorem updateProfile_frame (user : option AuthUser) (body : JsObject) (db : Db)
    (r : Reply UserView) (db' : Db) :
  NoDup (map u_id (users db)) ->
  updateProfile user body db = (r, db') ->
  Forall2 (fun old new =>
             accountKept old new /\ u_role new = u_role old
             /\ u_isActive new = u_isActive old
             /\ (Some (u_id old) <> au_id <$> user -> new = old))
          (users db) (users db')
  /\ categories db' = categories db /\ subcategories db' = subcategories db
  /\ issues db' = issues db /\ photos db' = photos db /\ comments db' = comments db.
Proof.
  intros Hnd H.
  assert (Hsame : Forall2 (fun old new =>
                             accountKept old new /\ u_role new = u_role old
                             /\ u_isActive new = u_isActive old
                             /\ (Some (u_id old) <> au_id <$> user -> new = old))
                          (users db) (users db)).
  { clear. unfold accountKept. induction (users db); constructor; try assumption.
    repeat split; reflexivity. }
  unfold updateProfile, rescue in H. cbv zeta in H.
  destruct user as [u|]; [|injection H as <- <-; auto 10].
  destruct (truthy_string (au_id u)); [|injection H as <- <-; auto 10].
  unfold mbind, exn_bind in H.
  destruct (client.user.update db (au_id u) _) as [[updatedUser d]|] eqn:Hupd;
    [|injection H as <- <-; auto 10].
  injection H as <- <-. clear Hsame.
  apply client_user_update_inv in Hupd
    as (old & Hold & Hid & Hat & He & Hn & Hp & _ & _ & _ & Hr & Ha & ->).
  rewrite !object_lookup in He, Hn, Hp, Hr, Ha by reflexivity.
  simpl property in He, Hn, Hp, Hr, Ha. simpl in He, Hn, Hp, Hr, Ha.
  cbn [users categories subcategories issues photos comments set_users].
  split; [|auto 10].
  apply (replaced_Forall2 u_id _ (au_id u) old updatedUser); try assumption.
  - intros a Ha'. unfold accountKept. repeat split; try reflexivity.
  - assert (Hold' : u_id old = au_id u).
    { apply find_some in Hold as [_ Hold]. apply bool_decide_eq_true in Hold. exact Hold. }
    unfold accountKept. repeat split; try congruence.
    intros Hne. exfalso. apply Hne. simpl. congruence.
Qed.

Lemma updateProfile_frame_witness :
  Forall2 (fun old new =>
             accountKept old new /\ u_role new = u_role old
             /\ u_isActive new = u_isActive old
             /\ (Some (u_id old) <> au_id <$> asCitizen -> new = old))
          (users town) (users (updateProfile asCitizen promoteMe town).2)
  /\ categories (updateProfile asCitizen promoteMe town).2 = categories town
  /\ subcategories (updateProfile asCitizen promoteMe town).2 = subcategories town
  /\ issues (updateProfile asCitizen promoteMe town).2 = issues town
  /\ photos (updateProfile asCitizen promoteMe town).2 = photos town
  /\ comments (updateProfile asCitizen promoteMe town).2 = comments town.
Proof.
  apply (updateProfile_frame asCitizen promoteMe town
           (updateProfile asCitizen promoteMe town).1).
  - apply (bool_decide_unpack (NoDup (map u_id (users town)))). vm_compute. exact I.
  - apply surjective_pairing.
Defined.

Lemma find_map_key {A} (key : A -> string) (f : A -> A) (id : string) (l : list A) :
  (forall a, key (f a) = key a) ->
  List.find (fun x => bool_decide (key x = id)) (map f l)
  = f <$> List.find (fun x => bool_decide (key x = id)) l.
Proof.
  intros Hkey. induction l as [|a l IH]; simpl; [reflexivity|].
  rewrite Hkey. destruct (bool_decide (key a = id)); [reflexivity|exact IH].
Qed.

(** What a change of password that replied 200 ran. *)
Lemma changePassword_changed_inv (comparePassword : string -> string -> bool)
    (hashPassword : string -> string) (user : option AuthUser) (body : JsObject) (db : Db)
    (r : Response) (db' : Db) :
  changePassword comparePassword hashPassword user body db = (r, db') ->
  status r = 200%Z ->
  exists u old current new,
    user = Some u
    /\ prisma.user.findUnique db (au_id u) = Some old
    /\ body !! "currentPassword" = Some (JStr current)
    /\ comparePassword current (u_password old) = true
    /\ body !! "newPassword" = Some (JStr new)
    /\ db' = set_users (map (fun v => if decide (u_id v = au_id u)
                                      then set_password (hashPassword new) v else v)
                            (users db)) db.
Proof.
  intros H S. unfold changePassword, catch in H. cbv zeta in H.
  destruct user as [u|]; [|reply_mismatch].
  destruct (truthy_string (au_id u)); [|reply_mismatch].
  destruct (prisma.user.findUnique db (au_id u)) as [old|] eqn:Hfind; [|reply_mismatch].
  unfold mbind, exn_bind in H.
  destruct (prisma.arg_string (body !! "currentPassword")) as [current|] eqn:Hcurrent;
    [|reply_mismatch].
  destruct (comparePassword current (u_password old)) eqn:Hcompare; cbn [negb] in H;
    [|reply_mismatch].
  destruct (prisma.arg_string (body !! "newPassword")) as [new|] eqn:Hnew;
    [|reply_mismatch].
  unfold prisma.user.update, prisma.not_found in H.
  destruct (prisma.user.exists_id db (au_id u)); [|reply_mismatch].
  injection H as <- <-. apply arg_string_inv in Hcurrent. apply arg_string_inv in Hnew.
  exists u, old, current, new. auto 10.
Qed.

(** The password changes only for who knows the current one.  A change
    that replied 200 was asked with a current password that
    [comparePassword] accepts against the stored hash, and it stores the
    hash of the new password for the requester, leaving the account
    otherwise as it was; any other reply leaves the store as it was. *)
Theorem changePassword_verifies_current (comparePassword : string -> string -> bool)
    (hashPassword : string -> string) (user : option AuthUser) (body : JsObject) (db : Db)
    (r : Response) (db' : Db) :
  changePassword comparePassword hashPassword user body db = (r, db') ->
  (status r = 200%Z ->
   exists u old current new,
     user = Some u
     /\ prisma.user.findUnique db (au_id u) = Some old
     /\ body !! "currentPassword" = Some (JStr current)
     /\ comparePassword current (u_password old) = true
     /\ body !! "newPassword" = Some (JStr new)
     /\ prisma.user.findUnique db' (au_id u) = Some (set_password (hashPassword new) old)
     /\ issues db' = issues db /\ photos db' = photos db /\ comments db' = comments db)
  /\ (status r <> 200%Z -> db' = db).
Proof.
  intros H. split.
  - intros S.
    destruct (changePassword_changed_inv _ _ _ _ _ _ _ H S)
      as (u & old & current & new & -> & Hfind & Hcurrent & Hcompare & Hnew & ->).
    exists u, old, current, new. repeat split; try assumption.
    unfold prisma.user.findUnique in *. cbn [users set_users].
    assert (Hid : u_id old = au_id u).
    { apply find_some in Hfind as [_ Hid]. apply bool_decide_eq_true in Hid. exact Hid. }
    rewrite (find_map_key u_id) by (intros a; destruct (decide _); reflexivity).
    rewrite Hfind. simpl. rewrite decide_True by exact Hid. reflexivity.
  - intros S. unfold changePassword, catch in H. cbv zeta in H.
    destruct user as [u|]; [|injection H as <- <-; reflexivity].
    destruct (truthy_string (au_id u)); [|injection H as <- <-; reflexivity].
    destruct (prisma.user.findUnique db (au_id u)) as [old|];
      [|injection H as <- <-; reflexivity].
    unfold mbind, exn_bind in H.
    destruct (prisma.arg_string (body !! "currentPassword")) as [current|];
      [|injection H as <- <-; reflexivity].
    destruct (comparePassword current (u_password old)); cbn [negb] in H;
      [|injection H as <- <-; reflexivity].
    destruct (prisma.arg_string (body !! "newPassword")) as [new|];
      [|injection H as <- <-; reflexivity].
    destruct (prisma.user.update db (au_id u) _); [|injection H as <- <-; reflexivity].
    injection H as <- <-. simpl in S. contradiction.
Qed.

(** A changed password is the one that logs in.  After a change that
    replied 200, with a password check that accepts a password against its
    own hash, the owner of an active account whose email finds it logs in
    with the new password. *)
Theorem changePassword_then_login (comparePassword : string -> string -> bool)
    (hashPassword : string -> string) (generateToken : string -> string -> UserRole -> string)
    (user : AuthUser) (body : JsObject) (db : Db) (r : Response) (db' : Db)
    (old : User) (new : string) (loginBody : JsObject) :
  (forall password, comparePassword password (hashPassword password) = true) ->
  changePassword comparePassword hashPassword (Some user) body db = (r, db') ->
  status r = 200%Z ->
  body !! "newPassword" = Some (JStr new) ->
  prisma.user.findUnique db (au_id user) = Some old ->
  client.user.findUnique db (u_email old) = Some old ->
  u_isActive old = true ->
  loginBody !! "email" = Some (JStr (u_email old)) ->
  loginBody !! "password" = Some (JStr new) ->
  status (login comparePassword generateToken loginBody db') = 200%Z.
Proof.
  intros Hhash H S Hnew Hfind Hemail Hactive Hle Hlp.
  destruct (changePassword_changed_inv _ _ _ _ _ _ _ H S)
    as (u & old' & current & new' & Hu & Hfind' & _ & _ & Hnew' & ->).
  injection Hu as <-. assert (old' = old) by congruence. subst old'.
  assert (new' = new) by congruence. subst new'.
  assert (Hid : u_id old = au_id user).
  { apply find_some in Hfind as [_ Hid]. apply bool_decide_eq_true in Hid. exact Hid. }
  rewrite (login_accepts comparePassword generateToken loginBody _ (u_email old) new
             (set_password (hashPassword new) old)); try assumption; try reflexivity.
  - unfold client.user.findUnique in *. cbn [users set_users].
    rewrite (find_map_key u_email) by (intros a; destruct (decide _); reflexivity).
    rewrite Hemail. simpl. rewrite decide_True by exact Hid. reflexivity.
  - apply Hhash.
Qed.

Lemma changePassword_then_login_witness :
  status (login passwordMatches plainToken mariaLogin
            (changePassword passwordMatches saltedHash asCitizen newPassword hashedTown).2)
  = 200%Z.
Proof.
  apply (changePassword_then_login passwordMatches saltedHash plainToken
           (mkAuthUser "u1" "maria@example.com" USER) newPassword hashedTown
           (changePassword passwordMatches saltedHash asCitizen newPassword hashedTown).1
           _ maria "open" mariaLogin).
  - intros password. unfold passwordMatches. apply String.eqb_refl.
  - apply surjective_pairing.
  - vm_compute. reflexivity.
  - reflexivity.
  - reflexivity.
  - reflexivity.
  - reflexivity.
  - reflexivity.
  - reflexivity.
Defined.

Lemma changePassword_verifies_current_witness :
  (status (changePassword passwordMatches saltedHash asCitizen newPassword hashedTown).1
   = 200%Z ->
   exists u old current new,
     asCitizen = Some u
     /\ prisma.user.findUnique hashedTown (au_id u) = Some old
     /\ newPassword !! "currentPassword" = Some (JStr current)
     /\ passwordMatches current (u_password old) = true
     /\ newPassword !! "newPassword" = Some (JStr new)
     /\ prisma.user.findUnique
          (changePassword passwordMatches saltedHash asCitizen newPassword hashedTown).2
          (au_id u)
        = Some (set_password (saltedHash new) old)
     /\ issues (changePassword passwordMatches saltedHash asCitizen newPassword hashedTown).2
        = issues hashedTown
     /\ photos (changePassword passwordMatches saltedHash asCitizen newPassword hashedTown).2
        = photos hashedTown
     /\ comments (changePassword passwordMatches saltedHash asCitizen newPassword hashedTown).2
        = comments hashedTown)
  /\ (status (changePassword passwordMatches saltedHash asCitizen newPassword hashedTown).1
      <> 200%Z ->
      (changePassword passwordMatches saltedHash asCitizen newPassword hashedTown).2
      = hashedTown).
Proof.
  apply (changePassword_verifies_current passwordMatches saltedHash asCitizen newPassword
           hashedTown
           (changePassword passwordMatches saltedHash asCitizen newPassword hashedTown).1).
  apply surjective_pairing.
Defined.

Lemma authenticate_reads_store (verifyToken : string -> option string)
    (authorization : option string) (db : Db) (u : AuthUser) :
  authenticate verifyToken authorization db = inr u ->
  exists header account,
    authorization = Some header
    /\ verifyToken (replace_first "Bearer " "" header) = Some (u_id account)
    /\ In account (users db)
    /\ u_isActive account = true
    /\ u = mkAuthUser (u_id account) (u_email account) (u_role account).
Proof.
  unfold authenticate. destruct authorization as [header|]; simpl; [|discriminate].
  destruct (truthy_string (replace_first "Bearer " "" header)); cbn [negb]; [|discriminate].
  destruct (verifyToken (replace_first "Bearer " "" header)) as [userId|] eqn:Htoken;
    [|discriminate].
  destruct (prisma.user.findUnique db userId) as [account|] eqn:Hfind; [|discriminate].
  destruct (u_isActive account) eqn:Hactive; [|discriminate].
  intros [= <-]. apply find_some in Hfind as [Hin Hid]. apply bool_decide_eq_true in Hid.
  exists header, account. rewrite Hid. auto.
Qed.

(** Who a request is made as.  When [authenticate] lets a request through,
    its header carried a token that [verifyToken] accepts, for the id of a
    stored account that is active; the email and the role of [req.user] are
    those the store holds for that account, not what the token says. *)
Theorem authenticate_sound (verifyToken : string -> option string)
    (authorization : option string) (db : Db) (u : AuthUser) :
  authenticate verifyToken authorization db = inr u ->
  exists header account,
    authorization = Some header
    /\ verifyToken (replace_first "Bearer " "" header) = Some (u_id account)
    /\ In account (users db)
    /\ u_isActive account = true
    /\ u = mkAuthUser (u_id account) (u_email account) (u_role account).
Proof.
  unfold authenticate. destruct authorization as [header|]; simpl; [|discriminate].
  destruct (truthy_string (replace_first "Bearer " "" header)); cbn [negb]; [|discriminate].
  destruct (verifyToken (replace_first "Bearer " "" header)) as [userId|] eqn:Htoken;
    [|discriminate].
  destruct (prisma.user.findUnique db userId) as [account|] eqn:Hfind; [|discriminate].
  destruct (u_isActive account) eqn:Hactive; [|discriminate].
  intros [= <-]. apply find_some in Hfind as [Hin Hid]. apply bool_decide_eq_true in Hid.
  exists header, account. rewrite Hid. auto.
Qed.

Lemma authenticate_sound_witness :
  exists header account,
    Some "Bearer s1" = Some header
    /\ tokenOwner (replace_first "Bearer " "" header) = Some (u_id account)
    /\ In account (users town)
    /\ u_isActive account = true
    /\ mkAuthUser "s1" "sup.a@glyfada.gr" SUPERVISOR
       = mkAuthUser (u_id account) (u_email account) (u_role account).
Proof.
  apply (authenticate_sound tokenOwner (Some "Bearer s1") town
           (mkAuthUser "s1" "sup.a@glyfada.gr" SUPERVISOR)).
  vm_compute. reflexivity.
Defined.

(** ** user.controller.ts *)

Lemma count_createdById (db : Db) (id : string) :
  prisma.issue.count db {[ "createdById" := WField (FEq id) ]}
  = Ok (Z.of_nat (length (List.filter (fun i => bool_decide (i_createdById i = id))
                                      (issues db)))).
Proof.
  unfold prisma.issue.count. rewrite where_valid_singleton. simpl.
  do 3 f_equal. apply filter_ext. intros i. rewrite where_holds_singleton. simpl.
  apply bool_decide_ext. change (text_column "createdById" i) with (Some (i_createdById i)).
  split; congruence.
Qed.

Lemma count_positive {A} (f : A -> bool) (l : list A) :
  (0 <? Z.of_nat (length (List.filter f l)))%Z = existsb f l.
Proof.
  induction l as [|a l IH]; simpl; [reflexivity|].
  destruct (f a); simpl; [|exact IH].
  apply Z.ltb_lt. lia.
Qed.

Lemma findUnique_exists_id (db : Db) (id : string) (u : User) :
  prisma.user.findUnique db id = Some u -> prisma.user.exists_id db id = true.
Proof.
  intros H. apply find_some in H as [Hin Hid].
  apply existsb_exists. exists u. auto.
Qed.

(** What a deletion of a user that replied 200 did: asked by an
    administrator about another account, it deactivated the account or
    removed it. *)
Lemma deleteUser_ok_inv (user : option AuthUser) (id : string) (db : Db)
    (r : Response) (db' : Db) :
  deleteUser user id db = (r, db') ->
  status r = 200%Z ->
  au_role <$> user = Some ADMIN
  /\ Some id <> au_id <$> user
  /\ (db' = set_users (map (fun u => if decide (u_id u = id) then deactivate_user u else u)
                           (users db)) db
      \/ prisma.user.delete db id = Ok db').
Proof.
  intros H S. unfold deleteUser, catch in H. cbv zeta in H.
  destruct (bool_decide (au_role <$> user = Some ADMIN)) eqn:Hrole; cbn [negb] in H;
    [|reply_mismatch].
  destruct (bool_decide (Some id = au_id <$> user)) eqn:Hself; [reply_mismatch|].
  apply bool_decide_eq_true in Hrole. apply bool_decide_eq_false in Hself.
  split; [exact Hrole|]. split; [exact Hself|].
  destruct (prisma.user.findUnique db id) as [existing|] eqn:Hfind; [|reply_mismatch].
  rewrite count_createdById in H. cbn [mbind exn_bind] in H.
  destruct (0 <? _)%Z.
  - unfold prisma.user.update in H. rewrite (findUnique_exists_id _ _ _ Hfind) in H.
    cbn [mbind exn_bind] in H. injection H as <- <-. left. reflexivity.
  - destruct (prisma.user.delete db id) as [d|]; cbn [mbind exn_bind] in H;
      [|reply_mismatch].
    injection H as <- <-. right. reflexivity.
Qed.

(** A deleted account cannot be used any more.  After a deletion that
    replied 200, whether it deactivated the account or removed it, a
    request that carries a token for that account is refused with 401 by
    [authenticate]. *)
Theorem deleteUser_revokes_access (verifyToken : string -> option string)
    (user : option AuthUser) (id : string) (db : Db) (r : Response) (db' : Db)
    (header : string) :
  deleteUser user id db = (r, db') ->
  status r = 200%Z ->
  verifyToken (replace_first "Bearer " "" header) = Some id ->
  exists refusal,
    authenticate verifyToken (Some header) db' = inl refusal /\ status refusal = 401%Z.
Proof.
  intros H S Htoken.
  destruct (deleteUser_ok_inv _ _ _ _ _ H S) as (_ & _ & Hdone).
  unfold authenticate. simpl.
  destruct (truthy_string (replace_first "Bearer " "" header)); cbn [negb];
    [|eexists; split; reflexivity].
  rewrite Htoken.
  assert (Hgone : match prisma.user.findUnique db' id with
                  | Some account => u_isActive account = false
                  | None => True
                  end).
  { destruct Hdone as [->|Hdel].
    - unfold prisma.user.findUnique. cbn [users set_users].
      rewrite (find_map_key u_id) by (intros a; destruct (decide _); reflexivity).
      destruct (List.find _ (users db)) as [account|] eqn:Hfind; simpl; [|exact I].
      apply find_some in Hfind as [_ Hid]. apply bool_decide_eq_true in Hid.
      rewrite decide_True by exact Hid. reflexivity.
    - unfold prisma.user.delete, mbind, exn_bind in Hdel.
      destruct (prisma.check (prisma.user.exists_id db id) _); [|discriminate Hdel].
      destruct (prisma.check (negb _) _); [|discriminate Hdel].
      injection Hdel as <-. unfold prisma.user.findUnique. cbn [users set_users set_issues].
      destruct (List.find _ (List.filter _ (users db))) as [account|] eqn:Hfind; [|exact I].
      apply find_some in Hfind as [Hin Hid]. apply filter_In in Hin as [_ Hne].
      rewrite Hid in Hne. discriminate Hne. }
  destruct (prisma.user.findUnique db' id) as [account|]; [|eexists; split; reflexivity].
  rewrite Hgone. eexists; split; reflexivity.
Qed.

Lemma deleteUser_revokes_access_witness :
  exists refusal,
    authenticate tokenOwner (Some "Bearer u1") (deleteUser asAdministrator "u1" town).2
    = inl refusal
    /\ status refusal = 401%Z.
Proof.
  apply (deleteUser_revokes_access tokenOwner asAdministrator "u1" town
           (deleteUser asAdministrator "u1" town).1).
  - apply surjective_pairing.
  - vm_compute. reflexivity.
  - vm_compute. reflexivity.
Defined.

(** An account that created issues is kept.  When an administrator
    deletes another user who created at least one issue, the reply is the
    200 one that says so, the account stays in the store with
    [isActive = false] and nothing else in it changed, and every issue
    stays as it was, its creator included. *)
Theorem deleteUser_author_is_deactivated (user : option AuthUser) (id : string) (db : Db)
    (existing : User) :
  au_role <$> user = Some ADMIN ->
  Some id <> au_id <$> user ->
  prisma.user.findUnique db id = Some existing ->
  (exists i, In i (issues db) /\ i_createdById i = id) ->
  exists db',
    deleteUser user id db
    = (reply 200 "User account deactivated successfully (user has created issues)" NoData,
       db')
    /\ prisma.user.findUnique db' id = Some (deactivate_user existing)
    /\ users db'
       = map (fun u => if decide (u_id u = id) then deactivate_user u else u) (users db)
    /\ issues db' = issues db /\ photos db' = photos db /\ comments db' = comments db.
Proof.
  intros Hrole Hself Hfind (i & Hin & Hby).
  unfold deleteUser, catch. cbv zeta.
  rewrite (bool_decide_eq_true_2 _ Hrole), (bool_decide_eq_false_2 _ Hself). cbn [negb].
  rewrite Hfind, count_createdById. cbn [mbind exn_bind]. rewrite count_positive.
  assert (Hex : existsb (fun i => bool_decide (i_createdById i = id)) (issues db) = true).
  { apply existsb_exists. exists i. split; [exact Hin|]. apply bool_decide_eq_true_2, Hby. }
  rewrite Hex. unfold prisma.user.update. rewrite (findUnique_exists_id _ _ _ Hfind).
  cbn [mbind exn_bind]. eexists. split; [reflexivity|].
  split; [|repeat split; reflexivity].
  unfold prisma.user.findUnique in *. cbn [users set_users].
  rewrite (find_map_key u_id) by (intros a; destruct (decide _); reflexivity).
  rewrite Hfind. simpl. apply find_some in Hfind as [_ Hid].
  apply bool_decide_eq_true in Hid. rewrite decide_True by exact Hid. reflexivity.
Qed.

Lemma deleteUser_author_is_deactivated_witness :
  exists db',
    deleteUser asAdministrator "u1" town
    = (reply 200 "User account deactivated successfully (user has created issues)" NoData,
       db')
    /\ prisma.user.findUnique db' "u1" = Some (deactivate_user citizen)
    /\ users db'
       = map (fun u => if decide (u_id u = "u1") then deactivate_user u else u) (users town)
    /\ issues db' = issues town /\ photos db' = photos town /\ comments db' = comments town.
Proof.
  apply (deleteUser_author_is_deactivated asAdministrator "u1" town citizen).
  - reflexivity.
  - discriminate.
  - reflexivity.
  - exists pothole. split; [left; reflexivity | reflexivity].
Defined.

(** An account that created no issue is removed, when nothing else needs
    it.  When an administrator deletes another user who created no issue:
    if the user uploaded a photo or wrote a comment the deletion fails, the
    reply is the 500 one and the store is left as it was; otherwise the
    reply is 200, the account is gone, the other accounts stay, and the
    issues that were assigned to the user are left with nobody assigned. *)
Theorem deleteUser_without_issues (user : option AuthUser) (id : string) (db : Db)
    (existing : User) :
  au_role <$> user = Some ADMIN ->
  Some id <> au_id <$> user ->
  prisma.user.findUnique db id = Some existing ->
  (forall i, In i (issues db) -> i_createdById i <> id) ->
  (((exists p, In p (photos db) /\ p_uploadedById p = id)
    \/ (exists c, In c (comments db) /\ cm_userId c = id)) ->
   deleteUser user id db = (internal_error, db))
  /\ ((forall p, In p (photos db) -> p_uploadedById p <> id) ->
      (forall c, In c (comments db) -> cm_userId c <> id) ->
      exists db',
        deleteUser user id db = (reply 200 "User deleted successfully" NoData, db')
        /\ prisma.user.findUnique db' id = None
        /\ (forall u, In u (users db') <-> In u (users db) /\ u_id u <> id)
        /\ issues db'
           = map (fun i => if decide (i_assignedToId i = Some id) then unassign i else i)
                 (issues db)
        /\ photos db' = photos db /\ comments db' = comments db).
Proof.
  intros Hrole Hself Hfind Hnone.
  assert (Hrun : deleteUser user id db
                 = match prisma.user.delete db id with
                   | Ok d => (reply 200 "User deleted successfully" NoData, d)
                   | Throw _ => (internal_error, db)
                   end).
  { unfold deleteUser, catch. cbv zeta.
    rewrite (bool_decide_eq_true_2 _ Hrole), (bool_decide_eq_false_2 _ Hself). cbn [negb].
    rewrite Hfind, count_createdById. cbn [mbind exn_bind]. rewrite count_positive.
    assert (Hex : existsb (fun i => bool_decide (i_createdById i = id)) (issues db) = false).
    { apply not_true_is_false. intros Hex. apply existsb_exists in Hex as (i & Hin & Hby).
      apply bool_decide_eq_true in Hby. exact (Hnone i Hin Hby). }
    rewrite Hex. destruct (prisma.user.delete db id); reflexivity. }
  rewrite Hrun. unfold prisma.user.delete. rewrite (findUnique_exists_id _ _ _ Hfind).
  cbn [prisma.check mbind exn_bind].
  assert (Hissues : existsb (fun i => bool_decide (i_createdById i = id)) (issues db) = false).
  { apply not_true_is_false. intros Hex. apply existsb_exists in Hex as (i & Hin & Hby).
    apply bool_decide_eq_true in Hby. exact (Hnone i Hin Hby). }
  rewrite Hissues. cbn [orb]. split.
  - intros Hused.
    assert (Hex : existsb (fun p => bool_decide (p_uploadedById p = id)) (photos db)
                  || existsb (fun c => bool_decide (cm_userId c = id)) (comments db) = true).
    { apply orb_true_iff. destruct Hused as [(p & Hin & Hp)|(c & Hin & Hc)]; [left|right];
        apply existsb_exists; eexists; (split; [exact Hin|]); apply bool_decide_eq_true_2;
        assumption. }
    rewrite Hex. reflexivity.
  - intros Hphotos Hcomments.
    assert (Hex : existsb (fun p => bool_decide (p_uploadedById p = id)) (photos db)
                  || existsb (fun c => bool_decide (cm_userId c = id)) (comments db) = false).
    { apply orb_false_iff. split; apply not_true_is_false; intros Hex;
        apply existsb_exists in Hex as (x & Hin & Hx); apply bool_decide_eq_true in Hx.
      - exact (Hphotos x Hin Hx).
      - exact (Hcomments x Hin Hx). }
    rewrite Hex. cbn [negb]. eexists. split; [reflexivity|].
    cbn [users issues photos comments set_users set_issues]. split.
    { unfold prisma.user.findUnique. cbn [users set_users set_issues].
      destruct (List.find _ (List.filter _ (users db))) as [account|] eqn:Hacc; [|reflexivity].
      apply find_some in Hacc as [Hin Hid]. apply filter_In in Hin as [_ Hne].
      rewrite Hid in Hne. discriminate Hne. }
    split; [intros u; apply (removed_In u_id)|].
    repeat split; reflexivity.
Qed.

Lemma deleteUser_without_issues_witness :
  (((exists p, In p (photos townWithComment) /\ p_uploadedById p = "s2")
    \/ (exists c, In c (comments townWithComment) /\ cm_userId c = "s2")) ->
   deleteUser asAdministrator "s2" townWithComment = (internal_error, townWithComment))
  /\ ((forall p, In p (photos townWithComment) -> p_uploadedById p <> "s2") ->
      (forall c, In c (comments townWithComment) -> cm_userId c <> "s2") ->
      exists db',
        deleteUser asAdministrator "s2" townWithComment
        = (reply 200 "User deleted successfully" NoData, db')
        /\ prisma.user.findUnique db' "s2" = None
        /\ (forall u, In u (users db') <-> In u (users townWithComment) /\ u_id u <> "s2")
        /\ issues db'
           = map (fun i => if decide (i_assignedToId i = Some "s2") then unassign i else i)
                 (issues townWithComment)
        /\ photos db' = photos townWithComment /\ comments db' = comments townWithComment).
Proof.
  apply (deleteUser_without_issues asAdministrator "s2" townWithComment supervisorB).
  - reflexivity.
  - discriminate.
  - reflexivity.
  - intros i [<-|[<-|[<-|[]]]]; discriminate.
Defined.

(** Only an administrator in good standing deletes users.  Through the
    route, which runs [authenticate] and [adminOnly] before the handler, a
    deletion that replied 200 was asked with a token for a stored account
    that is active, whose stored role is ADMIN and which is not the account
    being deleted; with any other reply the store is left as it was. *)
Theorem route_deleteUser_admin_only (verifyToken : string -> option string)
    (authorization : option string) (id : string) (db : Db) (r : Response) (db' : Db) :
  route_deleteUser verifyToken authorization id db = (r, db') ->
  (status r = 200%Z ->
   exists header admin,
     authorization = Some header
     /\ verifyToken (replace_first "Bearer " "" header) = Some (u_id admin)
     /\ In admin (users db)
     /\ u_isActive admin = true
     /\ u_role admin = ADMIN
     /\ u_id admin <> id)
  /\ (status r <> 200%Z -> db' = db).
Proof.
  intros H. unfold route_deleteUser in H.
  destruct (authenticate verifyToken authorization db) as [refusal|u] eqn:Hauth.
  { injection H as <- <-. split; [|reflexivity].
    unfold authenticate in Hauth. intros S.
    destruct (replace_first "Bearer " "" <$> authorization) as [token|];
      [|injection Hauth as <-; discriminate S].
    destruct (negb (truthy_string token)); [injection Hauth as <-; discriminate S|].
    destruct (verifyToken token) as [userId|]; [|injection Hauth as <-; discriminate S].
    destruct (prisma.user.findUnique db userId) as [account|];
      [|injection Hauth as <-; discriminate S].
    destruct (u_isActive account); [discriminate Hauth|].
    injection Hauth as <-. discriminate S. }
  unfold adminOnly, authorize in H.
  destruct (bool_decide (au_role u ∈ [ADMIN])) eqn:Hadmin.
  - split.
    + intros S. destruct (deleteUser_ok_inv _ _ _ _ _ H S) as (Hrole & Hself & _).
      destruct (authenticate_reads_store _ _ _ _ Hauth)
        as (header & admin & -> & Htoken & Hin & Hactive & ->).
      exists header, admin. simpl in Hrole, Hself.
      repeat split; try assumption; congruence.
    + intros S. unfold deleteUser, catch in H. cbv zeta in H.
      destruct (negb _); [injection H as <- <-; reflexivity|].
      destruct (bool_decide (Some id = _)); [injection H as <- <-; reflexivity|].
      destruct (prisma.user.findUnique db id); [|injection H as <- <-; reflexivity].
      unfold mbind, exn_bind in H.
      destruct (prisma.issue.count db _); [|injection H as <- <-; reflexivity].
      destruct (0 <? _)%Z.
      * destruct (prisma.user.update db id _); [|injection H as <- <-; reflexivity].
        injection H as <- <-. simpl in S. contradiction.
      * destruct (prisma.user.delete db id); [|injection H as <- <-; reflexivity].
        injection H as <- <-. simpl in S. contradiction.
  - injection H as <- <-. split; [discriminate|reflexivity].
Qed.

Lemma route_deleteUser_admin_only_witness :
  (status (route_deleteUser tokenOwner (Some "Bearer a1") "u1" town).1 = 200%Z ->
   exists header admin,
     Some "Bearer a1" = Some header
     /\ tokenOwner (replace_first "Bearer " "" header) = Some (u_id admin)
     /\ In admin (users town)
     /\ u_isActive admin = true
     /\ u_role admin = ADMIN
     /\ u_id admin <> "u1")
  /\ (status (route_deleteUser tokenOwner (Some "Bearer a1") "u1" town).1 <> 200%Z ->
      (route_deleteUser tokenOwner (Some "Bearer a1") "u1" town).2 = town).
Proof.
  apply (route_deleteUser_admin_only tokenOwner (Some "Bearer a1") "u1" town
           (route_deleteUser tokenOwner (Some "Bearer a1") "u1" town).1).
  apply surjective_pairing.
Defined.

(** The role of a user that an administrator creates.  A creation that
    replied 201 appended one account, active, whose password is the hash of
    the one in the body; its role is the one the body names, and USER when
    the body names none (or an empty one). *)
Theorem createUser_role (hashPassword : string -> string) (newId : string) (now : Z)
    (body : JsObject) (db : Db) (r : Reply UserView) (db' : Db) :
  createUser hashPassword newId now body db = (r, db') ->
  rp_status r = 201%Z ->
  exists u password,
    db' = set_users (users db ++ [u]) db
    /\ rp_data r = Some (withoutPassword u)
    /\ u_isActive u = true
    /\ body !! "password" = Some (JStr password)
    /\ u_password u = hashPassword password
    /\ (truthy (body !! "role") = false -> u_role u = USER)
    /\ (forall name, body !! "role" = Some (JStr name) -> name <> "" ->
        parse_role name = Some (u_role u)).
Proof.
  intros H S. unfold createUser, rescue in H. cbv zeta in H. unfold mbind, exn_bind in H.
  destruct (prisma.arg_string (body !! "email")) as [email|] eqn:Eemail;
    [|injection H as <- <-; discriminate S].
  destruct (prisma.arg_string (body !! "username")) as [username|] eqn:Eusername;
    [|injection H as <- <-; discriminate S].
  destruct (prisma.user.findFirst db email username);
    [injection H as <- <-; discriminate S|].
  destruct (prisma.arg_string (body !! "password")) as [password|] eqn:Epassword;
    [|injection H as <- <-; discriminate S].
  apply arg_string_inv in Epassword.
  unfold prisma.user.create in H.
  rewrite !object_lookup in H by reflexivity. simpl property in H.
  unfold mbind, exn_bind in H.
  destruct (prisma.check (bool_decide _) _); [|injection H as <- <-; discriminate S].
  destruct (prisma.col_string None (body !! "email")) as [email'|];
    [|injection H as <- <-; discriminate S].
  destruct (prisma.col_string None (body !! "username")) as [username'|];
    [|injection H as <- <-; discriminate S].
  cbn [prisma.col_string] in H.
  destruct (prisma.col_string None (body !! "firstName")) as [firstName|];
    [|injection H as <- <-; discriminate S].
  destruct (prisma.col_string None (body !! "lastName")) as [lastName|];
    [|injection H as <- <-; discriminate S].
  destruct (prisma.col_nullable_string None (body !! "phone")) as [phone|];
    [|injection H as <- <-; discriminate S].
  destruct (prisma.col_enum parse_role USER
              (if truthy (body !! "role") then body !! "role" else Some (JStr "USER")))
    as [role|] eqn:Erole; [|injection H as <- <-; discriminate S].
  cbn [prisma.col_bool] in H.
  destruct (prisma.check (negb _) _); [|injection H as <- <-; discriminate S].
  injection H as <- <-. eexists. exists password.
  split; [reflexivity|]. split; [reflexivity|]. split; [reflexivity|].
  split; [exact Epassword|]. split; [reflexivity|]. cbn [u_role]. split.
  - intros Hrole. rewrite Hrole in Erole. simpl in Erole. congruence.
  - intros name Hname Hne. rewrite Hname in Erole.
    assert (Ht : truthy (Some (JStr name)) = true).
    { simpl. destruct name; [contradiction|reflexivity]. }
    rewrite Ht in Erole. simpl in Erole.
    destruct (parse_role name); [congruence|discriminate Erole].
Qed.

Lemma createUser_role_witness :
  exists u password,
    (createUser saltedHash "s3" 60 newSupervisor town).2 = set_users (users town ++ [u]) town
    /\ rp_data (createUser saltedHash "s3" 60 newSupervisor town).1 = Some (withoutPassword u)
    /\ u_isActive u = true
    /\ newSupervisor !! "password" = Some (JStr password)
    /\ u_password u = saltedHash password
    /\ (truthy (newSupervisor !! "role") = false -> u_role u = USER)
    /\ (forall name, newSupervisor !! "role" = Some (JStr name) -> name <> "" ->
        parse_role name = Some (u_role u)).
Proof.
  apply (createUser_role saltedHash "s3" 60 newSupervisor town).
  - apply surjective_pairing.
  - vm_compute. reflexivity.
Defined.

(** What an administrative update cannot touch.  In a store whose user
    ids are distinct, whatever the body holds: an update asked by somebody
    whose role is not ADMIN leaves the store as it was; an update asked by
    an administrator changes no account's id, email, username or password
    hash, leaves every account but [id] as it was, and leaves the other
    tables alone. *)
Theorem updateUser_frame (user : option AuthUser) (id : string) (body : JsObject) (db : Db)
    (r : Reply UserView) (db' : Db) :
  NoDup (map u_id (users db)) ->
  updateUser user id body db = (r, db') ->
  (au_role <$> user <> Some ADMIN -> db' = db)
  /\ Forall2 (fun old new => accountKept old new /\ (u_id old <> id -> new = old))
             (users db) (users db')
  /\ categories db' = categories db /\ subcategories db' = subcategories db
  /\ issues db' = issues db /\ photos db' = photos db /\ comments db' = comments db.
Proof.
  intros Hnd H.
  assert (Hsame : Forall2 (fun old new => accountKept old new /\ (u_id old <> id -> new = old))
                          (users db) (users db)).
  { clear. unfold accountKept. induction (users db); constructor; try assumption.
    repeat split; reflexivity. }
  unfold updateUser, rescue in H. cbv zeta in H.
  destruct (bool_decide (au_role <$> user = Some ADMIN)) eqn:Hrole; cbn [negb] in H;
    [|injection H as <- <-; auto 10].
  apply bool_decide_eq_true in Hrole. split; [intros Hno; contradiction|].
  destruct (prisma.user.findUnique db id) as [existingUser|] eqn:Hfind;
    [|injection H as <- <-; auto 10].
  unfold mbind, exn_bind in H.
  destruct (client.user.update db id _) as [[updatedUser d]|] eqn:Hupd;
    [|injection H as <- <-; auto 10].
  injection H as <- <-. clear Hsame.
  apply client_user_update_inv in Hupd
    as (old & Hold & Hid & Hat & He & Hn & Hp & _ & _ & _ & _ & _ & ->).
  rewrite !object_lookup in He, Hn, Hp by reflexivity.
  simpl property in He, Hn, Hp. simpl in He, Hn, Hp.
  cbn [users categories subcategories issues photos comments set_users].
  split; [|auto 10].
  apply (replaced_Forall2 u_id _ id old updatedUser); try assumption.
  - intros a Ha. unfold accountKept. repeat split; reflexivity.
  - assert (Hold' : u_id old = id).
    { apply find_some in Hold as [_ Hold']. apply bool_decide_eq_true in Hold'. exact Hold'. }
    unfold accountKept. repeat split; try congruence.
Qed.

Lemma updateUser_frame_witness :
  (au_role <$> asAdministrator <> Some ADMIN ->
   (updateUser asAdministrator "s1" demote town).2 = town)
  /\ Forall2 (fun old new => accountKept old new /\ (u_id old <> "s1" -> new = old))
             (users town) (users (updateUser asAdministrator "s1" demote town).2)
  /\ categories (updateUser asAdministrator "s1" demote town).2 = categories town
  /\ subcategories (updateUser asAdministrator "s1" demote town).2 = subcategories town
  /\ issues (updateUser asAdministrator "s1" demote town).2 = issues town
  /\ photos (updateUser asAdministrator "s1" demote town).2 = photos town
  /\ comments (updateUser asAdministrator "s1" demote town).2 = comments town.
Proof.
  apply (updateUser_frame asAdministrator "s1" demote town
           (updateUser asAdministrator "s1" demote town).1).
  - apply (bool_decide_unpack (NoDup (map u_id (users town)))). vm_compute. exact I.
  - apply surjective_pairing.
Defined.


(** ** category.controller.ts: deleteSubcategory, and deleteCategory with createIssue *)

Lemma count_subcategoryId (db : Db) (id : string) :
  prisma.issue.count db {[ "subcategoryId" := WField (FEq id) ]}
  = Ok (Z.of_nat (length (List.filter (fun i => bool_decide (i_subcategoryId i = Some id))
                                      (issues db)))).
Proof.
  unfold prisma.issue.count. rewrite where_valid_singleton. simpl.
  do 3 f_equal. apply filter_ext. intros i. rewrite where_holds_singleton. reflexivity.
Qed.

(** Deleting an active subcategory that an issue refers to is refused with
    the 400 reply and changes nothing; with no such issue the rows stay,
    the subcategory becomes inactive, and its category, the other
    subcategories and the issues are left as they were. *)
Theorem deleteSubcategory_conflict_or_soft_delete (id : string) (db : Db) (s : Subcategory) :
  client.subcategory.findUnique db id true = Some s ->
  ((exists i, In i (issues db) /\ i_subcategoryId i = Some id) ->
     deleteSubcategory id db
     = (failure 400 "Cannot delete subcategory with existing issues", db))
  /\ ((forall i, In i (issues db) -> i_subcategoryId i <> Some id) ->
      exists db',
        deleteSubcategory id db
        = (reply 200 "Subcategory deleted successfully" NoData, db')
        /\ Forall2 (subcategory_retired id) (subcategories db) (subcategories db')
        /\ client.subcategory.findUnique db' id true = None
        /\ categories db' = categories db /\ issues db' = issues db
        /\ users db' = users db /\ photos db' = photos db).
Proof.
  intros Hfind. unfold deleteSubcategory, catch. rewrite Hfind, count_subcategoryId.
  cbn [mbind exn_bind]. rewrite count_positive. split.
  - intros (i & Hin & Hsub).
    assert (Hex : existsb (fun i => bool_decide (i_subcategoryId i = Some id)) (issues db)
                  = true).
    { apply existsb_exists. exists i. split; [exact Hin|]. apply bool_decide_eq_true_2, Hsub. }
    rewrite Hex. reflexivity.
  - intros Hnone.
    assert (Hex : existsb (fun i => bool_decide (i_subcategoryId i = Some id)) (issues db)
                  = false).
    { apply not_true_is_false. intros Hex. apply existsb_exists in Hex as (i & Hin & Hsub).
      apply bool_decide_eq_true in Hsub. exact (Hnone i Hin Hsub). }
    rewrite Hex.
    assert (Hid : prisma.subcategory.exists_id db id = true).
    { apply find_some in Hfind as [Hin Hs]. apply andb_true_iff in Hs as [Hs _].
      apply existsb_exists. eauto. }
    unfold client.subcategory.update. rewrite Hid. cbn [mbind exn_bind].
    eexists. split; [reflexivity|].
    cbn [subcategories categories issues users photos set_subcategories].
    split; [|split; [|auto]].
    + apply Forall2_map_same. intros a. unfold subcategory_retired.
      destruct (decide (s_id a = id)); simpl; auto.
    + unfold client.subcategory.findUnique. cbn [subcategories set_subcategories].
      destruct (List.find _ (map _ (subcategories db))) as [s'|] eqn:Hs'; [|reflexivity].
      apply find_some in Hs' as [Hin Hs'].
      apply in_map_iff in Hin as (a & <- & _).
      destruct (decide (s_id a = id)) as [Ha|Ha]; simpl in Hs'.
      * rewrite andb_comm in Hs'. discriminate Hs'.
      * rewrite (bool_decide_eq_false_2 _ Ha) in Hs'. discriminate Hs'.
Qed.

Lemma deleteSubcategory_conflict_or_soft_delete_witness :
  ((exists i, In i (issues town) /\ i_subcategoryId i = Some "sc2") ->
     deleteSubcategory "sc2" town
     = (failure 400 "Cannot delete subcategory with existing issues", town))
  /\ ((forall i, In i (issues town) -> i_subcategoryId i <> Some "sc2") ->
      exists db',
        deleteSubcategory "sc2" town
        = (reply 200 "Subcategory deleted successfully" NoData, db')
        /\ Forall2 (subcategory_retired "sc2") (subcategories town) (subcategories db')
        /\ client.subcategory.findUnique db' "sc2" true = None
        /\ categories db' = categories town /\ issues db' = issues town
        /\ users db' = users town /\ photos db' = photos town).
Proof.
  apply (deleteSubcategory_conflict_or_soft_delete "sc2" town lampOut).
  reflexivity.
Defined.

(** A deleted category takes no new issues.  After a deletion of a
    category that replied 200, a creation that names the category is
    refused with the 400 reply "Invalid category" and stores nothing. *)
Theorem deleteCategory_then_createIssue (id : string) (db : Db) (r : Response) (db' : Db)
    (newId referenceNumber : string) (now : Z) (user : option AuthUser) (userId : string)
    (userRole : UserRole) (body : JsObject) :
  deleteCategory id db = (r, db') ->
  status r = 200%Z ->
  credentials user = Some (userId, userRole) ->
  body !! "categoryId" = Some (JStr id) ->
  createIssue newId referenceNumber now user body db' = (failure 400 "Invalid category", db').
Proof.
  intros H S Hcred Hcat. unfold deleteCategory, catch in H.
  destruct (prisma.category.findUnique db id true) as [c|]; [|reply_mismatch].
  unfold mbind, exn_bind in H.
  destruct (prisma.issue.count db _) as [n|]; [|reply_mismatch].
  destruct (0 <? n)%Z; [reply_mismatch|].
  unfold prisma.category.update, prisma.not_found in H.
  destruct (prisma.category.exists_id db id); [|reply_mismatch].
  injection H as <- <-.
  assert (Hgone : forall d, categories d = map (fun c => if decide (c_id c = id)
                                                        then deactivate_category c else c)
                                              (categories db) ->
                            prisma.category.findUnique d id true = None).
  { intros d Hd. unfold prisma.category.findUnique. rewrite Hd.
    destruct (List.find _ (map _ (categories db))) as [c'|] eqn:Hc'; [|reflexivity].
    apply find_some in Hc' as [Hin Hc'].
    apply in_map_iff in Hin as (a & <- & _).
    destruct (decide (c_id a = id)) as [Ha|Ha]; simpl in Hc'.
    - rewrite andb_comm in Hc'. discriminate Hc'.
    - rewrite (bool_decide_eq_false_2 _ Ha) in Hc'. discriminate Hc'. }
  unfold createIssue. unfold credentials in Hcred.
  destruct user as [u|]; [|discriminate Hcred].
  destruct (truthy_string (au_id u)); [|discriminate Hcred].
  rewrite Hcat. cbn [prisma.arg_string mbind exn_bind]. rewrite Hgone by reflexivity.
  reflexivity.
Qed.

Lemma deleteCategory_then_createIssue_witness :
  createIssue "i4" "GLY-2024-004" 40 asCitizen darkStreet (deleteCategory "c2" town).2
  = (failure 400 "Invalid category", (deleteCategory "c2" town).2).
Proof.
  apply (deleteCategory_then_createIssue "c2" town (deleteCategory "c2" town).1
           (deleteCategory "c2" town).2 "i4" "GLY-2024-004" 40 asCitizen "u1" USER darkStreet).
  - apply surjective_pairing.
  - vm_compute. reflexivity.
  - reflexivity.
  - reflexivity.
Defined.


(** ** photo.controller.ts: the limit as an invariant, and deletePhoto *)

Lemma photo_rows_issueId (db : Db) (newId : nat -> string) (now : Z) (issueId userId : string)
    (descr : JsVal) (files : list MulterFile) (k : nat) (ps : list Photo) :
  prisma.photo.rows db newId now k
    (map (fun file =>
            prisma.photo.mkCreateInput (mf_filename file) (mf_originalname file)
              (mf_mimetype file) (mf_size file) (mf_path file) descr issueId userId) files)
  = Ok ps ->
  length ps = length files /\ Forall (fun p => p_issueId p = issueId) ps.
Proof.
  revert k ps. induction files as [|f files IH]; simpl; intros k ps H.
  - injection H as <-. split; [reflexivity | constructor].
  - unfold mbind, exn_bind in H.
    destruct (prisma.photo.row db (newId k) now _) as [p|] eqn:Hp; [|discriminate H].
    destruct (prisma.photo.rows db newId now (S k) _) as [ps'|] eqn:Hps; [|discriminate H].
    injection H as <-. destruct (IH _ _ Hps) as [Hlen Hall].
    split; [simpl; congruence|]. constructor; [|exact Hall].
    unfold prisma.photo.row, mbind, exn_bind in Hp.
    destruct (prisma.col_nullable_string None _); [|discriminate Hp].
    destruct (prisma.check _ _); [|discriminate Hp].
    injection Hp as <-. reflexivity.
Qed.

Lemma photo_count_app (db : Db) (ps : list Photo) (j : string) :
  prisma.photo.count (set_photos (photos db ++ ps) db) j
  = (prisma.photo.count db j
     + Z.of_nat (length (List.filter (fun p => bool_decide (p_issueId p = j)) ps)))%Z.
Proof.
  unfold prisma.photo.count. cbn [photos set_photos].
  rewrite List.filter_app, List.length_app. lia.
Qed.

(** The limit is an invariant of uploading.  With a numeric
    MAX_PHOTOS_PER_ISSUE, in a store where no issue has more photos than
    the limit, no issue has more photos than the limit after an upload,
    whatever it replied. *)
Theorem uploadPhotos_keeps_limit (env : gmap string string) (newId : nat -> string) (now : Z)
    (user : option AuthUser) (issueId : string) (files : option (list MulterFile))
    (body : JsObject) (db : Db) (disk : Disk) (m : Z) (r : Response) (db' : Db)
    (disk' : Disk) :
  maxPhotosPerIssue env = Some m ->
  photosWithin m db ->
  uploadPhotos env newId now user issueId files body (db, disk) = (r, (db', disk')) ->
  photosWithin m db'.
Proof.
  unfold photosWithin. intros Hmax Hinv H. unfold uploadPhotos in H.
  destruct (credentials user) as [[userId userRole]|]; [|injection H as <- <- <-; exact Hinv].
  destruct (prisma.issue.findUnique db issueId) as [issue|];
    [|injection H as <- <- <-; exact Hinv].
  destruct (_ && _); [injection H as <- <- <-; exact Hinv|].
  destruct files as [[|f files]|]; try (injection H as <- <- <-; exact Hinv).
  rewrite Hmax in H. unfold gt_number in H.
  destruct (m <? _)%Z eqn:Hover; [injection H as <- <- <-; exact Hinv|].
  apply Z.ltb_ge in Hover.
  destruct (prisma.photo.createMany db newId now _) as [[n d]|] eqn:Hcreate;
    [|injection H as <- <- <-; exact Hinv].
  injection H as <- <- <-.
  unfold prisma.photo.createMany, mbind, exn_bind in Hcreate.
  destruct (prisma.photo.rows db newId now 0 _) as [ps|] eqn:Hps; [|discriminate Hcreate].
  destruct (prisma.check _ _); [|discriminate Hcreate].
  injection Hcreate as <- <-.
  apply (photo_rows_issueId db newId now issueId userId _ (f :: files)) in Hps
    as [Hlen Hall].
  intros j. rewrite photo_count_app.
  destruct (decide (j = issueId)) as [->|Hj].
  - pose proof (List.filter_length_le (fun p => bool_decide (p_issueId p = issueId)) ps) as Hle.
    rewrite Hlen in Hle. lia.
  - assert (Hnone : List.filter (fun p => bool_decide (p_issueId p = j)) ps = []).
    { apply filter_nil_iff. intros p Hp. apply bool_decide_eq_false.
      rewrite List.Forall_forall in Hall. rewrite (Hall p Hp). congruence. }
    rewrite Hnone. simpl. specialize (Hinv j). lia.
Qed.

Lemma uploadPhotos_keeps_limit_witness :
  (prisma.photo.count
     (uploadPhotos limitTwo photoId 50 asCitizen "i1" (Some [photoA]) ∅
        (townWithPhoto, uploads)).2.1 "i1" <= 2)%Z.
Proof.
  apply (uploadPhotos_keeps_limit limitTwo photoId 50 asCitizen "i1" (Some [photoA]) ∅
           townWithPhoto uploads 2
           (uploadPhotos limitTwo photoId 50 asCitizen "i1" (Some [photoA]) ∅
              (townWithPhoto, uploads)).1 _
           (uploadPhotos limitTwo photoId 50 asCitizen "i1" (Some [photoA]) ∅
              (townWithPhoto, uploads)).2.2).
  - vm_compute. reflexivity.
  - intros j. unfold prisma.photo.count, townWithPhoto. cbn [photos List.filter].
    destruct (bool_decide _); simpl; lia.
  - rewrite <- !surjective_pairing. reflexivity.
Defined.

(** A limit that is not a number is no limit.  When MAX_PHOTOS_PER_ISSUE
    does not parse as an integer, no batch is refused for its size: an
    upload by a requester allowed to upload to the issue never gets the 400
    reply, however many photos the issue has, and none of its files is
    removed unless storing the rows fails. *)
Theorem uploadPhotos_without_numeric_limit (env : gmap string string) (newId : nat -> string)
    (now : Z) (user : option AuthUser) (userId : string) (userRole : UserRole)
    (issueId : string) (issue : Issue) (file : MulterFile) (files : list MulterFile)
    (body : JsObject) (db : Db) (disk : Disk) :
  maxPhotosPerIssue env = None ->
  credentials user = Some (userId, userRole) ->
  prisma.issue.findUnique db issueId = Some issue ->
  (userRole = USER -> i_createdById issue = userId) ->
  status (uploadPhotos env newId now user issueId (Some (file :: files)) body (db, disk)).1
  <> 400%Z
  /\ (status (uploadPhotos env newId now user issueId (Some (file :: files)) body
                (db, disk)).1 = 201%Z ->
      exists db',
        (uploadPhotos env newId now user issueId (Some (file :: files)) body (db, disk)).2
        = (db', disk)
        /\ prisma.photo.count db' issueId
           = (prisma.photo.count db issueId + Z.of_nat (length (file :: files)))%Z).
Proof.
  intros Hmax Hcred Hissue Hperm. unfold uploadPhotos. rewrite Hcred, Hissue.
  assert (Hallowed :
    bool_decide (userRole = USER) && negb (bool_decide (i_createdById issue = userId)) = false).
  { case_bool_decide; simpl; [|reflexivity].
    rewrite bool_decide_eq_true_2 by auto. reflexivity. }
  rewrite Hallowed, Hmax. cbn [gt_number].
  destruct (prisma.photo.createMany db newId now _) as [[n d]|] eqn:Hcreate.
  - split; [discriminate|]. intros _. exists d. split; [reflexivity|].
    unfold prisma.photo.createMany, mbind, exn_bind in Hcreate.
    destruct (prisma.photo.rows db newId now 0 _) as [ps|] eqn:Hps; [|discriminate Hcreate].
    destruct (prisma.check _ _); [|discriminate Hcreate].
    injection Hcreate as <- <-.
    apply (photo_rows_issueId db newId now issueId userId _ (file :: files)) in Hps
      as [Hlen Hall].
    rewrite photo_count_app. f_equal. f_equal. rewrite <- Hlen. f_equal.
    clear Hlen. induction Hall as [|p ps Hp Hall IH]; simpl; [reflexivity|].
    rewrite (bool_decide_eq_true_2 _ Hp), IH. reflexivity.
  - split; [discriminate|]. intros S. discriminate S.
Qed.

Lemma uploadPhotos_without_numeric_limit_witness :
  status (uploadPhotos limitInWords photoId 50 asCitizen "i1" (Some [photoA; photoB]) ∅
            (townWithPhoto, uploads)).1 <> 400%Z
  /\ (status (uploadPhotos limitInWords photoId 50 asCitizen "i1" (Some [photoA; photoB]) ∅
                (townWithPhoto, uploads)).1 = 201%Z ->
      exists db',
        (uploadPhotos limitInWords photoId 50 asCitizen "i1" (Some [photoA; photoB]) ∅
           (townWithPhoto, uploads)).2 = (db', uploads)
        /\ prisma.photo.count db' "i1"
           = (prisma.photo.count townWithPhoto "i1" + Z.of_nat (length [photoA; photoB]))%Z).
Proof.
  apply (uploadPhotos_without_numeric_limit limitInWords photoId 50 asCitizen "u1" USER "i1"
           pothole photoA [photoB] ∅ townWithPhoto uploads).
  - vm_compute. reflexivity.
  - reflexivity.
  - reflexivity.
  - reflexivity.
Defined.

Lemma removeFile_difference (path : string) (disk : Disk) :
  removeFile path disk = disk ∖ {[ path ]}.
Proof.
  unfold removeFile, unlinkSync. case_bool_decide as Hin; [reflexivity|].
  symmetry. apply difference_disjoint_L, disjoint_singleton_r. exact Hin.
Qed.

(** Who may delete a photo, and what goes with it.  A deletion that
    replied 200 was asked by an administrator, by the uploader of the
    photo, or by a citizen who created the issue of the photo; a supervisor
    or an office user cannot delete a photo somebody else uploaded.  The
    row is removed and so is the file, no other row and no other file. *)
Theorem deletePhoto_effect (user : option AuthUser) (id : string) (db : Db) (disk : Disk)
    (r : Response) (db' : Db) (disk' : Disk) :
  deletePhoto user id (db, disk) = (r, (db', disk')) ->
  status r = 200%Z ->
  exists userId userRole photo,
    credentials user = Some (userId, userRole)
    /\ client.photo.findUnique db id = Some photo
    /\ (userRole = ADMIN \/ p_uploadedById photo = userId
        \/ (userRole = USER
            /\ exists issue, prisma.issue.findUnique db (p_issueId photo) = Some issue
                             /\ i_createdById issue = userId))
    /\ client.photo.findUnique db' id = None
    /\ (forall p, In p (photos db') <-> In p (photos db) /\ p_id p <> id)
    /\ disk' = disk ∖ {[ p_path photo ]}
    /\ issues db' = issues db /\ users db' = users db /\ comments db' = comments db.
Proof.
  intros H S. unfold deletePhoto, catch in H.
  destruct (credentials user) as [[userId userRole]|]; [|reply_mismatch].
  destruct (client.photo.findUnique db id) as [photo|] eqn:Hfind; [|reply_mismatch].
  unfold mbind, exn_bind in H.
  assert (Hallowed :
    forall canDelete,
      (if bool_decide (userRole = ADMIN) || bool_decide (p_uploadedById photo = userId)
       then Ok true
       else if bool_decide (userRole = USER)
       then match required (prisma.issue.findUnique db (p_issueId photo)) with
            | Ok issue => Ok (bool_decide (i_createdById issue = userId))
            | Throw e => Throw e
            end
       else Ok false) = Ok canDelete ->
      canDelete = true ->
      userRole = ADMIN \/ p_uploadedById photo = userId
      \/ (userRole = USER
          /\ exists issue, prisma.issue.findUnique db (p_issueId photo) = Some issue
                           /\ i_createdById issue = userId)).
  { intros canDelete Hcan ->.
    destruct (bool_decide (userRole = ADMIN)) eqn:Ha.
    { left. apply bool_decide_eq_true in Ha. exact Ha. }
    destruct (bool_decide (p_uploadedById photo = userId)) eqn:Hu.
    { right. left. apply bool_decide_eq_true in Hu. exact Hu. }
    cbn [orb] in Hcan.
    destruct (bool_decide (userRole = USER)) eqn:Hr; [|discriminate Hcan].
    destruct (prisma.issue.findUnique db (p_issueId photo)) as [issue|];
      [|discriminate Hcan].
    simpl in Hcan. injection Hcan as Hcan. right. right.
    apply bool_decide_eq_true in Hr. apply bool_decide_eq_true in Hcan. eauto. }
  match type of Hallowed with
  | forall c, ?e = Ok c -> _ => destruct e as [canDelete|] eqn:Hcan; [|reply_mismatch]
  end.
  destruct canDelete; cbn [negb] in H; [|reply_mismatch].
  specialize (Hallowed true eq_refl eq_refl).
  unfold client.photo.delete, prisma.not_found in H. rewrite Hfind in H.
  rewrite bool_decide_eq_true_2 in H by (eexists; reflexivity).
  injection H as <- <- <-.
  exists userId, userRole, photo. split; [reflexivity|]. split; [reflexivity|].
  split; [exact Hallowed|].
  cbn [photos issues users comments set_photos]. split.
  { unfold client.photo.findUnique. cbn [photos set_photos].
    destruct (List.find _ (List.filter _ (photos db))) as [p|] eqn:Hp; [|reflexivity].
    apply find_some in Hp as [Hin Hid]. apply filter_In in Hin as [_ Hne].
    rewrite Hid in Hne. discriminate Hne. }
  split; [intros p; apply (removed_In p_id)|].
  split; [apply removeFile_difference|]. auto.
Qed.

Lemma deletePhoto_effect_witness :
  exists userId userRole photo,
    credentials asCitizen = Some (userId, userRole)
    /\ client.photo.findUnique townWithPhoto "p1" = Some photo
    /\ (userRole = ADMIN \/ p_uploadedById photo = userId
        \/ (userRole = USER
            /\ exists issue,
                 prisma.issue.findUnique townWithPhoto (p_issueId photo) = Some issue
                 /\ i_createdById issue = userId))
    /\ client.photo.findUnique (deletePhoto asCitizen "p1" (townWithPhoto, uploads)).2.1 "p1"
       = None
    /\ (forall p, In p (photos (deletePhoto asCitizen "p1" (townWithPhoto, uploads)).2.1)
                  <-> In p (photos townWithPhoto) /\ p_id p <> "p1")
    /\ (deletePhoto asCitizen "p1" (townWithPhoto, uploads)).2.2
       = uploads ∖ {[ p_path photo ]}
    /\ issues (deletePhoto asCitizen "p1" (townWithPhoto, uploads)).2.1 = issues townWithPhoto
    /\ users (deletePhoto asCitizen "p1" (townWithPhoto, uploads)).2.1 = users townWithPhoto
    /\ comments (deletePhoto asCitizen "p1" (townWithPhoto, uploads)).2.1
       = comments townWithPhoto.
Proof.
  apply (deletePhoto_effect asCitizen "p1" townWithPhoto uploads
           (deletePhoto asCitizen "p1" (townWithPhoto, uploads)).1).
  - rewrite <- !surjective_pairing. reflexivity.
  - vm_compute. reflexivity.
Defined.


(** ** excel.controller.ts: the report of an import, the summary of an export *)

(** One turn of the import loop: the row is stored and counted as
    successful, or it is counted as failed with one message and the store
    is left as it was. *)
Lemma importRow_step (userId : string) (newId : nat -> string) (now : nat -> Z)
    (worksheet : Worksheet) (results : ImportResults) (db : Db) (rowNumber : nat)
    (results' : ImportResults) (db' : Db) :
  importRow userId newId now worksheet (results, db) rowNumber = (results', db') ->
  (successful results' = (successful results + 1)%Z
   /\ failed results' = failed results /\ errors results' = errors results
   /\ exists i, db' = set_issues (issues db ++ [i]) db
                /\ i_createdById i = userId /\ i_status i = PENDING
                /\ i_assignedToId i = None)
  \/ (successful results' = successful results
      /\ failed results' = (failed results + 1)%Z
      /\ (exists msg, errors results' = (errors results ++ [msg])%list)
      /\ db' = db).
Proof.
  intros H. unfold importRow in H. cbv zeta in H.
  destruct (_ || _); [injection H as <- <-; right; simpl; eauto 10|].
  destruct (prisma.category.findFirst db _ true) as [category|];
    [|injection H as <- <-; right; simpl; eauto 10].
  destruct (prisma.issue.create db _ _ _) as [[i d]|] eqn:Hcreate;
    [|injection H as <- <-; right; simpl; eauto 10].
  injection H as <- <-. left. simpl. repeat split.
  apply create_inv in Hcreate as (Hrow & _ & ->).
  apply row_inv in Hrow as (_ & _ & Hst & _ & _ & _ & _ & Hby & Hto).
  rewrite !object_lookup in Hst, Hby, Hto by reflexivity.
  simpl property in Hst, Hby, Hto. simpl in Hst, Hby, Hto.
  exists i. repeat split; congruence.
Qed.

Lemma importRows_account (userId : string) (newId : nat -> string) (now : nat -> Z)
    (worksheet : Worksheet) (rowNumbers : list nat) (results : ImportResults) (db : Db)
    (results' : ImportResults) (db' : Db) :
  fold_left (importRow userId newId now worksheet) rowNumbers (results, db)
  = (results', db') ->
  (successful results' + failed results'
   = successful results + failed results + Z.of_nat (length rowNumbers))%Z
  /\ (Z.of_nat (length (errors results')) - failed results'
      = Z.of_nat (length (errors results)) - failed results)%Z
  /\ (exists added,
         issues db' = (issues db ++ added)%list
         /\ Z.of_nat (length added) = (successful results' - successful results)%Z
         /\ Forall (fun i => i_createdById i = userId /\ i_status i = PENDING
                             /\ i_assignedToId i = None) added)
  /\ users db' = users db /\ categories db' = categories db
  /\ subcategories db' = subcategories db
  /\ photos db' = photos db /\ comments db' = comments db.
Proof.
  revert results db. induction rowNumbers as [|n rowNumbers IH]; intros results db H.
  - simpl in H. injection H as <- <-. split; [simpl; lia|]. split; [lia|].
    split; [|auto 10]. exists []. rewrite app_nil_r. split; [reflexivity|].
    split; [simpl; lia | constructor].
  - cbn [fold_left] in H.
    destruct (importRow userId newId now worksheet (results, db) n) as [results1 db1] eqn:H1.
    apply importRow_step in H1. apply IH in H.
    destruct H as (Hsum & Herr & (added & Hissues & Hlen & Hall) & Hu & Hc & Hs & Hp & Hm).
    cbn [length]. rewrite Nat2Z.inj_succ.
    destruct H1 as [(S1 & F1 & E1 & i & -> & Hby & Hst & Hto)|(S1 & F1 & (msg & E1) & ->)].
    + cbn [issues users categories subcategories photos comments set_issues] in *.
      rewrite S1, F1 in Hsum. rewrite E1, F1 in Herr.
      split; [lia|]. split; [lia|]. split; [|auto 10].
      exists (i :: added). rewrite Hissues, <- app_assoc. split; [reflexivity|].
      split; [simpl; lia|]. constructor; auto.
    + rewrite S1, F1 in Hsum. rewrite E1, F1, length_app in Herr. simpl in Herr.
      split; [lia|]. split; [lia|]. split; [|auto 10].
      exists added. rewrite <- S1. auto.
Qed.

(** The report of an import accounts for every data row.  When an
    administrator imports a worksheet, [successful + failed] is the number
    of rows after the header, [errors] holds one message for each failed
    row, and the store gains exactly [successful] issues, appended, each
    created by the requester, PENDING and unassigned; the other tables are
    left as they were. *)
Theorem importIssues_accounts_for_every_row (newId : nat -> string) (now : nat -> Z)
    (user : option AuthUser) (worksheet : Worksheet) (db : Db) (r : Response) (db' : Db)
    (report : ImportResults) :
  importIssues newId now user (Some (Ok (Some worksheet))) db = (r, db') ->
  data r = DataImport report ->
  (successful report + failed report = Z.of_nat (rowCount worksheet - 1))%Z
  /\ Z.of_nat (length (errors report)) = failed report
  /\ (exists added,
         issues db' = (issues db ++ added)%list
         /\ Z.of_nat (length added) = successful report
         /\ Forall (fun i => Some (i_createdById i) = au_id <$> user /\ i_status i = PENDING
                             /\ i_assignedToId i = None) added)
  /\ users db' = users db /\ categories db' = categories db
  /\ subcategories db' = subcategories db
  /\ photos db' = photos db /\ comments db' = comments db.
Proof.
  intros H Hdata. unfold importIssues in H.
  destruct (credentials user) as [[userId userRole]|] eqn:Hcred;
    [|injection H as <- <-; discriminate Hdata].
  destruct (negb _); [injection H as <- <-; discriminate Hdata|].
  destruct (fold_left _ _ _) as [results d] eqn:Hfold.
  injection H as <- <-. simpl in Hdata. injection Hdata as <-.
  apply importRows_account in Hfold
    as (Hsum & Herr & (added & Hissues & Hlen & Hall) & Hrest).
  rewrite length_seq in Hsum. simpl in Hsum, Herr, Hlen.
  split; [lia|]. split; [lia|]. split; [|exact Hrest].
  exists added. split; [exact Hissues|]. split; [lia|].
  assert (Hid : au_id <$> user = Some userId).
  { unfold credentials in Hcred. destruct user as [u|]; [|discriminate Hcred].
    destruct (truthy_string (au_id u)); [|discriminate Hcred].
    injection Hcred as <- _. reflexivity. }
  rewrite Hid. eapply Forall_impl; [exact Hall|].
  intros i (Hby & Hst & Hto). repeat split; congruence.
Qed.

Lemma importIssues_accounts_for_every_row_witness :
  (successful importedReport
   + failed importedReport
   = Z.of_nat (rowCount threeRows - 1))%Z
  /\ Z.of_nat (length (errors importedReport))
     = failed importedReport
  /\ (exists added,
         issues (importIssues importId importClock asAdministrator
                   (Some (Ok (Some threeRows))) town).2
         = (issues town ++ added)%list
         /\ Z.of_nat (length added)
            = successful importedReport
         /\ Forall (fun i => Some (i_createdById i) = au_id <$> asAdministrator
                             /\ i_status i = PENDING /\ i_assignedToId i = None) added)
  /\ users (importIssues importId importClock asAdministrator
              (Some (Ok (Some threeRows))) town).2 = users town
  /\ categories (importIssues importId importClock asAdministrator
                   (Some (Ok (Some threeRows))) town).2 = categories town
  /\ subcategories (importIssues importId importClock asAdministrator
                      (Some (Ok (Some threeRows))) town).2 = subcategories town
  /\ photos (importIssues importId importClock asAdministrator
               (Some (Ok (Some threeRows))) town).2 = photos town
  /\ comments (importIssues importId importClock asAdministrator
                 (Some (Ok (Some threeRows))) town).2 = comments town.
Proof.
  apply (importIssues_accounts_for_every_row importId importClock asAdministrator threeRows
           town
           (importIssues importId importClock asAdministrator
              (Some (Ok (Some threeRows))) town).1).
  - apply surjective_pairing.
  - vm_compute. reflexivity.
Defined.

Lemma bump_total (k : string) (acc : list (string * Z)) :
  fold_right Z.add 0%Z (map snd (bump k acc))
  = (fold_right Z.add 0 (map snd acc) + 1)%Z.
Proof.
  induction acc as [|[k' n] acc IH]; simpl; [reflexivity|].
  destruct (String.eqb k k'); simpl; lia.
Qed.

Lemma bump_fst_In (k : string) (acc : list (string * Z)) (x : string) :
  In x (map fst (bump k acc)) -> x = k \/ In x (map fst acc).
Proof.
  induction acc as [|[k' n] acc IH]; simpl.
  - intros [<-|[]]. left. reflexivity.
  - destruct (String.eqb k k'); simpl.
    + intros H. right. exact H.
    + intros [<-|Hx]; [right; left; reflexivity|].
      destruct (IH Hx) as [->|Hin]; [left; reflexivity | right; right; exact Hin].
Qed.

Lemma bump_keys (k : string) (acc : list (string * Z)) :
  NoDup (map fst acc) -> NoDup (map fst (bump k acc)).
Proof.
  induction acc as [|[k' n] acc IH]; simpl; intros Hnd.
  - apply NoDup_singleton.
  - apply NoDup_cons in Hnd as [Hnotin Hnd].
    destruct (String.eqb k k') eqn:Hk; simpl.
    + apply NoDup_cons. split; assumption.
    + apply NoDup_cons. split; [|apply IH; exact Hnd].
      intros Hx. apply list_elem_of_In, bump_fst_In in Hx as [->|Hx].
      * rewrite String.eqb_refl in Hk. discriminate Hk.
      * apply Hnotin, list_elem_of_In, Hx.
Qed.

Lemma statusCounts_total (l : list Issue) :
  fold_right Z.add 0%Z (map snd (statusCounts l)) = Z.of_nat (length l)
  /\ NoDup (map fst (statusCounts l)).
Proof.
  unfold statusCounts.
  assert (Hgen : forall acc,
            NoDup (map fst acc) ->
            fold_right Z.add 0%Z
              (map snd (fold_left (fun acc issue => bump (status_name (i_status issue)) acc)
                                  l acc))
            = (fold_right Z.add 0 (map snd acc) + Z.of_nat (length l))%Z
            /\ NoDup (map fst (fold_left (fun acc issue =>
                                            bump (status_name (i_status issue)) acc) l acc))).
  { induction l as [|i l IH]; intros acc Hnd; simpl fold_left.
    - split; [simpl; lia | exact Hnd].
    - destruct (IH (bump (status_name (i_status i)) acc) (bump_keys _ _ Hnd)) as [Hsum Hk].
      split; [|exact Hk]. rewrite Hsum, bump_total. cbn [length]. lia. }
  destruct (Hgen [] (NoDup_nil_2)) as [Hsum Hk]. split; [|exact Hk].
  rewrite Hsum. simpl. lia.
Qed.

Lemma traverse_Forall2 {A B} (f : A -> exn B) (l : list A) (bs : list B) :
  traverse f l = Ok bs -> Forall2 (fun a b => f a = Ok b) l bs.
Proof.
  revert bs. induction l as [|a l IH]; simpl; intros bs H.
  - injection H as <-. constructor.
  - unfold mbind, exn_bind in H.
    destruct (f a) as [b|] eqn:Hb; [|discriminate H].
    destruct (traverse f l) as [bs'|]; [|discriminate H].
    injection H as <-. constructor; auto.
Qed.

Lemma StronglySorted_weaken {A} (R R' : relation A) (l : list A) :
  (forall a b, R a b -> R' a b) -> StronglySorted R l -> StronglySorted R' l.
Proof.
  intros Himp H. induction H as [|a l Hl IH Hall]; constructor; [exact IH|].
  eapply Forall_impl; [exact Hall|]. intros b. apply Himp.
Qed.

(** The summary block of an export agrees with its rows.  In the document
    of an export, the total is the number of data rows, the counts by
    status add up to the total with each status listed once, the number of
    emergencies is the number of rows marked as one, and the rows are in
    order of creation, the newest first; the store is left as it was. *)
Theorem exportIssues_summary (Date_parse : string -> JsDate)
    (toLocaleDateString : Z -> string) (user : option AuthUser) (q : ExportQuery) (db : Db)
    (r : Response) (db' : Db) (wb : Workbook) :
  exportIssues Date_parse toLocaleDateString user q db = (r, db') ->
  data r = DataXlsx wb ->
  wb_total wb = Z.of_nat (length (wb_rows wb))
  /\ fold_right Z.add 0%Z (map snd (wb_statusCounts wb)) = wb_total wb
  /\ NoDup (map fst (wb_statusCounts wb))
  /\ wb_emergencyCount wb
     = Z.of_nat (length (List.filter (fun row => String.eqb (r_isEmergency row) "Ναι")
                                     (wb_rows wb)))
  /\ (exists found,
         StronglySorted (fun a b => (i_createdAt b <= i_createdAt a)%Z) found
         /\ Forall2 (fun i row => exportRow toLocaleDateString db i = Ok row)
                    found (wb_rows wb))
  /\ db' = db.
Proof.
  intros H Hdata. unfold exportIssues, catch in H.
  destruct (credentials user) as [[userId userRole]|];
    [|injection H as <- <-; discriminate Hdata].
  destruct (bool_decide (userRole = USER)); [injection H as <- <-; discriminate Hdata|].
  unfold mbind, exn_bind in H.
  destruct (prisma.issue.findMany db _ _ _ _) as [found|] eqn:Hfound;
    [|injection H as <- <-; discriminate Hdata].
  destruct (traverse _ found) as [rows|] eqn:Hrows;
    [|injection H as <- <-; discriminate Hdata].
  injection H as <- <-. simpl in Hdata. injection Hdata as <-.
  cbn [wb_total wb_rows wb_statusCounts wb_emergencyCount].
  apply traverse_Forall2 in Hrows.
  assert (Hlen : length rows = length found).
  { symmetry. exact (Forall2_length _ _ _ Hrows). }
  destruct (statusCounts_total found) as [Hsum Hkeys].
  split; [rewrite Hlen; reflexivity|].
  split; [rewrite map_map; simpl; exact Hsum|].
  split.
  { rewrite map_map. simpl.
    assert (Hinj : forall l : list (string * Z),
              NoDup (map fst l) ->
              Forall (fun kv => exists s, kv.1 = status_name s) l ->
              NoDup (map (fun sc => translateStatus sc.1 ++ ":") l)).
    { intros l. induction l as [|[k n] l IH]; simpl; intros Hnd Hst; [constructor|].
      apply NoDup_cons in Hnd as [Hnotin Hnd]. apply Forall_cons in Hst as [[s Hs] Hst].
      apply NoDup_cons. split; [|apply IH; assumption].
      intros Hx. apply list_elem_of_In, in_map_iff in Hx as ([k2 n2] & Heq & Hin2).
      apply Hnotin. apply list_elem_of_In, in_map_iff. exists (k2, n2). split; [|exact Hin2].
      rewrite List.Forall_forall in Hst. destruct (Hst _ Hin2) as [s2 Hs2].
      simpl in *. subst k k2. destruct s, s2; try reflexivity; vm_compute in Heq;
        discriminate Heq. }
    apply Hinj; [exact Hkeys|].
    unfold statusCounts.
    assert (Hgen : forall acc,
              Forall (fun kv : string * Z => exists s, kv.1 = status_name s) acc ->
              Forall (fun kv : string * Z => exists s, kv.1 = status_name s)
                (fold_left (fun acc issue => bump (status_name (i_status issue)) acc)
                           found acc)).
    { clear. induction found as [|i found IH]; intros acc Hacc; simpl; [exact Hacc|].
      apply IH. clear IH. induction acc as [|[k n] acc IHacc]; simpl.
      - constructor; [eexists; reflexivity | constructor].
      - apply Forall_cons in Hacc as [Hk Hacc].
        destruct (String.eqb _ k); constructor; auto. }
    apply Hgen. constructor. }
  split.
  { clear Hlen Hsum Hkeys Hfound. f_equal.
    induction Hrows as [|i row found rows Hrow Hrows IH]; simpl; [reflexivity|].
    unfold exportRow, mbind, exn_bind in Hrow.
    destruct (required (List.find _ (categories db))); [|discriminate Hrow].
    destruct (required (prisma.user.findUnique db _)); [|discriminate Hrow].
    injection Hrow as <-. cbn [r_isEmergency].
    destruct (i_isEmergency i); simpl; rewrite IH; reflexivity. }
  split; [|reflexivity].
  exists found. split; [|exact Hrows].
  rewrite (findMany_ok_inv _ _ _ _ _ _ Hfound).
  apply (StronglySorted_weaken (prisma.ordered newestFirst));
    [intros a b Hab; apply Z.leb_le; exact Hab|].
  apply (window_sorted (prisma.ordered newestFirst)).
  unfold prisma.issue.sort_by. apply StronglySorted_merge_sort.
  - intros a b c. unfold prisma.ordered, newestFirst. rewrite !Z.leb_le. lia.
  - intros a b. unfold prisma.ordered, newestFirst. rewrite !Z.leb_le. lia.
Qed.

Lemma exportIssues_summary_witness :
  wb_total exportedBook = Z.of_nat (length (wb_rows exportedBook))
  /\ fold_right Z.add 0%Z (map snd (wb_statusCounts exportedBook)) = wb_total exportedBook
  /\ NoDup (map fst (wb_statusCounts exportedBook))
  /\ wb_emergencyCount exportedBook
     = Z.of_nat (length (List.filter (fun row => String.eqb (r_isEmergency row) "Ναι")
                                     (wb_rows exportedBook)))
  /\ (exists found,
         StronglySorted (fun a b => (i_createdAt b <= i_createdAt a)%Z) found
         /\ Forall2 (fun i row => exportRow plainDate town i = Ok row)
                    found (wb_rows exportedBook))
  /\ (exportIssues noDate plainDate asSupervisorA noExportFilter town).2 = town.
Proof.
  apply (exportIssues_summary noDate plainDate asSupervisorA noExportFilter town
           (exportIssues noDate plainDate asSupervisorA noExportFilter town).1).
  - apply surjective_pairing.
  - vm_compute. reflexivity.
Defined.

Lemma exportIssues_succeeds_witness :
  exists wb,
    exportIssues noDate plainDate asSupervisorA noExportFilter town = (attachment wb, town).
Proof.
  apply (exportIssues_succeeds noDate plainDate asSupervisorA "s1" SUPERVISOR noExportFilter
           town).
  - reflexivity.
  - discriminate.
  - vm_compute. reflexivity.
  - intros i [<-|[<-|[<-|[]]]]; split; reflexivity.
Defined.
